(** * Fluid bake orchestration of [physics_fluid.c]

    A shallow embedding of the legacy (elbeem) channel sampler, scene
    validation and path resolver, and of the Mantaflow bake/free job
    controller, together with the properties of their specification.

    Conventions.  C [int]s are integers of [Z]; every value met here is a
    frame number, a count or a small bit mask, so no operation leaves the
    32-bit range and wrap-around never applies.  C [float] and [double] are
    IEEE-754 binary32 and binary64 values, computed by the Standard
    Library's [SpecFloat] operations at the two precisions.  A path is its
    list of components; the empty C string is the path without components.
    Functions of the host application (scene evaluation, file system,
    matrix decomposition, [powf]) are fields of the [Host] classes. *)

From Stdlib Require Import ZArith Bool String List Lia.
From Stdlib Require Import SpecFloat.
From stdpp Require Import base list list_numbers strings.

Local Open Scope string_scope.
Local Open Scope list_scope.
Local Open Scope Z_scope.

(* ===================================================================== *)
(** * Floating point                                                      *)
(* ===================================================================== *)

(** C [float]: binary32. *)
Module F32.
Definition prec : Z := 24.
Definition emax : Z := 128.
Definition add := SFadd prec emax.
Definition sub := SFsub prec emax.
Definition mul := SFmul prec emax.
Definition div := SFdiv prec emax.
Definition ltb := SFltb.
Definition zero : spec_float := S754_zero false.
(** [(float)n] for an [int] [n]. *)
Definition of_Z (n : Z) : spec_float := binary_normalize prec emax n 0 false.
(** [(float)x] for a [double] [x]: rounding to nearest even. *)
Definition of_double (x : spec_float) : spec_float :=
  match x with
  | S754_finite s m e => binary_round prec emax s m e
  | _ => x
  end.
(** The binary32 value nearest to the decimal [n / 10]. *)
Definition tenths (n : Z) : spec_float := div (of_Z n) (of_Z 10).
End F32.

(** C [double]: binary64. *)
Module F64.
Definition prec : Z := 53.
Definition emax : Z := 1024.
Definition sub := SFsub prec emax.
Definition div := SFdiv prec emax.
Definition of_Z (n : Z) : spec_float := binary_normalize prec emax n 0 false.
(** [(double)x] for a [float] [x]: exact. *)
Definition of_float (x : spec_float) : spec_float :=
  match x with
  | S754_finite s m e => binary_round prec emax s m e
  | _ => x
  end.
(** [M_PI] of [math.h], 0x400921FB54442D18. *)
Definition M_PI : spec_float := S754_finite false 7074237752028440 (-51).
End F64.

Abbreviation float := spec_float.
Abbreviation double := spec_float.

(* ===================================================================== *)
(** * Reports and paths                                                   *)
(* ===================================================================== *)

Inductive ReportType := RPT_INFO | RPT_WARNING | RPT_ERROR.

(** One call of [BKE_report], [BKE_reportf] or [WM_reportf]: the level, the
    format string as written in the source and the string arguments in
    order.  The elapsed wall-clock time printed by the job-end hooks is
    not recorded. *)
Record Report := mkReport {
  rpt_type : ReportType;
  rpt_format : string;
  rpt_args : list string }.

Definition BKE_report (reports : list Report) (t : ReportType) (msg : string) : list Report :=
  reports ++ [mkReport t msg []].

Definition BKE_reportf (reports : list Report) (t : ReportType) (fmt : string)
    (args : list string) : list Report :=
  reports ++ [mkReport t fmt args].

Definition path := list string.

Definition path_text (p : path) : string := String.concat "/" p.

(** [BLI_path_join(dst, size, dir, name, NULL)] and [BLI_join_dirfile]. *)
Definition BLI_path_join (dir : path) (name : string) : path := dir ++ [name].
Definition BLI_join_dirfile (dir : path) (file : string) : path := dir ++ [file].

(** [q] is [p] or lies below it. *)
Definition path_under (p q : path) : bool := bool_decide (p `prefix_of` q).

(** The file system utilities of [BLI_fileops]/[BLI_path_util].
    [BLI_delete] is the recursive deletion [BLI_delete(p, true, true)]. *)
Class FileSystem := {
  FS : Type;
  BLI_dir_create_recursive : path -> FS -> bool * FS;
  BLI_file_is_writable : path -> FS -> bool * FS;
  BLI_exists : path -> FS -> bool;
  BLI_delete : path -> FS -> FS;
  BLI_path_abs : path -> path -> path;
  modifier_path_init : string -> path;
  modifier_path_relbase : path;
  BLI_exists_delete : forall p q fs,
    BLI_exists q (BLI_delete p fs) = BLI_exists q fs && negb (path_under p q) }.

(** A file system that is the list of its entries, where every directory
    can be created and every file written. *)
Module ListFS.
Definition exists_ (p : path) (fs : list path) : bool := bool_decide (p ∈ fs).
Definition delete (p : path) (fs : list path) : list path :=
  filter (fun q => negb (path_under p q) = true) fs.
Definition create (p : path) (fs : list path) : bool * list path :=
  (true, if exists_ p fs then fs else fs ++ [p]).
Definition writable (p : path) (fs : list path) : bool * list path := (true, fs).
Definition abs (p relbase : path) : path := p.
End ListFS.

(** A file system on which nothing can be created or written. *)
Module ReadOnlyFS.
Definition create (p : path) (fs : list path) : bool * list path := (false, fs).
Definition writable (p : path) (fs : list path) : bool * list path := (false, fs).
End ReadOnlyFS.

(** A file system on which only the directories below [ok] can be created
    and written. *)
Module GuardedFS.
Definition create (ok : path) (p : path) (fs : list path) : bool * list path :=
  if path_under ok p then ListFS.create p fs else (false, fs).
Definition writable (ok : path) (p : path) (fs : list path) : bool * list path :=
  (path_under ok p, fs).
End GuardedFS.

(* ===================================================================== *)
(** * Mantaflow bake state                                                *)
(* ===================================================================== *)

Inductive Stage := DATA | NOISE | MESH | PARTICLES | GUIDING.

(** The ten flags [FLUID_DOMAIN_BAKING_X] and [FLUID_DOMAIN_BAKED_X]. *)
Inductive CacheBit := BAKING (X : Stage) | BAKED (X : Stage).

#[global] Instance Stage_eq_dec : EqDecision Stage.
Proof. solve_decision. Defined.

#[global] Instance CacheBit_eq_dec : EqDecision CacheBit.
Proof. solve_decision. Defined.

(** Modelled from the spec: the enum of [DNA_smoke_types.h] that gives
    the flags their values is missing from the sources; the bake state is
    "a bitset over {BAKING_X, BAKED_X}", so each flag is one bit of the
    [int] [cache_flag] and no two flags share a bit. *)
Class CacheFlagLayout := {
  cache_bit : CacheBit -> Z;
  cache_bit_range : forall b, 0 <= cache_bit b < 31;
  cache_bit_inj : forall b c, cache_bit b = cache_bit c -> b = c }.

Definition FLUID_DOMAIN `{CacheFlagLayout} (b : CacheBit) : Z := Z.shiftl 1 (cache_bit b).

(** [flags & FLUID_DOMAIN_b], as a C condition. *)
Definition flag_set `{CacheFlagLayout} (flags : Z) (b : CacheBit) : bool :=
  negb (Z.land flags (FLUID_DOMAIN b) =? 0).

(** The layout [1 << 0, 1 << 1, ..., 1 << 9] in the order DATA, NOISE,
    MESH, PARTICLES, GUIDING with BAKING before BAKED. *)
Definition stage_index (X : Stage) : Z :=
  match X with DATA => 0 | NOISE => 1 | MESH => 2 | PARTICLES => 3 | GUIDING => 4 end.

Definition dna_cache_bit (b : CacheBit) : Z :=
  match b with
  | BAKING X => 2 * stage_index X
  | BAKED X => 2 * stage_index X + 1
  end.

(** [FLUID_DOMAIN_DIR_X]: the cache layout on disk. *)
Definition FLUID_DOMAIN_DIR (X : Stage) : string :=
  match X with
  | DATA => "data"
  | NOISE => "noise"
  | MESH => "mesh"
  | PARTICLES => "particles"
  | GUIDING => "guiding"
  end.

Record SmokeDomainSettings := mkSDS {
  cache_flag : Z;
  cache_frame_start : Z;
  cache_frame_end : Z;
  cache_frame_pause_data : Z;
  cache_frame_pause_noise : Z;
  cache_frame_pause_mesh : Z;
  cache_frame_pause_particles : Z;
  cache_frame_pause_guiding : Z;
  cache_directory : path;
  error : string }.

Definition set_cache_flag (v : Z) (sds : SmokeDomainSettings) : SmokeDomainSettings :=
  mkSDS v (cache_frame_start sds) (cache_frame_end sds)
    (cache_frame_pause_data sds) (cache_frame_pause_noise sds) (cache_frame_pause_mesh sds)
    (cache_frame_pause_particles sds) (cache_frame_pause_guiding sds)
    (cache_directory sds) (error sds).

Definition set_cache_directory (v : path) (sds : SmokeDomainSettings) : SmokeDomainSettings :=
  mkSDS (cache_flag sds) (cache_frame_start sds) (cache_frame_end sds)
    (cache_frame_pause_data sds) (cache_frame_pause_noise sds) (cache_frame_pause_mesh sds)
    (cache_frame_pause_particles sds) (cache_frame_pause_guiding sds)
    v (error sds).

Definition set_error (v : string) (sds : SmokeDomainSettings) : SmokeDomainSettings :=
  mkSDS (cache_flag sds) (cache_frame_start sds) (cache_frame_end sds)
    (cache_frame_pause_data sds) (cache_frame_pause_noise sds) (cache_frame_pause_mesh sds)
    (cache_frame_pause_particles sds) (cache_frame_pause_guiding sds)
    (cache_directory sds) v.

(** [int *pause_frame = &sds->cache_frame_pause_X]: the pointer is the
    stage whose field it addresses; [pause_get] reads through it and
    [pause_set] writes through it. *)
Definition pause_get (X : Stage) (sds : SmokeDomainSettings) : Z :=
  match X with
  | DATA => cache_frame_pause_data sds
  | NOISE => cache_frame_pause_noise sds
  | MESH => cache_frame_pause_mesh sds
  | PARTICLES => cache_frame_pause_particles sds
  | GUIDING => cache_frame_pause_guiding sds
  end.

Definition pause_set (X : Stage) (v : Z) (sds : SmokeDomainSettings) : SmokeDomainSettings :=
  let pd := cache_frame_pause_data sds in
  let pn := cache_frame_pause_noise sds in
  let pm := cache_frame_pause_mesh sds in
  let pp := cache_frame_pause_particles sds in
  let pg := cache_frame_pause_guiding sds in
  let mk d n m p g :=
    mkSDS (cache_flag sds) (cache_frame_start sds) (cache_frame_end sds) d n m p g
      (cache_directory sds) (error sds) in
  match X with
  | DATA => mk v pn pm pp pg
  | NOISE => mk pd v pm pp pg
  | MESH => mk pd pn v pp pg
  | PARTICLES => mk pd pn pm v pg
  | GUIDING => mk pd pn pm pp v
  end.

(** [SmokeModifierData]: the modifier found by
    [modifiers_findByType(ob, eModifierType_Smoke)]; [domain] may be NULL. *)
Record SmokeModifierData := mkSMD { domain : option SmokeDomainSettings }.

(** [FluidMantaflowJob].  [stop], [do_update] and [progress] point to
    slots of the window manager's job, or are NULL ([None]) when the
    operator runs the job itself; a slot is held with its content.
    [pause_frame] is NULL until [fluid_manta_bake_startjob] sets it. *)
Record FluidMantaflowJob := mkJob {
  job_stop : option Z;
  job_do_update : option Z;
  job_progress : option float;
  job_type : string;
  job_name : string;
  job_success : Z;
  job_pause_frame : option Stage }.

(** The application state a Mantaflow operator or job works on: the
    globals [G.is_break] and [G.is_rendering], the draw locks, the current
    frame [scene->r.cfra], the file system, the reports shown to the user,
    the jobs handed to [WM_jobs_start], and the Mantaflow data [D] in
    reach: for an operator the smoke modifier of the active object, if
    any; for a job the domain settings [job->smd->domain]. *)
Record World `{FileSystem} (D : Type) := mkWorld {
  G_is_break : bool;
  G_is_rendering : bool;
  draw_locks : bool;
  cfra : Z;
  files : FS;
  wm_reports : list Report;
  wm_jobs : list FluidMantaflowJob;
  data : D }.

Arguments mkWorld {_ _}.
Arguments G_is_break {_ _}.
Arguments G_is_rendering {_ _}.
Arguments draw_locks {_ _}.
Arguments cfra {_ _}.
Arguments files {_ _}.
Arguments wm_reports {_ _}.
Arguments wm_jobs {_ _}.
Arguments data {_ _}.

Section WorldUpdates.
Context `{FileSystem} {D : Type}.

Definition set_G_is_break (v : bool) (w : World D) : World D :=
  mkWorld v (G_is_rendering w) (draw_locks w) (cfra w) (files w) (wm_reports w) (wm_jobs w) (data w).
Definition set_G_is_rendering (v : bool) (w : World D) : World D :=
  mkWorld (G_is_break w) v (draw_locks w) (cfra w) (files w) (wm_reports w) (wm_jobs w) (data w).
Definition BKE_spacedata_draw_locks (v : bool) (w : World D) : World D :=
  mkWorld (G_is_break w) (G_is_rendering w) v (cfra w) (files w) (wm_reports w) (wm_jobs w) (data w).
Definition set_cfra (v : Z) (w : World D) : World D :=
  mkWorld (G_is_break w) (G_is_rendering w) (draw_locks w) v (files w) (wm_reports w) (wm_jobs w) (data w).
Definition set_files (v : FS) (w : World D) : World D :=
  mkWorld (G_is_break w) (G_is_rendering w) (draw_locks w) (cfra w) v (wm_reports w) (wm_jobs w) (data w).
Definition set_wm_reports (v : list Report) (w : World D) : World D :=
  mkWorld (G_is_break w) (G_is_rendering w) (draw_locks w) (cfra w) (files w) v (wm_jobs w) (data w).
Definition WM_jobs_start (job : FluidMantaflowJob) (w : World D) : World D :=
  mkWorld (G_is_break w) (G_is_rendering w) (draw_locks w) (cfra w) (files w) (wm_reports w)
    (wm_jobs w ++ [job]) (data w).
Definition set_data {E : Type} (v : E) (w : World D) : World E :=
  mkWorld (G_is_break w) (G_is_rendering w) (draw_locks w) (cfra w) (files w) (wm_reports w)
    (wm_jobs w) v.
Definition WM_reportf (t : ReportType) (fmt : string) (args : list string) (w : World D) : World D :=
  set_wm_reports (BKE_reportf (wm_reports w) t fmt args) w.
End WorldUpdates.

Abbreviation MantaState := (World SmokeDomainSettings).
Abbreviation bContext := (World (option SmokeModifierData)).

Definition set_job_slots (stop do_update : option Z) (progress : option float)
    (job : FluidMantaflowJob) : FluidMantaflowJob :=
  mkJob stop do_update progress (job_type job) (job_name job) (job_success job) (job_pause_frame job).
Definition set_job_stop (v : option Z) (job : FluidMantaflowJob) : FluidMantaflowJob :=
  mkJob v (job_do_update job) (job_progress job) (job_type job) (job_name job) (job_success job)
    (job_pause_frame job).
Definition set_job_do_update (v : option Z) (job : FluidMantaflowJob) : FluidMantaflowJob :=
  mkJob (job_stop job) v (job_progress job) (job_type job) (job_name job) (job_success job)
    (job_pause_frame job).
Definition set_job_progress (v : option float) (job : FluidMantaflowJob) : FluidMantaflowJob :=
  mkJob (job_stop job) (job_do_update job) v (job_type job) (job_name job) (job_success job)
    (job_pause_frame job).
Definition set_job_success (v : Z) (job : FluidMantaflowJob) : FluidMantaflowJob :=
  mkJob (job_stop job) (job_do_update job) (job_progress job) (job_type job) (job_name job) v
    (job_pause_frame job).
Definition set_job_pause_frame (v : option Stage) (job : FluidMantaflowJob) : FluidMantaflowJob :=
  mkJob (job_stop job) (job_do_update job) (job_progress job) (job_type job) (job_name job)
    (job_success job) v.

(** [if (p) *p = v;] for a slot pointer [p]. *)
Definition poke {A : Type} (v : A) (slot : option A) : option A :=
  match slot with Some _ => Some v | None => None end.

(** The rest of the application as the worker sees it.
    [pause_pressed f] tells whether [fluid_manta_pause_exec] has run on the
    main thread by the time the worker tests the break flag at frame [f];
    [frame_update f e] is the content of [sds->error] after
    [ED_update_for_newframe] has evaluated frame [f], [e] being its content
    before. *)
Class MantaHost := {
  pause_pressed : Z -> bool;
  frame_update : Z -> string -> string }.

Inductive OperatorResult := OPERATOR_FINISHED | OPERATOR_CANCELLED | OPERATOR_RUNNING_MODAL.

(** The chain [if (STREQ(job->type, "MANTA_OT_bake_data")) ... else if ...]
    of the bake hooks: the stage whose branch is taken. *)
Definition bake_stage_of_type (type : string) : option Stage :=
  if String.eqb type "MANTA_OT_bake_data" then Some DATA
  else if String.eqb type "MANTA_OT_bake_noise" then Some NOISE
  else if String.eqb type "MANTA_OT_bake_mesh" then Some MESH
  else if String.eqb type "MANTA_OT_bake_particles" then Some PARTICLES
  else if String.eqb type "MANTA_OT_bake_guiding" then Some GUIDING
  else None.

(** The same chain over the [MANTA_OT_free_*] operators. *)
Definition free_stage_of_type (type : string) : option Stage :=
  if String.eqb type "MANTA_OT_free_data" then Some DATA
  else if String.eqb type "MANTA_OT_free_noise" then Some NOISE
  else if String.eqb type "MANTA_OT_free_mesh" then Some MESH
  else if String.eqb type "MANTA_OT_free_particles" then Some PARTICLES
  else if String.eqb type "MANTA_OT_free_guiding" then Some GUIDING
  else None.

(** [ot->idname] of the ten bake and free operators. *)
Definition MANTA_OT_bake (X : Stage) : string := String.append "MANTA_OT_bake_" (FLUID_DOMAIN_DIR X).
Definition MANTA_OT_free (X : Stage) : string := String.append "MANTA_OT_free_" (FLUID_DOMAIN_DIR X).

(** Modelled from the spec: [FLUID_DOMAIN_DIR_DEFAULT] of
    [DNA_smoke_types.h] names the canonical default cache directory; the
    header is missing from the sources and the value plays no part below. *)
Definition FLUID_DOMAIN_DIR_DEFAULT : string := "cache_fluid".

Section MantaJob.
Context `{FileSystem} `{CacheFlagLayout} `{MantaHost}.

(** [sds->field = v] and friends, on the domain settings of the job. *)
Definition on_sds (f : SmokeDomainSettings -> SmokeDomainSettings) (st : MantaState) : MantaState :=
  set_data (f (data st)) st.

(** [fluid_manta_initpaths]. *)
Definition fluid_manta_initpaths (st : MantaState) : bool * MantaState :=
  let relbase := modifier_path_relbase in
  (* We do not accept empty paths *)
  let st :=
    match cache_directory (data st) with
    | [] =>
        let st := on_sds (set_cache_directory (modifier_path_init FLUID_DOMAIN_DIR_DEFAULT)) st in
        set_wm_reports
          (BKE_reportf (wm_reports st) RPT_WARNING
             "Fluid Mantaflow: Empty cache path, reset to default '%s'"
             [path_text (cache_directory (data st))]) st
    | _ => st
    end in
  let tmpDir := BLI_path_abs (cache_directory (data st)) relbase in
  (* Ensure whole path exists *)
  let '(dir_exists, fs) := BLI_dir_create_recursive tmpDir (files st) in
  let st := set_files fs st in
  if negb dir_exists then
    let st := on_sds (set_cache_directory (modifier_path_init FLUID_DOMAIN_DIR_DEFAULT)) st in
    let st :=
      set_wm_reports
        (BKE_reportf (wm_reports st) RPT_ERROR
           "Fluid Mantaflow: Could not create cache directory '%s', reset to default '%s'"
           [path_text tmpDir; path_text (cache_directory (data st))]) st in
    let tmpDir := BLI_path_abs (cache_directory (data st)) relbase in
    let '(ok, fs) := BLI_dir_create_recursive tmpDir (files st) in
    let st := set_files fs st in
    let st :=
      if negb ok then
        set_wm_reports
          (BKE_reportf (wm_reports st) RPT_ERROR
             "Fluid Mantaflow: Could not use default cache directory '%s', please define a valid cache path manually"
             [path_text tmpDir]) st
      else st in
    (false, st)
  else
    (* Copy final dir back into domain settings *)
    (true, on_sds (set_cache_directory tmpDir) st).

(** The body of the frame loop of [fluid_manta_bake_sequence], run over
    the frames [todo] that the [for] statement visits; the [bool] tells
    whether the function returned from inside the loop. *)
Fixpoint bake_frames (pause_frame : Stage) (frames : Z) (todo : list Z)
    (job : FluidMantaflowJob) (st : MantaState) : FluidMantaflowJob * MantaState * bool :=
  match todo with
  | [] => (job, st, false)
  | frame :: todo =>
      let progress :=
        F32.div (F32.of_Z (frame - cache_frame_start (data st))) (F32.of_Z frames) in
      (* Keep track of pause frame - needed to init future loop *)
      let st := on_sds (pause_set pause_frame frame) st in
      (* the main thread may have run fluid_manta_pause_exec meanwhile *)
      let st := if pause_pressed frame then set_G_is_break true st else st in
      (* If user requested stop, quit baking *)
      if G_is_break st then (set_job_success 0 job, st, true)
      else
        (* Update progress bar *)
        let job := set_job_do_update (poke 1 (job_do_update job)) job in
        let job := set_job_progress (poke progress (job_progress job)) job in
        let st := set_cfra frame st in
        (* Update animation system *)
        let st := on_sds (fun s => set_error (frame_update frame (error s)) s) st in
        bake_frames pause_frame frames todo job st
  end.

(** [fluid_manta_bake_sequence]; [None] when [job->pause_frame] is read
    without having been set. *)
Definition fluid_manta_bake_sequence (job : FluidMantaflowJob) (st : MantaState)
    : option (FluidMantaflowJob * MantaState) :=
  let frames := cache_frame_end (data st) - cache_frame_start (data st) + 1 in
  if frames <=? 0 then
    Some (job, on_sds (set_error "No frames to bake") st)
  else
    (* Show progress bar. *)
    let job := set_job_do_update (poke 1 (job_do_update job)) job in
    (* Get current pause frame (pointer) - depending on bake type *)
    match job_pause_frame job with
    | None => None
    | Some pause_frame =>
        (* Set frame to start point (depending on current pause frame value) *)
        let is_first_frame := pause_get pause_frame (data st) =? 0 in
        let frame :=
          if is_first_frame then cache_frame_start (data st)
          else pause_get pause_frame (data st) in
        (* Save orig frame and update scene frame *)
        let orig_frame := cfra st in
        let st := set_cfra frame st in
        (* Loop through selected frames *)
        let '(job, st, returned) :=
          bake_frames pause_frame frames
            (seqZ frame (cache_frame_end (data st) - frame + 1)) job st in
        if returned then Some (job, st)
        else
          (* Restore frame position that we were on before bake *)
          Some (job, set_cfra orig_frame st)
    end.

(** [fluid_manta_bake_startjob]. *)
Definition fluid_manta_bake_startjob (job : FluidMantaflowJob)
    (stop do_update : option Z) (progress : option float) (st : MantaState)
    : option (FluidMantaflowJob * MantaState) :=
  let job := set_job_slots stop do_update progress job in
  let job := set_job_success 1 job in
  let st := set_G_is_break false st in
  let st := set_G_is_rendering true st in
  let st := BKE_spacedata_draw_locks true st in
  let '(job, st) :=
    match bake_stage_of_type (job_type job) with
    | Some X =>
        let tmpDir := BLI_path_join (cache_directory (data st)) (FLUID_DOMAIN_DIR X) in
        (* Create the subdir if it does not exist already *)
        let st := set_files (snd (BLI_dir_create_recursive tmpDir (files st))) st in
        let st :=
          on_sds (fun s => set_cache_flag (Z.land (cache_flag s) (Z.lnot (FLUID_DOMAIN (BAKED X)))) s) st in
        let st :=
          on_sds (fun s => set_cache_flag (Z.lor (cache_flag s) (FLUID_DOMAIN (BAKING X))) s) st in
        (set_job_pause_frame (Some X) job, st)
    | None => (job, st)
    end in
  match fluid_manta_bake_sequence job st with
  | None => None
  | Some (job, st) =>
      let job := set_job_do_update (poke 1 (job_do_update job)) job in
      let job := set_job_stop (poke 0 (job_stop job)) job in
      Some (job, st)
  end.

(** The report at the end of [fluid_manta_bake_endjob] and
    [fluid_manta_free_endjob]. *)
Definition job_end_report (job : FluidMantaflowJob) (st : MantaState) : MantaState :=
  if negb (job_success job =? 0) then
    WM_reportf RPT_INFO "Fluid Mantaflow: %s complete! (%.2f)" [job_name job] st
  else if negb (String.length (error (data st)) =? 0)%nat then
    (* If an error occurred *)
    WM_reportf RPT_ERROR "Fluid Mantaflow: %s failed: %s" [job_name job; error (data st)] st
  else
    (* User canceled the bake *)
    WM_reportf RPT_WARNING "Fluid Mantaflow: %s canceled!" [job_name job] st.

(** [fluid_manta_bake_endjob]. *)
Definition fluid_manta_bake_endjob (job : FluidMantaflowJob) (st : MantaState) : MantaState :=
  let st := set_G_is_rendering false st in
  let st := BKE_spacedata_draw_locks false st in
  let st :=
    match bake_stage_of_type (job_type job) with
    | Some X =>
        let st :=
          on_sds (fun s => set_cache_flag (Z.land (cache_flag s) (Z.lnot (FLUID_DOMAIN (BAKING X)))) s) st in
        on_sds (fun s => set_cache_flag (Z.lor (cache_flag s) (FLUID_DOMAIN (BAKED X))) s) st
    | None => st
    end in
  job_end_report job st.

(** A bake job from start to end, as the job system or
    [fluid_manta_bake_exec] runs it: [fluid_manta_bake_startjob], then
    [fluid_manta_bake_endjob] with the job the former left. *)
Definition run_bake_job (job : FluidMantaflowJob) (stop do_update : option Z)
    (progress : option float) (st : MantaState) : option (FluidMantaflowJob * MantaState) :=
  match fluid_manta_bake_startjob job stop do_update progress st with
  | None => None
  | Some (job, st) => Some (job, fluid_manta_bake_endjob job st)
  end.

(** The frame at which the next bake of stage [X] starts. *)
Definition resume_frame (X : Stage) (s : SmokeDomainSettings) : Z :=
  if pause_get X s =? 0 then cache_frame_start s else pause_get X s.

(** [BLI_path_join(tmpDir, ..., sds->cache_directory, FLUID_DOMAIN_DIR_X);
    if (BLI_exists(tmpDir)) BLI_delete(tmpDir, true, true);] *)
Definition free_stage_dir (X : Stage) (st : MantaState) : MantaState :=
  let tmpDir := BLI_path_join (cache_directory (data st)) (FLUID_DOMAIN_DIR X) in
  if BLI_exists tmpDir (files st) then set_files (BLI_delete tmpDir (files st)) st else st.

(** [FLUID_DOMAIN_BAKING_X|FLUID_DOMAIN_BAKED_X]. *)
Definition stage_mask (X : Stage) : Z :=
  Z.lor (FLUID_DOMAIN (BAKING X)) (FLUID_DOMAIN (BAKED X)).

(** [fluid_manta_free_startjob].  The job system passes its own slots, so
    [stop], [do_update] and [progress] are never NULL here. *)
Definition fluid_manta_free_startjob (job : FluidMantaflowJob)
    (stop do_update : Z) (progress : float) (st : MantaState)
    : FluidMantaflowJob * MantaState :=
  let job := set_job_slots (Some stop) (Some do_update) (Some progress) job in
  let job := set_job_success 1 job in
  let st := set_G_is_break false st in
  let st := set_G_is_rendering true st in
  let st := BKE_spacedata_draw_locks true st in
  let st :=
    match free_stage_of_type (job_type job) with
    | Some DATA =>
        let st :=
          on_sds (fun s =>
            set_cache_flag
              (Z.land (cache_flag s)
                 (Z.lnot
                    (Z.lor (Z.lor (Z.lor (stage_mask DATA) (stage_mask NOISE)) (stage_mask MESH))
                       (stage_mask PARTICLES)))) s) st in
        let st := free_stage_dir DATA st in
        let st := free_stage_dir NOISE st in
        (* Free optional mesh and particles as well - otherwise they would
           not be in sync with data cache *)
        let st := free_stage_dir MESH st in
        let st := free_stage_dir PARTICLES st in
        (* Reset pause frame *)
        on_sds (pause_set DATA 0) st
    | Some X =>
        let st :=
          on_sds (fun s => set_cache_flag (Z.land (cache_flag s) (Z.lnot (stage_mask X))) s) st in
        let st := free_stage_dir X st in
        (* Reset pause frame *)
        on_sds (pause_set X 0) st
    | None => st
    end in
  let job := set_job_do_update (Some 1) job in
  let job := set_job_stop (Some 0) job in
  (* Reset scene frame to cache frame start *)
  let st := set_cfra (cache_frame_start (data st)) st in
  (* Update scene so that viewport shows freed up scene *)
  let st := on_sds (fun s => set_error (frame_update (cfra st) (error s)) s) st in
  (job, st).

(** [fluid_manta_free_endjob]. *)
Definition fluid_manta_free_endjob (job : FluidMantaflowJob) (st : MantaState) : MantaState :=
  let st := set_G_is_rendering false st in
  let st := BKE_spacedata_draw_locks false st in
  job_end_report job st.

(** [fluid_manta_free_exec] for the operator with [ot->idname = idname]
    and [ot->name = name].  The job is allocated without initialisation;
    its slots are set by [fluid_manta_free_startjob] before any use. *)
Definition fluid_manta_free_exec (idname name : string) (C : bContext)
    : OperatorResult * bContext :=
  match data C with
  | None =>
      (OPERATOR_CANCELLED,
       set_wm_reports
         (BKE_report (wm_reports C) RPT_ERROR "Bake free failed: no Fluid modifier found") C)
  | Some smd =>
      match domain smd with
      | None =>
          (OPERATOR_CANCELLED,
           set_wm_reports
             (BKE_report (wm_reports C) RPT_ERROR "Bake free failed: invalid domain") C)
      | Some sds =>
          (* Cannot free data if other bakes currently working *)
          if negb (Z.land (cache_flag sds)
                     (Z.lor (Z.lor (Z.lor (FLUID_DOMAIN (BAKING DATA)) (FLUID_DOMAIN (BAKING NOISE)))
                               (FLUID_DOMAIN (BAKING MESH)))
                        (FLUID_DOMAIN (BAKING PARTICLES))) =? 0)
          then
            (OPERATOR_CANCELLED,
             set_wm_reports
               (BKE_report (wm_reports C) RPT_ERROR "Bake free failed: pending bake jobs found") C)
          else
            let job := mkJob None None None idname name 0 None in
            let '(_, st) := fluid_manta_initpaths (set_data sds C) in
            (* Free Fluid Geometry *)
            let st := WM_jobs_start job st in
            (OPERATOR_FINISHED, set_data (Some (mkSMD (Some (data st)))) st)
      end
  end.

(** A free job from start to end, as the job system runs it. *)
Definition run_free_job (job : FluidMantaflowJob) (stop do_update : Z) (progress : float)
    (st : MantaState) : FluidMantaflowJob * MantaState :=
  let '(job, st) := fluid_manta_free_startjob job stop do_update progress st in
  (job, fluid_manta_free_endjob job st).

(** [fluid_manta_bake_exec] once [fluid_manta_initjob] has found the
    domain: the result of [fluid_manta_initpaths] is not looked at. *)
Definition fluid_manta_bake_exec (idname name : string) (st : MantaState)
    : option (OperatorResult * MantaState) :=
  let job := mkJob None None None idname name 0 None in
  let '(_, st) := fluid_manta_initpaths st in
  match run_bake_job job None None None st with
  | None => None
  | Some (_, st) => Some (OPERATOR_FINISHED, st)
  end.
End MantaJob.

(** The layout of [dna_cache_bit] and the list file system, as instances. *)
Lemma dna_cache_bit_range b : 0 <= dna_cache_bit b < 31.
Proof. destruct b as [[]|[]]; cbn; lia. Qed.

Lemma dna_cache_bit_inj b c : dna_cache_bit b = dna_cache_bit c -> b = c.
Proof. destruct b as [[]|[]], c as [[]|[]]; cbn; intros; try lia; reflexivity. Qed.

Definition dna_layout : CacheFlagLayout :=
  {| cache_bit := dna_cache_bit;
     cache_bit_range := dna_cache_bit_range;
     cache_bit_inj := dna_cache_bit_inj |}.

Lemma ListFS_exists_delete (p q : path) (fs : list path) :
  ListFS.exists_ q (ListFS.delete p fs) = ListFS.exists_ q fs && negb (path_under p q).
Proof.
  unfold ListFS.exists_, ListFS.delete.
  destruct (path_under p q) eqn:E; cbn.
  - rewrite andb_false_r. apply bool_decide_eq_false.
    intros Hin%list_elem_of_filter. rewrite E in Hin. destruct Hin as [Hin _]. discriminate.
  - rewrite andb_true_r. apply bool_decide_ext.
    rewrite list_elem_of_filter, E. cbn. tauto.
Qed.

(** A file system given by its fallible operations [create] and
    [writable], with the entries kept in a list. *)
Definition list_fs (create writable : path -> list path -> bool * list path) : FileSystem :=
  {| FS := list path;
     BLI_dir_create_recursive := create;
     BLI_file_is_writable := writable;
     BLI_exists := ListFS.exists_;
     BLI_delete := ListFS.delete;
     BLI_path_abs := ListFS.abs;
     modifier_path_init := fun name => [name];
     modifier_path_relbase := [];
     BLI_exists_delete := ListFS_exists_delete |}.

(** A host on which the pause operator runs while the job is at a frame of
    [at_frames], and no frame evaluation fails. *)
Definition pausing_host (at_frames : list Z) : MantaHost :=
  {| pause_pressed := fun f => bool_decide (f ∈ at_frames);
     frame_update := fun _ e => e |}.


(* ===================================================================== *)
(** * Legacy bake: scene and settings                                     *)
(* ===================================================================== *)

(** [fss->type]. *)
Inductive FluidsimType :=
| OB_FLUIDSIM_DOMAIN
| OB_FLUIDSIM_FLUID
| OB_FLUIDSIM_OBSTACLE
| OB_FLUIDSIM_INFLOW
| OB_FLUIDSIM_OUTFLOW
| OB_FLUIDSIM_PARTICLE
| OB_FLUIDSIM_CONTROL.

#[global] Instance FluidsimType_eq_dec : EqDecision FluidsimType.
Proof. solve_decision. Defined.

(** [float[3]]. *)
Record vec3 := mkVec3 { vx : float; vy : float; vz : float }.

(** The three floats a [float *] to a vector points to, and the one float
    a pointer to a scalar points to. *)
Definition vec_cells (v : vec3) : list float := [vx v; vy v; vz v].
Definition scalar_cells (x : float) : list float := [x].

Definition mul_v3_fl (r : vec3) (f : float) : vec3 :=
  mkVec3 (F32.mul (vx r) f) (F32.mul (vy r) f) (F32.mul (vz r) f).

(** [float[4][4]], used only by functions of the host. *)
Definition mat4 := list (list float).

(** The fields of [FluidsimSettings] that the bake reads or writes.
    [fss_active] is [flag & OB_FLUIDSIM_ACTIVE]; [iniVel] is the three
    adjacent fields [iniVelx], [iniVely], [iniVelz]. *)
Record FluidsimSettings := mkFSS {
  fss_type : FluidsimType;
  fss_active : bool;
  domainNovecgen : Z;
  animRate : float;
  animStart : float;
  animEnd : float;
  bakeStart : Z;
  bakeEnd : Z;
  viscosityValue : float;
  viscosityExponent : Z;
  grav : vec3;
  iniVel : vec3;
  attractforceStrength : float;
  attractforceRadius : float;
  velocityforceStrength : float;
  velocityforceRadius : float;
  resolutionxyz : Z;
  previewresxyz : Z;
  maxRefine : Z;
  lastgoodframe : Z;
  surfdataPath : path }.

Definition set_bake_range (bstart bend lastgood : Z) (s : FluidsimSettings) : FluidsimSettings :=
  mkFSS (fss_type s) (fss_active s) (domainNovecgen s) (animRate s) (animStart s) (animEnd s)
    bstart bend (viscosityValue s) (viscosityExponent s) (grav s) (iniVel s)
    (attractforceStrength s) (attractforceRadius s) (velocityforceStrength s)
    (velocityforceRadius s) (resolutionxyz s) (previewresxyz s) (maxRefine s) lastgood
    (surfdataPath s).

Definition set_previewresxyz (v : Z) (s : FluidsimSettings) : FluidsimSettings :=
  mkFSS (fss_type s) (fss_active s) (domainNovecgen s) (animRate s) (animStart s) (animEnd s)
    (bakeStart s) (bakeEnd s) (viscosityValue s) (viscosityExponent s) (grav s) (iniVel s)
    (attractforceStrength s) (attractforceRadius s) (velocityforceStrength s)
    (velocityforceRadius s) (resolutionxyz s) v (maxRefine s) (lastgoodframe s)
    (surfdataPath s).

Definition set_surfdataPath (v : path) (s : FluidsimSettings) : FluidsimSettings :=
  mkFSS (fss_type s) (fss_active s) (domainNovecgen s) (animRate s) (animStart s) (animEnd s)
    (bakeStart s) (bakeEnd s) (viscosityValue s) (viscosityExponent s) (grav s) (iniVel s)
    (attractforceStrength s) (attractforceRadius s) (velocityforceStrength s)
    (velocityforceRadius s) (resolutionxyz s) (previewresxyz s) (maxRefine s) (lastgoodframe s)
    v.

(** An object of the scene.  [ob_is_mesh] is [ob->type == OB_MESH];
    [fluidmd] is the settings [fss] of the modifier that
    [modifiers_findByType(ob, eModifierType_Fluidsim)] finds, if any. *)
Record Object := mkObject {
  ob_name : string;
  ob_is_mesh : bool;
  fluidmd : option FluidsimSettings;
  ob_loc : vec3;
  ob_size : vec3;
  obmat : mat4 }.

Definition set_fluidmd (v : option FluidsimSettings) (ob : Object) : Object :=
  mkObject (ob_name ob) (ob_is_mesh ob) v (ob_loc ob) (ob_size ob) (obmat ob).

(** The scene.  An [Object *] is the position of the object in
    [scene->base]; [phys_global_gravity] is
    [physics_settings.flag & PHYS_GLOBAL_GRAVITY]. *)
Record Scene := mkScene {
  r_cfra : Z;
  r_efra : Z;
  scene_base : list Object;
  phys_global_gravity : bool;
  phys_gravity : vec3 }.

Definition set_r_cfra (v : Z) (s : Scene) : Scene :=
  mkScene v (r_efra s) (scene_base s) (phys_global_gravity s) (phys_gravity s).

Definition set_scene_base (v : list Object) (s : Scene) : Scene :=
  mkScene (r_cfra s) (r_efra s) v (phys_global_gravity s) (phys_gravity s).

(** The mesh that [initElbeemMesh] hands out: vertices and triangles. *)
Record ElbeemMeshData := mkMeshData {
  mesh_verts : list vec3;
  mesh_tris : list (Z * Z * Z) }.

(** The host of the legacy bake: [ED_update_for_newframe] evaluates the
    animation of the scene at its current frame;
    [initElbeemMesh scene ob useGlobalCoords] is the mesh of an object as
    now evaluated; [mat4_to_compatible_eulO oldrot mat] is the Euler
    decomposition of [mat] nearest to [oldrot], in the order 0 that the
    sampler asks for. *)
Class LegacyHost := {
  ED_update_for_newframe : Scene -> Scene;
  initElbeemMesh : Scene -> Object -> bool -> ElbeemMeshData;
  mat4_to_compatible_eulO : vec3 -> mat4 -> vec3;
  powf : float -> float -> float;
  invert_m4_m4 : mat4 -> option mat4 }.

(** [(int)x] for a [float] [x]: truncation towards zero. *)
Definition float_to_int (x : float) : Z :=
  match x with
  | S754_finite s m e =>
      let z := if 0 <=? e then Z.shiftl (Zpos m) e else Z.shiftr (Zpos m) (- e) in
      if s then - z else z
  | _ => 0
  end.

Definition get_fluid_viscosity `{LegacyHost} (settings : FluidsimSettings) : float :=
  F32.mul (F32.div (F32.of_Z 1) (powf (F32.of_Z 10) (F32.of_Z (viscosityExponent settings))))
    (viscosityValue settings).

Definition get_fluid_rate (settings : FluidsimSettings) : float :=
  let rate := animRate settings in
  if F32.ltb rate F32.zero then F32.zero else rate.

Definition get_fluid_gravity (scene : Scene) (fss : FluidsimSettings) : vec3 :=
  if phys_global_gravity scene then phys_gravity scene else grav fss.

Definition fluid_is_animated_mesh (fss : FluidsimSettings) : bool :=
  bool_decide (fss_type fss = OB_FLUIDSIM_CONTROL) || negb (domainNovecgen fss =? 0).

(** [ELEM(type, OB_FLUIDSIM_DOMAIN, OB_FLUIDSIM_PARTICLE)]. *)
Definition is_domain_or_particle (t : FluidsimType) : bool :=
  bool_decide (t = OB_FLUIDSIM_DOMAIN) || bool_decide (t = OB_FLUIDSIM_PARTICLE).

(** [ELEM(type, OB_FLUIDSIM_FLUID, OB_FLUIDSIM_INFLOW)]. *)
Definition is_fluid_or_inflow (t : FluidsimType) : bool :=
  bool_decide (t = OB_FLUIDSIM_FLUID) || bool_decide (t = OB_FLUIDSIM_INFLOW).

(* ===================================================================== *)
(** * Legacy bake: memory                                                 *)
(* ===================================================================== *)

(** What goes wrong when C code misuses memory. *)
Inductive fault := NullPointer | WildPointer | OutOfBounds | UseAfterFree | DoubleFree.

(** A block of [float]s handed out by [MEM_callocN], alive or freed.  A
    freed block keeps its address, so a pointer to it dangles. *)
Inductive block := Live (cells : list float) | Freed.

(** The heap: the blocks allocated so far, each at its position. *)
Abbreviation heap := (list block).

(** A [float *]: NULL or the address of a block. *)
Abbreviation ptr := (option nat).

(** The state of the sampler: the heap of channel buffers and the scene. *)
Record LState := mkLState { mem : heap; scene : Scene }.

(** Computations that read and write a state [S] and may go wrong. *)
Definition ST (S A : Type) : Type := S -> fault + A * S.

#[global] Instance ST_ret {S : Type} : MRet (ST S) := fun A a st => inr (a, st).
#[global] Instance ST_bind {S : Type} : MBind (ST S) := fun A B f m st =>
  match m st with
  | inl e => inl e
  | inr (a, st') => f a st'
  end.

Definition raise {S A : Type} (e : fault) : ST S A := fun _ => inl e.

(** The computations of the sampler. *)
Abbreviation M := (ST LState).

Definition get_scene : M Scene := fun st => inr (scene st, st).
Definition put_scene (s : Scene) : M unit := fun st => inr (tt, mkLState (mem st) s).

(** [MEM_callocN(n * sizeof(float), name)]: a fresh block of [n] zeros. *)
Definition MEM_callocN (n : Z) : M ptr := fun st =>
  inr (Some (length (mem st)),
       mkLState (mem st ++ [Live (replicate (Z.to_nat n) F32.zero)]) (scene st)).

Definition MEM_freeN (p : ptr) : M unit := fun st =>
  match p with
  | None => inl NullPointer
  | Some a =>
      match mem st !! a with
      | Some (Live _) => inr (tt, mkLState (<[a := Freed]> (mem st)) (scene st))
      | Some Freed => inl DoubleFree
      | None => inl WildPointer
      end
  end.

(** The cells that [p] points to, when it may be used. *)
Definition cells_at (p : ptr) (h : heap) : fault + list float :=
  match p with
  | None => inl NullPointer
  | Some a =>
      match h !! a with
      | Some (Live cells) => inr cells
      | Some Freed => inl UseAfterFree
      | None => inl WildPointer
      end
  end.

(** [p[k]]. *)
Definition load (p : ptr) (k : Z) : M float := fun st =>
  match cells_at p (mem st) with
  | inl e => inl e
  | inr cells =>
      if (0 <=? k) && (k <? Z.of_nat (length cells)) then
        match cells !! Z.to_nat k with
        | Some v => inr (v, st)
        | None => inl OutOfBounds
        end
      else inl OutOfBounds
  end.

(** [p[k] = v]. *)
Definition store (p : ptr) (k : Z) (v : float) : M unit := fun st =>
  match p, cells_at p (mem st) with
  | Some a, inr cells =>
      if (0 <=? k) && (k <? Z.of_nat (length cells)) then
        inr (tt, mkLState (<[a := Live (<[Z.to_nat k := v]> cells)]> (mem st)) (scene st))
      else inl OutOfBounds
  | _, inl e => inl e
  | None, _ => inl NullPointer
  end.

(** [value[k]] for a pointer into a settings field or a local. *)
Definition index (value : list float) (k : nat) : M float :=
  match value !! k with
  | Some v => mret v
  | None => raise OutOfBounds
  end.

(** A [for] statement whose variable runs over [l]. *)
Fixpoint for_each {A : Type} (l : list A) (body : A -> M unit) : M unit :=
  match l with
  | [] => mret tt
  | x :: l => body x ;; for_each l body
  end.

(** [ob] for an [Object *] into the scene as it is now. *)
Definition deref_object (ob : nat) : M Object := fun st =>
  match scene_base (scene st) !! ob with
  | Some o => inr (o, st)
  | None => inl WildPointer
  end.

(** [fluidmd->fss] for the fluid modifier of [ob]; the modifier may be
    missing, and [fluidmd] then NULL. *)
Definition deref_fss (ob : nat) : M FluidsimSettings :=
  o ← deref_object ob;
  match fluidmd o with
  | Some fss => mret fss
  | None => raise NullPointer
  end.

(* ===================================================================== *)
(** * Legacy bake: channels                                               *)
(* ===================================================================== *)

Record FluidAnimChannels := mkChannels {
  chan_length : Z;
  aniFrameTime : double;
  timeAtFrame : ptr;
  DomainTime : ptr;
  DomainGravity : ptr;
  DomainViscosity : ptr }.

(** A [FluidObject]; [object] is the [Object *]. *)
Record FluidObject := mkFluidObject {
  object : nat;
  Translation : ptr;
  Rotation : ptr;
  Scale : ptr;
  Active : ptr;
  InitialVelocity : ptr;
  AttractforceStrength : ptr;
  AttractforceRadius : ptr;
  VelocityforceStrength : ptr;
  VelocityforceRadius : ptr;
  VertexCache : ptr;
  numVerts : Z;
  numTris : Z }.

Definition CHANNEL_FLOAT : Z := 1.
Definition CHANNEL_VEC : Z := 3.

(** [init_time]. *)
Definition init_time `{LegacyHost} (domainSettings : nat) (channels : FluidAnimChannels)
    : M FluidAnimChannels :=
  taf ← MEM_callocN (chan_length channels + 1);
  let channels :=
    mkChannels (chan_length channels) (aniFrameTime channels) taf (DomainTime channels)
      (DomainGravity channels) (DomainViscosity channels) in
  ds ← deref_fss domainSettings;
  (* start at index 1 *)
  store taf 1 (animStart ds);;
  store taf 0 (animStart ds);;
  for_each (seqZ 2 (chan_length channels - 1)) (fun i =>
    prev ← load taf (i - 1);
    store taf i (F32.add prev (F32.of_double (aniFrameTime channels))));;
  mret channels.

(** [set_channel]. *)
Definition set_channel (channel : ptr) (time : float) (value : list float) (i size : Z)
    : M unit :=
  if size =? CHANNEL_FLOAT then
    v0 ← index value 0;
    store channel (i * 2 + 0) v0;;
    store channel (i * 2 + 1) time
  else if size =? CHANNEL_VEC then
    v0 ← index value 0;
    store channel (i * 4 + 0) v0;;
    v1 ← index value 1;
    store channel (i * 4 + 1) v1;;
    v2 ← index value 2;
    store channel (i * 4 + 2) v2;;
    store channel (i * 4 + 3) time
  else mret tt.

(** The array [verts] that [initElbeemMesh] fills: three floats a vertex. *)
Definition flat_verts (vs : list vec3) : list float := vs ≫= vec_cells.

(** [set_vertex_channel].  [channel] is the caller's [fobj->VertexCache],
    passed by value: the assignment [channel = NULL] after [MEM_freeN]
    changes the local and nothing else, so it has no counterpart here.  The
    arrays [verts] and [tris] are temporaries of the host. *)
Definition set_vertex_channel `{LegacyHost} (channel : ptr) (time : float)
    (fobj : FluidObject) (i : Z) : M unit :=
  ob ← deref_object (object fobj);
  scene ← get_scene;
  let framesize := 3 * numVerts fobj + 1 in
  match channel with
  | None => mret tt
  | Some _ =>
      let mesh := initElbeemMesh scene ob true in
      let numVerts' := Z.of_nat (length (mesh_verts mesh)) in
      let verts := flat_verts (mesh_verts mesh) in
      (* don't allow mesh to change number of verts in anim sequence *)
      if negb (numVerts' =? numVerts fobj) then
        MEM_freeN channel
      else
        (* fill frame of channel with vertex locations *)
        for_each (seqZ 0 (3 * numVerts')) (fun j =>
          v ← index verts (Z.to_nat j);
          store channel (i * framesize + j) v);;
        store channel (i * framesize + framesize - 1) time
  end.

(** [free_domain_channels]. *)
Definition free_domain_channels (channels : FluidAnimChannels) : M FluidAnimChannels :=
  match timeAtFrame channels with
  | None => mret channels
  | Some _ =>
      MEM_freeN (timeAtFrame channels);;
      MEM_freeN (DomainGravity channels);;
      MEM_freeN (DomainViscosity channels);;
      MEM_freeN (DomainTime channels);;
      mret (mkChannels (chan_length channels) (aniFrameTime channels) None None None None)
  end.

(** [if (p) { MEM_freeN(p); ... }] over the pointers [ps], the first of
    which is the one tested. *)
Definition free_group (ps : list ptr) : M unit :=
  match ps with
  | Some _ :: _ => for_each ps MEM_freeN
  | _ => mret tt
  end.

(** [free_all_fluidobject_channels]; the objects are freed right after,
    so the pointers set to NULL are not kept. *)
Definition free_all_fluidobject_channels (fobjects : list FluidObject) : M unit :=
  for_each fobjects (fun fobj =>
    free_group [Translation fobj; Rotation fobj; Scale fobj; Active fobj; InitialVelocity fobj];;
    free_group [AttractforceStrength fobj; AttractforceRadius fobj;
                VelocityforceStrength fobj; VelocityforceRadius fobj];;
    free_group [VertexCache fobj]).

(** The body of the loop of [fluid_init_all_channels] that allocates the
    fluid objects: the [FluidObject] added for the object [ob] at position
    [idx] of [scene->base], if it has a fluid modifier. *)
Definition alloc_fluid_object `{LegacyHost} (len : Z) (idx : nat) (ob : Object)
    : M (option FluidObject) :=
  match fluidmd ob with
  | None => mret None
  | Some fss =>
      if is_domain_or_particle (fss_type fss) then
        mret (Some (mkFluidObject idx None None None None None None None None None None 0 0))
      else
        translation ← MEM_callocN (len * (CHANNEL_VEC + 1));
        rotation ← MEM_callocN (len * (CHANNEL_VEC + 1));
        scale ← MEM_callocN (len * (CHANNEL_VEC + 1));
        active ← MEM_callocN (len * (CHANNEL_FLOAT + 1));
        initialVelocity ← MEM_callocN (len * (CHANNEL_VEC + 1));
        '(afs, afr, vfs, vfr) ←
          (if bool_decide (fss_type fss = OB_FLUIDSIM_CONTROL) then
             afs ← MEM_callocN (len * (CHANNEL_FLOAT + 1));
             afr ← MEM_callocN (len * (CHANNEL_FLOAT + 1));
             vfs ← MEM_callocN (len * (CHANNEL_FLOAT + 1));
             vfr ← MEM_callocN (len * (CHANNEL_FLOAT + 1));
             mret (afs, afr, vfs, vfr)
           else mret (None, None, None, None));
        scene ← get_scene;
        '(vc, nv, nt) ←
          (if fluid_is_animated_mesh fss then
             let mesh := initElbeemMesh scene ob false in
             let nv := Z.of_nat (length (mesh_verts mesh)) in
             let nt := Z.of_nat (length (mesh_tris mesh)) in
             vc ← MEM_callocN (len * (nv * CHANNEL_VEC + 1));
             mret (vc, nv, nt)
           else mret (None, 0, 0));
        mret (Some (mkFluidObject idx translation rotation scale active initialVelocity
                      afs afr vfs vfr vc nv nt))
  end.

(** The loop [for (base = scene->base.first; base; base = base->next)] of
    [fluid_init_all_channels] over the objects [bases], the first of which
    stands at position [idx]. *)
Fixpoint alloc_fluid_objects `{LegacyHost} (len : Z) (idx : nat) (bases : list Object)
    : M (list FluidObject) :=
  match bases with
  | [] => mret []
  | ob :: bases =>
      fobj ← alloc_fluid_object len idx ob;
      rest ← alloc_fluid_objects len (S idx) bases;
      mret (match fobj with Some f => f :: rest | None => rest end)
  end.

(** The body of the loop "object movement" of [fluid_init_all_channels]
    for one fluid object at frame [i]. *)
Definition sample_object `{LegacyHost} (timeAtFrame : float) (i : Z) (fobj : FluidObject)
    : M unit :=
  ob ← deref_object (object fobj);
  fss ← deref_fss (object fobj);
  let active := if fss_active fss then F32.of_Z 1 else F32.of_Z 0 in
  if is_domain_or_particle (fss_type fss) then mret tt
  else
    (* init euler rotation values and convert to elbeem format *)
    old_rot ←
      (if negb (i =? 0) then
         r0 ← load (Rotation fobj) (4 * (i - 1) + 0);
         r1 ← load (Rotation fobj) (4 * (i - 1) + 1);
         r2 ← load (Rotation fobj) (4 * (i - 1) + 2);
         mret (mul_v3_fl (mkVec3 r0 r1 r2)
                 (F32.div (F32.of_double (SFopp F64.M_PI)) (F32.of_Z 180)))
       else mret (mkVec3 F32.zero F32.zero F32.zero));
    let rot_d := mat4_to_compatible_eulO old_rot (obmat ob) in
    let rot_d := mul_v3_fl rot_d (F32.div (SFopp (F32.of_Z 180)) (F32.of_double F64.M_PI)) in
    set_channel (Translation fobj) timeAtFrame (vec_cells (ob_loc ob)) i CHANNEL_VEC;;
    set_channel (Rotation fobj) timeAtFrame (vec_cells rot_d) i CHANNEL_VEC;;
    set_channel (Scale fobj) timeAtFrame (vec_cells (ob_size ob)) i CHANNEL_VEC;;
    set_channel (Active fobj) timeAtFrame (scalar_cells active) i CHANNEL_FLOAT;;
    set_channel (InitialVelocity fobj) timeAtFrame (vec_cells (iniVel fss)) i CHANNEL_VEC;;
    (if bool_decide (fss_type fss = OB_FLUIDSIM_CONTROL) then
       set_channel (AttractforceStrength fobj) timeAtFrame
         (scalar_cells (attractforceStrength fss)) i CHANNEL_FLOAT;;
       set_channel (AttractforceRadius fobj) timeAtFrame
         (scalar_cells (attractforceRadius fss)) i CHANNEL_FLOAT;;
       set_channel (VelocityforceStrength fobj) timeAtFrame
         (scalar_cells (velocityforceStrength fss)) i CHANNEL_FLOAT;;
       set_channel (VelocityforceRadius fobj) timeAtFrame
         (scalar_cells (velocityforceRadius fss)) i CHANNEL_FLOAT
     else mret tt);;
    (if fluid_is_animated_mesh fss then
       set_vertex_channel (VertexCache fobj) timeAtFrame fobj i
     else mret tt).

(** The body of the loop of [fluid_init_all_channels] over the frames, for
    frame [i]. *)
Definition sample_frame `{LegacyHost} (domainSettings : nat) (channels : FluidAnimChannels)
    (fobjects : list FluidObject) (i : Z) : M unit :=
  ds ← deref_fss domainSettings;
  let eval_time := F32.of_Z (bakeStart ds + i) in
  (* Modifying the global scene isn't nice, but we can do it in this part
     of the process before a threaded job is created *)
  sc ← get_scene;
  put_scene (ED_update_for_newframe (set_r_cfra (float_to_int eval_time) sc));;
  (* now scene data should be current according to animation system, so we
     fill the channels *)
  ds ← deref_fss domainSettings;
  sc ← get_scene;
  (* Domain time *)
  timeAtFrame_ ←
    match DomainTime channels with
    | Some _ =>
        let time := F32.mul (get_fluid_rate ds) (F32.of_double (aniFrameTime channels)) in
        prev ← load (timeAtFrame channels) i;
        let timeAtFrame_ := F32.add prev time in
        store (timeAtFrame channels) (i + 1) timeAtFrame_;;
        set_channel (DomainTime channels) (F32.of_Z i) (scalar_cells time) i CHANNEL_FLOAT;;
        mret timeAtFrame_
    | None => load (timeAtFrame channels) (i + 1)
    end;
  (* Domain properties - gravity/viscosity *)
  set_channel (DomainGravity channels) timeAtFrame_ (vec_cells (get_fluid_gravity sc ds)) i
    CHANNEL_VEC;;
  set_channel (DomainViscosity channels) timeAtFrame_ (scalar_cells (get_fluid_viscosity ds)) i
    CHANNEL_FLOAT;;
  (* object movement *)
  for_each fobjects (sample_object timeAtFrame_ i).

(** [fluid_init_all_channels]: the channels with their buffers and the
    list [fobjects], which is empty on entry. *)
Definition fluid_init_all_channels `{LegacyHost} (domainSettings : nat)
    (channels : FluidAnimChannels) : M (FluidAnimChannels * list FluidObject) :=
  let len := chan_length channels in
  (* init time values (assuming that time moves at a constant speed; may be
     overridden later) *)
  channels ← init_time domainSettings channels;
  (* allocate domain animation channels *)
  gravity ← MEM_callocN (len * (CHANNEL_VEC + 1));
  viscosity ← MEM_callocN (len * (CHANNEL_FLOAT + 1));
  time ← MEM_callocN (len * (CHANNEL_FLOAT + 1));
  let channels :=
    mkChannels (chan_length channels) (aniFrameTime channels) (timeAtFrame channels)
      time gravity viscosity in
  (* allocate fluid objects *)
  sc ← get_scene;
  fobjects ← alloc_fluid_objects len 0 (scene_base sc);
  (* now we loop over the frames and fill the allocated channels with data *)
  for_each (seqZ 0 (chan_length channels)) (sample_frame domainSettings channels fobjects);;
  mret (channels, fobjects).

(* ===================================================================== *)
(** * Legacy bake: validation and paths                                   *)
(* ===================================================================== *)

(** The loop of [fluid_validate_scene] over the objects [bases], the first
    of which stands at position [idx]; [None] when the loop is left by
    [return 0] after the report of a second domain, else the values of
    [newdomain], [channelObjCount] and [fluidInputCount] after the loop. *)
Fixpoint validate_bases (bases : list Object) (idx : nat) (fsDomain newdomain : option nat)
    (channelObjCount fluidInputCount : Z) : option (option nat * Z * Z) :=
  match bases with
  | [] => Some (newdomain, channelObjCount, fluidInputCount)
  | ob :: bases =>
      match fluidmd ob with
      | Some fss =>
          (* only find objects with fluid modifiers *)
          if negb (ob_is_mesh ob) then
            validate_bases bases (S idx) fsDomain newdomain channelObjCount fluidInputCount
          else
            let is_domain := bool_decide (fss_type fss = OB_FLUIDSIM_DOMAIN) in
            (* if there's more than one domain, cancel *)
            if is_domain && match fsDomain with
                            | Some d => negb (Nat.eqb idx d)
                            | None => false
                            end
            then None
            else
              (* if no initial domain object given, find another potential domain *)
              let newdomain :=
                if is_domain && match fsDomain with None => true | Some _ => false end
                then Some idx else newdomain in
              (* count number of objects needed for animation channels *)
              let channelObjCount :=
                if negb (is_domain_or_particle (fss_type fss))
                then channelObjCount + 1 else channelObjCount in
              (* count number of fluid input objects *)
              let fluidInputCount :=
                if is_fluid_or_inflow (fss_type fss)
                then fluidInputCount + 1 else fluidInputCount in
              validate_bases bases (S idx) fsDomain newdomain channelObjCount fluidInputCount
      | None =>
          validate_bases bases (S idx) fsDomain newdomain channelObjCount fluidInputCount
      end
  end.

(** [fluid_validate_scene]: the reports and the value returned. *)
Definition fluid_validate_scene (reports : list Report) (scene : Scene) (fsDomain : option nat)
    : list Report * Z :=
  match validate_bases (scene_base scene) 0 fsDomain None 0 0 with
  | None => (BKE_report reports RPT_ERROR "There should be only one domain object", 0)
  | Some (newdomain, channelObjCount, fluidInputCount) =>
      let fsDomain := match newdomain with Some d => Some d | None => fsDomain end in
      match fsDomain with
      | None => (BKE_report reports RPT_ERROR "No domain object found", 0)
      | Some _ =>
          if channelObjCount >=? 255 then
            (BKE_report reports RPT_ERROR "Cannot bake with more than 256 objects", 0)
          else if fluidInputCount =? 0 then
            (BKE_report reports RPT_ERROR "No fluid input objects in the scene", 0)
          else (reports, 1)
      end
  end.

Definition FLUID_SUFFIX_CONFIG : string := "fluidsim.cfg".
Definition FLUID_SUFFIX_CONFIG_TMP : string := String.append FLUID_SUFFIX_CONFIG ".tmp".
Definition FLUID_SUFFIX_SURFACE : string := "fluidsurface".

(** Modelled from the spec: [OB_FLUIDSIM_SURF_DIR_DEFAULT] of
    [DNA_object_fluidsim_types.h] names the canonical default cache
    directory; the header is missing from the sources and the value plays no
    part below. *)
Definition OB_FLUIDSIM_SURF_DIR_DEFAULT : string := "cache_fluid".

(** What [fluid_init_filepaths] leaves behind besides its result. *)
Record Filepaths `{FileSystem} := mkFilepaths {
  fp_reports : list Report;
  fp_settings : FluidsimSettings;
  fp_files : FS;
  fp_targetDir : path;
  fp_targetFile : path;
  fp_checks : nat }.

Arguments mkFilepaths {_}.

(** [fluid_init_filepaths].  [fp_checks] counts the times the pair of
    checks (directory exists, probe file writable) has been made. *)
Definition fluid_init_filepaths `{FileSystem} (reports : list Report)
    (domainSettings : FluidsimSettings) (fs : FS) : bool * Filepaths :=
  let suffixConfigTmp := FLUID_SUFFIX_CONFIG_TMP in
  (* prepare names... *)
  let relbase := modifier_path_relbase in
  (* We do not accept empty paths, they can end in random places silently *)
  let '(domainSettings, reports) :=
    match surfdataPath domainSettings with
    | [] =>
        let ds := set_surfdataPath (modifier_path_init OB_FLUIDSIM_SURF_DIR_DEFAULT) domainSettings in
        (ds, BKE_reportf reports RPT_WARNING
               "Fluidsim: empty cache path, reset to default '%s'"
               [path_text (surfdataPath ds)])
    | _ => (domainSettings, reports)
    end in
  let targetDir := BLI_path_abs (surfdataPath domainSettings) relbase in
  (* .tmp: don't overwrite/delete original file *)
  let targetFile := BLI_join_dirfile targetDir suffixConfigTmp in
  (* Ensure whole path exists and is wirtable. *)
  let '(dir_exists, fs) := BLI_dir_create_recursive targetDir fs in
  let '(is_writable, fs) := BLI_file_is_writable targetFile fs in
  (* We change path to some presumably valid default value, but do not allow
     bake process to continue, this gives user chance to set manually another
     path. *)
  if negb dir_exists || negb is_writable then
    let domainSettings :=
      set_surfdataPath (modifier_path_init OB_FLUIDSIM_SURF_DIR_DEFAULT) domainSettings in
    let reports :=
      if negb dir_exists then
        BKE_reportf reports RPT_ERROR
          "Fluidsim: could not create cache directory '%s', reset to default '%s'"
          [path_text targetDir; path_text (surfdataPath domainSettings)]
      else
        BKE_reportf reports RPT_ERROR
          "Fluidsim: cache directory '%s' is not writable, reset to default '%s'"
          [path_text targetDir; path_text (surfdataPath domainSettings)] in
    let targetDir := BLI_path_abs (surfdataPath domainSettings) relbase in
    (* .tmp: don't overwrite/delete original file *)
    let targetFile := BLI_join_dirfile targetDir suffixConfigTmp in
    (* Ensure whole path exists and is wirtable. *)
    let '(created, fs) := BLI_dir_create_recursive targetDir fs in
    let '(writable, fs) :=
      if created then BLI_file_is_writable targetFile fs else (false, fs) in
    let reports :=
      if negb created || negb writable then
        BKE_reportf reports RPT_ERROR
          "Fluidsim: could not use default cache directory '%s', please define a valid cache path manually"
          [path_text targetDir]
      else reports in
    (false, mkFilepaths reports domainSettings fs targetDir targetFile 2)
  else
    (true, mkFilepaths reports domainSettings fs targetDir targetFile 1).

(* ===================================================================== *)
(** * Legacy bake: controller                                             *)
(* ===================================================================== *)

(** The records handed to the solver, with the fields that the bake fills
    from the scene and the channels. *)
Module elbeem.
Record elbeemSimulationSettings := mkSettings {
  version : Z;
  resolutionxyz : Z;
  previewresxyz : Z;
  viscosity : float;
  gravity : vec3;
  animStart : float;
  aniFrameTime : double;
  noOfFrames : Z;
  maxRefine : Z;
  outputPath : path;
  channelSizeFrameTime : Z;
  channelSizeViscosity : Z;
  channelSizeGravity : Z;
  channelFrameTime : ptr;
  channelViscosity : ptr;
  channelGravity : ptr;
  surfaceTrafo : mat4 }.

Record elbeemMesh := mkMesh {
  type : FluidsimType;
  name : string;
  numVertices : Z;
  numTriangles : Z;
  channelSizeTranslation : Z;
  channelSizeRotation : Z;
  channelSizeScale : Z;
  channelSizeInitialVel : Z;
  channelSizeActive : Z;
  channelTranslation : ptr;
  channelRotation : ptr;
  channelScale : ptr;
  channelActive : ptr;
  channelInitialVel : ptr;
  channelSizeAttractforceStrength : Z;
  channelAttractforceStrength : ptr;
  channelAttractforceRadius : ptr;
  channelVelocityforceStrength : ptr;
  channelVelocityforceRadius : ptr;
  channelSizeVertices : Z;
  channelVertices : ptr }.
End elbeem.

(** What a legacy bake works on: the sampler's state, the file system,
    the reports, the domains and meshes registered with the solver since
    [elbeemInit], the settings of the jobs handed to [WM_jobs_start], and
    the frame counts [noOfFrames] of the domains with which
    [elbeemSimulate] has been run. *)
Record BakeWorld `{FileSystem} := mkBW {
  bw_state : LState;
  bw_files : FS;
  bw_reports : list Report;
  bw_domains : list elbeem.elbeemSimulationSettings;
  bw_meshes : list elbeem.elbeemMesh;
  bw_jobs : list elbeem.elbeemSimulationSettings;
  bw_simulated : list (list Z) }.

Arguments mkBW {_}.

Section BakeWorldOps.
Context `{FileSystem}.

(** A computation of the sampler, run on the state of the world. *)
Definition lift {A : Type} (m : M A) : ST BakeWorld A := fun w =>
  match m (bw_state w) with
  | inl e => inl e
  | inr (a, st) =>
      inr (a, mkBW st (bw_files w) (bw_reports w) (bw_domains w) (bw_meshes w) (bw_jobs w)
                (bw_simulated w))
  end.

Definition get_world : ST BakeWorld BakeWorld := fun w => inr (w, w).

Definition put_files (fs : FS) : ST BakeWorld unit := fun w =>
  inr (tt, mkBW (bw_state w) fs (bw_reports w) (bw_domains w) (bw_meshes w) (bw_jobs w)
             (bw_simulated w)).

Definition put_reports (reports : list Report) : ST BakeWorld unit := fun w =>
  inr (tt, mkBW (bw_state w) (bw_files w) reports (bw_domains w) (bw_meshes w) (bw_jobs w)
             (bw_simulated w)).

Definition report (t : ReportType) (msg : string) : ST BakeWorld unit := fun w =>
  inr (tt, mkBW (bw_state w) (bw_files w) (BKE_report (bw_reports w) t msg) (bw_domains w)
             (bw_meshes w) (bw_jobs w) (bw_simulated w)).

Definition elbeemInit : ST BakeWorld unit := fun w =>
  inr (tt, mkBW (bw_state w) (bw_files w) (bw_reports w) [] [] (bw_jobs w) (bw_simulated w)).

Definition elbeemAddDomain (fsset : elbeem.elbeemSimulationSettings) : ST BakeWorld unit :=
  fun w =>
  inr (tt, mkBW (bw_state w) (bw_files w) (bw_reports w) (bw_domains w ++ [fsset]) (bw_meshes w)
             (bw_jobs w) (bw_simulated w)).

Definition elbeemAddMesh (fsmesh : elbeem.elbeemMesh) : ST BakeWorld unit := fun w =>
  inr (tt, mkBW (bw_state w) (bw_files w) (bw_reports w) (bw_domains w) (bw_meshes w ++ [fsmesh])
             (bw_jobs w) (bw_simulated w)).

Definition elbeemSimulate : ST BakeWorld unit := fun w =>
  inr (tt, mkBW (bw_state w) (bw_files w) (bw_reports w) (bw_domains w) (bw_meshes w)
             (bw_jobs w) (bw_simulated w ++ [elbeem.noOfFrames <$> bw_domains w])).

(** [WM_jobs_start] for the job whose custom data holds [settings]. *)
Definition WM_jobs_start_fluid (settings : elbeem.elbeemSimulationSettings)
    : ST BakeWorld unit := fun w =>
  inr (tt, mkBW (bw_state w) (bw_files w) (bw_reports w) (bw_domains w) (bw_meshes w)
             (bw_jobs w ++ [settings]) (bw_simulated w)).

End BakeWorldOps.

(** An assignment to fields of [domainSettings], the settings of the
    fluid modifier of the object [ob]: [f] gives the record after it. *)
Definition update_fss (ob : nat) (f : FluidsimSettings -> FluidsimSettings) : M unit :=
  o ← deref_object ob;
  match fluidmd o with
  | None => raise NullPointer
  | Some fss =>
      sc ← get_scene;
      put_scene (set_scene_base (<[ob := set_fluidmd (Some (f fss)) o]> (scene_base sc)) sc)
  end.

(** [export_fluid_objects], as far as the channels of the mesh
    descriptors go. *)
Definition export_fluid_objects `{FileSystem} `{LegacyHost} (fobjects : list FluidObject)
    (len : Z) : ST BakeWorld unit :=
  (fix go (fobjects : list FluidObject) : ST BakeWorld unit :=
     match fobjects with
     | [] => mret tt
     | fobj :: fobjects =>
         ob ← lift (deref_object (object fobj));
         fss ← lift (deref_fss (object fobj));
         scene ← lift get_scene;
         let deform := fluid_is_animated_mesh fss in
         (if is_domain_or_particle (fss_type fss) then mret tt
          else
            let mesh := initElbeemMesh scene ob false in
            let control := bool_decide (fss_type fss = OB_FLUIDSIM_CONTROL) in
            elbeemAddMesh
              (elbeem.mkMesh (fss_type fss) (ob_name ob)
                 (Z.of_nat (length (mesh_verts mesh))) (Z.of_nat (length (mesh_tris mesh)))
                 len len len len len
                 (* animated meshes: remove channels *)
                 (if deform then None else Translation fobj)
                 (if deform then None else Rotation fobj)
                 (if deform then None else Scale fobj)
                 (Active fobj)
                 (if is_fluid_or_inflow (fss_type fss) then InitialVelocity fobj else None)
                 (if control then len else 0)
                 (if control then AttractforceStrength fobj else None)
                 (if control then AttractforceRadius fobj else None)
                 (if control then VelocityforceStrength fobj else None)
                 (if control then VelocityforceRadius fobj else None)
                 (if deform then len else 0)
                 (if deform then VertexCache fobj else None)));;
         go fobjects
     end) fobjects.

(** [fluidbake_free_data], as far as the channel buffers go. *)
Definition fluidbake_free_data (channels : FluidAnimChannels) (fobjects : list FluidObject)
    : M unit :=
  free_domain_channels channels;;
  free_all_fluidobject_channels fobjects.

(** [invDomMat[j][i]] laid out at [surfaceTrafo[i*4+j]]. *)
Definition transposed (m : mat4) : mat4 :=
  (fun i => (fun j => default F32.zero (m !! j ≫= (.!! i))) <$> seq 0 4) <$> seq 0 4.

(** [fluidsimBake].  Left out, as they touch neither the channels nor the
    control flow: the debug output, the bounding box, the deletion of the
    output files of an earlier bake, and the fields of the settings record
    taken over unchanged from the domain settings. *)
Definition fluidsimBake `{FileSystem} `{LegacyHost} (fsDomain : option nat) (do_job : bool)
    : ST BakeWorld Z :=
  w ← get_world;
  let origFrame := r_cfra (scene (bw_state w)) in
  let channels := mkChannels 0 (S754_zero false) None None None None in
  let fobjects : list FluidObject := [] in
  (* make sure it corresponds to startFrame setting *)
  let noFrames := r_efra (scene (bw_state w)) - 0 in
  if noFrames <=? 0 then
    report RPT_ERROR "No frames to export (check your animation range settings)";;
    lift (fluidbake_free_data channels fobjects);;
    mret 0
  else
    (* check scene for sane object/modifier settings *)
    let '(reports, valid) :=
      fluid_validate_scene (bw_reports w) (scene (bw_state w)) fsDomain in
    put_reports reports;;
    if valid =? 0 then
      lift (fluidbake_free_data channels fobjects);;
      mret 0
    else
      (* these both have to be valid, otherwise we wouldn't be here *)
      match fsDomain with
      | None => raise NullPointer
      | Some domain =>
          lift (update_fss domain (set_bake_range 1 (r_efra (scene (bw_state w))) (-1)));;
          (* rough check of settings... *)
          lift (update_fss domain (fun ds =>
                  if resolutionxyz ds <? previewresxyz ds
                  then set_previewresxyz (resolutionxyz ds) ds else ds));;
          (* prepare output file paths *)
          domainSettings ← lift (deref_fss domain);
          w ← get_world;
          let '(ok, fp) := fluid_init_filepaths (bw_reports w) domainSettings (bw_files w) in
          put_reports (fp_reports fp);;
          put_files (fp_files fp);;
          lift (update_fss domain (fun _ => fp_settings fp));;
          if negb ok then
            lift (fluidbake_free_data channels fobjects);;
            mret 0
          else
            domainSettings ← lift (deref_fss domain);
            let channels :=
              mkChannels (r_efra (scene (bw_state w)))
                (F64.div
                   (F64.sub (F64.of_float (animEnd domainSettings))
                      (F64.of_float (animStart domainSettings)))
                   (F64.of_Z noFrames))
                None None None None in
            (* initialize and allocate animation channels *)
            '(channels, fobjects) ← lift (fluid_init_all_channels domain channels);
            (* reset to original current frame *)
            sc ← lift get_scene;
            lift (put_scene (ED_update_for_newframe (set_r_cfra origFrame sc)));;
            (* init domain object's matrix *)
            fsDomainOb ← lift (deref_object domain);
            match invert_m4_m4 (obmat fsDomainOb) with
            | None =>
                report RPT_ERROR "Invalid object matrix";;
                lift (fluidbake_free_data channels fobjects);;
                mret 0
            | Some invDomMat =>
                (* export domain to elbeem *)
                domainSettings ← lift (deref_fss domain);
                sc ← lift get_scene;
                let fsset :=
                  elbeem.mkSettings 1
                    (resolutionxyz domainSettings) (previewresxyz domainSettings)
                    (get_fluid_viscosity domainSettings)
                    (get_fluid_gravity sc domainSettings)
                    (animStart domainSettings)
                    (aniFrameTime channels)
                    noFrames
                    (maxRefine domainSettings)
                    (BLI_join_dirfile (fp_targetDir fp) FLUID_SUFFIX_SURFACE)
                    (chan_length channels) (chan_length channels) (chan_length channels)
                    (DomainTime channels) (DomainViscosity channels) (DomainGravity channels)
                    (transposed invDomMat) in
                (* init solver with settings *)
                elbeemInit;;
                elbeemAddDomain fsset;;
                (* export all fluid objects to elbeem *)
                export_fluid_objects fobjects (chan_length channels);;
                (if do_job then WM_jobs_start_fluid fsset
                 else
                   (* blocking, use with exec() *)
                   elbeemSimulate);;
                (* free stored animation data *)
                lift (fluidbake_free_data channels fobjects);;
                mret 1
            end
      end.

(* ===================================================================== *)
(** * Legacy bake: observations                                           *)
(* ===================================================================== *)

(** The number of floats of the buffer that [p] points to, when [p] points
    to a buffer that is alive. *)
Definition buffer_size (p : ptr) (st : LState) : option Z :=
  match cells_at p (mem st) with
  | inr cells => Some (Z.of_nat (length cells))
  | inl _ => None
  end.

(** The float [p[k]] in the state [st], when it can be read. *)
Definition peek (p : ptr) (k : Z) (st : LState) : option float :=
  match load p k st with
  | inr (v, _) => Some v
  | inl _ => None
  end.

(** [p] is NULL or points to a buffer of [n] floats. *)
Definition null_or_size (n : Z) (p : ptr) (st : LState) : Prop :=
  p = None \/ buffer_size p st = Some n.

(** The buffers of a fluid object hold [len] samples of their strides. *)
Definition fluid_object_sized (len : Z) (st : LState) (fobj : FluidObject) : Prop :=
  null_or_size (len * 4) (Translation fobj) st
  /\ null_or_size (len * 4) (Rotation fobj) st
  /\ null_or_size (len * 4) (Scale fobj) st
  /\ null_or_size (len * 2) (Active fobj) st
  /\ null_or_size (len * 4) (InitialVelocity fobj) st
  /\ null_or_size (len * 2) (AttractforceStrength fobj) st
  /\ null_or_size (len * 2) (AttractforceRadius fobj) st
  /\ null_or_size (len * 2) (VelocityforceStrength fobj) st
  /\ null_or_size (len * 2) (VelocityforceRadius fobj) st
  /\ null_or_size (len * (3 * numVerts fobj + 1)) (VertexCache fobj) st.








(** A host whose scenes do not move: every object has the mesh [verts]. *)
Definition static_host (verts : list vec3) : LegacyHost :=
  {| ED_update_for_newframe := fun s => s;
     initElbeemMesh := fun _ _ _ => mkMeshData verts [];
     mat4_to_compatible_eulO := fun old _ => old;
     powf := fun _ _ => F32.of_Z 1;
     invert_m4_m4 := fun m => Some m |}.

(** A host on which the mesh of every object has one vertex before frame
    [from] and two from then on. *)
Definition growing_host (from : Z) : LegacyHost :=
  {| ED_update_for_newframe := fun s => s;
     initElbeemMesh := fun s _ _ =>
       let v := mkVec3 F32.zero F32.zero F32.zero in
       mkMeshData (if from <=? r_cfra s then [v; v] else [v]) [];
     mat4_to_compatible_eulO := fun old _ => old;
     powf := fun _ _ => F32.of_Z 1;
     invert_m4_m4 := fun m => Some m |}.

(** The objects and scenes of the examples: unit rate, animation time
    from 0 to 1, everything else zero. *)
Definition zero3 : vec3 := mkVec3 F32.zero F32.zero F32.zero.

Definition example_fss (t : FluidsimType) (dir : path) : FluidsimSettings :=
  mkFSS t true 0 (F32.of_Z 1) F32.zero (F32.of_Z 1) 0 0 (F32.of_Z 1) 6 zero3 zero3
    F32.zero F32.zero F32.zero F32.zero 50 25 (-1) (-1) dir.

Definition example_object (name : string) (t : FluidsimType) : Object :=
  mkObject name true (Some (example_fss t ["cache"])) zero3 zero3 [].

Definition example_scene (efra : Z) (objects : list Object) : Scene :=
  mkScene 1 efra objects false zero3.

(** End-to-end scenario 1: a domain and one FLUID object, frames 1..5. *)
Definition scenario1_scene : Scene :=
  example_scene 5
    [example_object "Domain" OB_FLUIDSIM_DOMAIN; example_object "Fluid" OB_FLUIDSIM_FLUID].

(** The world of a bake that starts on an empty heap and an empty disk. *)
Definition bake_world (create writable : path -> list path -> bool * list path) (sc : Scene)
    : @BakeWorld (list_fs create writable) :=
  @mkBW (list_fs create writable) (mkLState [] sc) [] [] [] [] [] [].


(** A scene with one domain and [n] FLUID objects. *)
Definition crowded_scene (n : nat) : Scene :=
  example_scene 5
    (example_object "Domain" OB_FLUIDSIM_DOMAIN :: replicate n (example_object "Fluid" OB_FLUIDSIM_FLUID)).

(** A scene of three frames with a domain, a FLUID object and a CONTROL
    object, whose mesh is animated. *)
Definition control_scene : Scene :=
  example_scene 3
    [example_object "Domain" OB_FLUIDSIM_DOMAIN; example_object "Fluid" OB_FLUIDSIM_FLUID;
     example_object "Control" OB_FLUIDSIM_CONTROL].

(** The channels record as [fluidsimBake] hands it to
    [fluid_init_all_channels] for animation time from 0 to 1 over [efra]
    frames. *)
Definition example_channels (efra : Z) : FluidAnimChannels :=
  mkChannels efra
    (F64.div (F64.sub (F64.of_float (F32.of_Z 1)) (F64.of_float F32.zero)) (F64.of_Z efra))
    None None None None.

(** A fluid object with nothing but a vertex cache for one vertex. *)
Definition cache_only_object (ob : nat) (cache : ptr) : FluidObject :=
  mkFluidObject ob None None None None None None None None None cache 1 0.

(* ===================================================================== *)
(** * Mantaflow operators                                                 *)
(* ===================================================================== *)

Section MantaOperators.
Context `{FileSystem} `{CacheFlagLayout}.

(** [fluid_manta_initjob] for the operator with [ot->idname = idname] and
    [ot->name = name]: the text left in [error_msg] when it returns false,
    else the job and the domain settings [job->smd->domain]. *)
Definition fluid_manta_initjob (idname name : string) (C : bContext)
    : string + FluidMantaflowJob * SmokeDomainSettings :=
  match data C with
  | None => inl "Bake failed: no Fluid modifier found"
  | Some smd =>
      match domain smd with
      | None => inl "Bake failed: invalid domain"
      | Some sds => inr (mkJob None None None idname name 0 None, sds)
      end
  end.

(** [fluid_manta_bake_invoke].  The modal handler that
    [WM_event_add_modal_handler] registers is not part of the state. *)
Definition fluid_manta_bake_invoke (idname name : string) (C : bContext)
    : OperatorResult * bContext :=
  match fluid_manta_initjob idname name C with
  | inl error_msg =>
      (OPERATOR_CANCELLED,
       if negb (String.eqb error_msg "") then
         set_wm_reports (BKE_report (wm_reports C) RPT_ERROR error_msg) C
       else C)
  | inr (job, sds) =>
      let '(_, st) := fluid_manta_initpaths (set_data sds C) in
      let st := WM_jobs_start job st in
      (OPERATOR_RUNNING_MODAL, set_data (Some (mkSMD (Some (data st)))) st)
  end.

(** [fluid_manta_pause_exec]. *)
Definition fluid_manta_pause_exec (C : bContext) : OperatorResult * bContext :=
  match data C with
  | None =>
      (OPERATOR_CANCELLED,
       set_wm_reports
         (BKE_report (wm_reports C) RPT_ERROR "Bake free failed: no Fluid modifier found") C)
  | Some smd =>
      match domain smd with
      | None =>
          (OPERATOR_CANCELLED,
           set_wm_reports
             (BKE_report (wm_reports C) RPT_ERROR "Bake free failed: invalid domain") C)
      | Some _ => (OPERATOR_FINISHED, set_G_is_break true C)
      end
  end.

End MantaOperators.

(** The values of a C [int]. *)
Definition INT_MIN : Z := -2147483648.
Definition INT_MAX : Z := 2147483647.
Definition is_int (z : Z) : Prop := INT_MIN <= z <= INT_MAX.

(** The arithmetic of [fluid_manta_bake_sequence] on the frames of a bake
    of stage [X] stays within [int]: the frame count
    [cache_frame_end - cache_frame_start + 1], the offsets
    [frame - cache_frame_start] from the resume frame on, and the
    increments [frame++] up to [cache_frame_end + 1]. *)
Definition bake_frames_fit_int (X : Stage) (sds : SmokeDomainSettings) : Prop :=
  is_int (cache_frame_start sds)
  /\ is_int (cache_frame_end sds)
  /\ is_int (pause_get X sds)
  /\ is_int (cache_frame_end sds - cache_frame_start sds)
  /\ is_int (cache_frame_end sds - cache_frame_start sds + 1)
  /\ is_int (resume_frame X sds - cache_frame_start sds)
  /\ cache_frame_end sds < INT_MAX.

#[global] Instance ReportType_eq_dec : EqDecision ReportType.
Proof. solve_decision. Defined.

(** The number of reports of level [RPT_ERROR] in a list of reports. *)
Definition error_count (reports : list Report) : nat :=
  length (filter (fun r => rpt_type r = RPT_ERROR) reports).

(* ===================================================================== *)
(** * Legacy operators                                                    *)
(* ===================================================================== *)

Section LegacyOperators.
Context `{FileSystem} `{LegacyHost}.

(** [WM_jobs_test(wm, scene, WM_JOB_TYPE_OBJECT_SIM_FLUID)], the jobs of
    [bw_jobs] being the fluid jobs that the job system still holds. *)
Definition WM_jobs_test (w : BakeWorld) : bool :=
  match bw_jobs w with
  | [] => false
  | _ :: _ => true
  end.

(** [fluid_bake_invoke], for the active object [ob] of the context. *)
Definition fluid_bake_invoke (ob : option nat) : ST BakeWorld OperatorResult :=
  w ← get_world;
  (* only one bake job at a time *)
  if WM_jobs_test w then mret OPERATOR_CANCELLED
  else
    r ← fluidsimBake ob true;
    if r =? 0 then mret OPERATOR_CANCELLED else mret OPERATOR_FINISHED.


End LegacyOperators.

(* ===================================================================== *)
(** * Legacy bake: the output files of an earlier bake                    *)
(* ===================================================================== *)

(** What [fluidsim_delete_until_lastframe] takes from outside this file:
    the names of the three kinds of output files, which
    [DNA_object_fluidsim_types.h] defines; [BLI_path_frame(path, frame, 0)],
    which puts the frame number into a file name; and
    [BLI_delete(path, false, false)], which deletes one file. *)
Class FrameFiles `{FileSystem} := {
  OB_FLUIDSIM_SURF_FINAL_OBJ_FNAME : string;
  OB_FLUIDSIM_SURF_FINAL_VEL_FNAME : string;
  OB_FLUIDSIM_SURF_PREVIEW_OBJ_FNAME : string;
  BLI_path_frame : path -> Z -> path;
  BLI_delete_file : path -> FS -> FS }.

Section DeleteUntilLastframe.
Context `{FrameFiles}.

(** The [do ... while (exists)] loop of [fluidsim_delete_until_lastframe],
    entered with the frame [curFrame]; [fuel] bounds the number of its
    rounds, and without a result the loop has not ended within them. *)
Fixpoint delete_frames (fuel : nat) (targetDir targetDirVel previewDir : path) (curFrame : Z)
    (fs : FS) : option FS :=
  match fuel with
  | O => None
  | S fuel =>
      let targetFile := BLI_path_frame targetDir curFrame in
      let targetFileVel := BLI_path_frame targetDirVel curFrame in
      let previewFile := BLI_path_frame previewDir curFrame in
      let curFrame := curFrame + 1 in
      if BLI_exists targetFile fs then
        let fs := BLI_delete_file targetFile fs in
        let fs := BLI_delete_file targetFileVel fs in
        let fs := BLI_delete_file previewFile fs in
        delete_frames fuel targetDir targetDirVel previewDir curFrame fs
      else Some fs
  end.

(** [fluidsim_delete_until_lastframe]. *)
Definition fluidsim_delete_until_lastframe (fuel : nat) (fss : FluidsimSettings)
    (relbase : path) (fs : FS) : option FS :=
  let targetDir :=
    BLI_path_abs (BLI_join_dirfile (surfdataPath fss) OB_FLUIDSIM_SURF_FINAL_OBJ_FNAME) relbase in
  let targetDirVel :=
    BLI_path_abs (BLI_join_dirfile (surfdataPath fss) OB_FLUIDSIM_SURF_FINAL_VEL_FNAME) relbase in
  let previewDir :=
    BLI_path_abs (BLI_join_dirfile (surfdataPath fss) OB_FLUIDSIM_SURF_PREVIEW_OBJ_FNAME) relbase in
  delete_frames fuel targetDir targetDirVel previewDir 1 fs.

(** The surface file of frame [k], whose existence the loop tests, and
    the three output files of frame [k]. *)
Definition surface_file (fss : FluidsimSettings) (relbase : path) (k : Z) : path :=
  BLI_path_frame
    (BLI_path_abs (BLI_join_dirfile (surfdataPath fss) OB_FLUIDSIM_SURF_FINAL_OBJ_FNAME) relbase)
    k.

Definition frame_files (fss : FluidsimSettings) (relbase : path) (k : Z) : list path :=
  [surface_file fss relbase k;
   BLI_path_frame
     (BLI_path_abs (BLI_join_dirfile (surfdataPath fss) OB_FLUIDSIM_SURF_FINAL_VEL_FNAME) relbase)
     k;
   BLI_path_frame
     (BLI_path_abs (BLI_join_dirfile (surfdataPath fss) OB_FLUIDSIM_SURF_PREVIEW_OBJ_FNAME)
        relbase)
     k].

End DeleteUntilLastframe.
(* ===================================================================== *)
(** * Properties of the Mantaflow bake state                              *)
(* ===================================================================== *)

Section CacheFlags.
Context `{CacheFlagLayout}.

Lemma FLUID_DOMAIN_testbit (b : CacheBit) (n : Z) :
  0 <= n -> Z.testbit (FLUID_DOMAIN b) n = (n =? cache_bit b).
Proof.
  intros Hn. unfold FLUID_DOMAIN. pose proof (cache_bit_range b) as Hb.
  rewrite Z.shiftl_1_l. destruct (Z.eqb_spec n (cache_bit b)) as [->|Hne].
  - apply Z.pow2_bits_true. lia.
  - apply Z.pow2_bits_false. lia.
Qed.

(** The C test [flags & FLUID_DOMAIN_b] reads bit [cache_bit b]. *)
Lemma flag_set_testbit (flags : Z) (b : CacheBit) :
  flag_set flags b = Z.testbit flags (cache_bit b).
Proof.
  unfold flag_set. pose proof (cache_bit_range b) as Hb.
  destruct (Z.testbit flags (cache_bit b)) eqn:E.
  - destruct (Z.eqb_spec (Z.land flags (FLUID_DOMAIN b)) 0) as [H0|]; [|reflexivity].
    exfalso. assert (Hbit : Z.testbit (Z.land flags (FLUID_DOMAIN b)) (cache_bit b) = true).
    { rewrite Z.land_spec, E, FLUID_DOMAIN_testbit, Z.eqb_refl by lia. reflexivity. }
    rewrite H0, Z.bits_0 in Hbit. discriminate.
  - destruct (Z.eqb_spec (Z.land flags (FLUID_DOMAIN b)) 0) as [|Hne]; [reflexivity|].
    exfalso. apply Hne. apply Z.bits_inj'. intros n Hn.
    rewrite Z.land_spec, Z.bits_0, FLUID_DOMAIN_testbit by lia.
    destruct (Z.eqb_spec n (cache_bit b)) as [->|]; [rewrite E|]; auto using andb_false_r.
Qed.

Lemma flag_set_FLUID_DOMAIN (b c : CacheBit) :
  flag_set (FLUID_DOMAIN b) c = bool_decide (b = c).
Proof.
  rewrite flag_set_testbit, FLUID_DOMAIN_testbit by apply cache_bit_range.
  destruct (Z.eqb_spec (cache_bit c) (cache_bit b)) as [E|E].
  - apply cache_bit_inj in E. subst. symmetry. apply bool_decide_eq_true. reflexivity.
  - symmetry. apply bool_decide_eq_false. intros ->. apply E. reflexivity.
Qed.

Lemma flag_set_lor (x y : Z) (c : CacheBit) :
  flag_set (Z.lor x y) c = flag_set x c || flag_set y c.
Proof. rewrite !flag_set_testbit. apply Z.lor_spec. Qed.

Lemma flag_set_land_lnot (x m : Z) (c : CacheBit) :
  flag_set (Z.land x (Z.lnot m)) c = flag_set x c && negb (flag_set m c).
Proof.
  rewrite !flag_set_testbit, Z.land_spec, Z.lnot_spec by apply cache_bit_range.
  reflexivity.
Qed.

Lemma flag_set_land (x m : Z) (c : CacheBit) :
  flag_set (Z.land x m) c = flag_set x c && flag_set m c.
Proof. rewrite !flag_set_testbit. apply Z.land_spec. Qed.

(** A C test against a mask of flags succeeds when one of them is set. *)
Lemma mask_test_false (x m : Z) :
  (Z.land x m =? 0) = true -> forall c, flag_set m c = true -> flag_set x c = false.
Proof.
  intros E%Z.eqb_eq c Hm. pose proof (flag_set_land x m c) as Hl.
  rewrite E, Hm, andb_true_r in Hl. rewrite <- Hl, flag_set_testbit. apply Z.bits_0.
Qed.

Lemma mask_test_true (x m : Z) (c : CacheBit) :
  flag_set m c = true -> flag_set x c = true -> (Z.land x m =? 0) = false.
Proof.
  intros Hm Hx. destruct (Z.eqb_spec (Z.land x m) 0) as [E|]; [|reflexivity].
  apply Z.eqb_eq in E. rewrite (mask_test_false _ _ E c Hm) in Hx. discriminate.
Qed.

End CacheFlags.

Create Rewrite HintDb cache_flags.
#[global] Hint Rewrite @flag_set_lor @flag_set_land_lnot @flag_set_FLUID_DOMAIN : cache_flags.

Lemma bake_stage_of_type_bake (X : Stage) : bake_stage_of_type (MANTA_OT_bake X) = Some X.
Proof. destruct X; reflexivity. Qed.

Lemma free_stage_of_type_free (X : Stage) : free_stage_of_type (MANTA_OT_free X) = Some X.
Proof. destruct X; reflexivity. Qed.


Lemma pause_get_set_ne (X Y : Stage) (v : Z) (s : SmokeDomainSettings) :
  X <> Y -> pause_get Y (pause_set X v s) = pause_get Y s.
Proof. destruct X, Y; intros Hne; try reflexivity; contradiction Hne; reflexivity. Qed.

Section MantaBakeProofs.
Context `{FileSystem} `{CacheFlagLayout} `{MantaHost}.



Lemma Forall_seqZ (P : Z -> Prop) (m n : Z) :
  (forall g, m <= g < m + n -> P g) -> Forall P (seqZ m n).
Proof.
  intros HP. apply Forall_forall. intros g Hg%elem_of_seqZ. apply HP. lia.
Qed.


Lemma resume_frame_set_cache_flag (X : Stage) (v : Z) (s : SmokeDomainSettings) :
  resume_frame X (set_cache_flag v s) = resume_frame X s.
Proof. destruct X; reflexivity. Qed.



End MantaBakeProofs.

(** The DATA bake over frames 10..12 of end-to-end scenario 2, with the
    pause operator run while the job is at frame 11. *)
Definition scenario_sds : SmokeDomainSettings := mkSDS 0 10 12 0 0 0 0 0 ["cache"] "".

Definition scenario_fs : FileSystem := list_fs ListFS.create ListFS.writable.

Definition scenario_state : @World scenario_fs SmokeDomainSettings :=
  @mkWorld scenario_fs _ false false false 1 [] [] [] scenario_sds.



Lemma path_under_siblings (dir q : path) (a b : string) :
  path_under (BLI_path_join dir a) q = true -> a <> b ->
  path_under (BLI_path_join dir b) q = false.
Proof.
  unfold path_under, BLI_path_join. intros [k1 ->]%bool_decide_eq_true Hne.
  apply bool_decide_eq_false. intros [k2 E]. rewrite <- !app_assoc in E.
  apply app_inv_head in E. cbn in E. congruence.
Qed.

Lemma path_under_refl (p : path) : path_under p p = true.
Proof. apply bool_decide_eq_true. reflexivity. Qed.

Section MantaFreeProofs.
Context `{FileSystem} `{CacheFlagLayout} `{MantaHost}.

Lemma free_stage_dir_data (X : Stage) (st : MantaState) : data (free_stage_dir X st) = data st.
Proof. unfold free_stage_dir. destruct (BLI_exists _ _); reflexivity. Qed.

(** After [free_stage_dir X] the directory of [X] is gone. *)
Lemma free_stage_dir_gone (X : Stage) (st : MantaState) :
  BLI_exists (BLI_path_join (cache_directory (data st)) (FLUID_DOMAIN_DIR X))
    (files (free_stage_dir X st)) = false.
Proof.
  unfold free_stage_dir.
  destruct (BLI_exists _ (files st)) eqn:E; cbn; [|exact E].
  rewrite BLI_exists_delete, path_under_refl. apply andb_false_r.
Qed.

(** [free_stage_dir] creates nothing, and removes nothing outside the
    directory of [X]. *)
Lemma free_stage_dir_exists (X : Stage) (st : MantaState) (q : path) :
  BLI_exists q (files (free_stage_dir X st)) = false
  \/ BLI_exists q (files (free_stage_dir X st)) = BLI_exists q (files st).
Proof.
  unfold free_stage_dir.
  destruct (BLI_exists _ (files st)); cbn; [|right; reflexivity].
  rewrite BLI_exists_delete. destruct (path_under _ q); cbn.
  - left. apply andb_false_r.
  - right. apply andb_true_r.
Qed.

Lemma free_stage_dir_other (X : Stage) (st : MantaState) (q : path) :
  path_under (BLI_path_join (cache_directory (data st)) (FLUID_DOMAIN_DIR X)) q = false ->
  BLI_exists q (files (free_stage_dir X st)) = BLI_exists q (files st).
Proof.
  intros Hq. unfold free_stage_dir.
  destruct (BLI_exists _ (files st)); cbn; [|reflexivity].
  rewrite BLI_exists_delete, Hq. apply andb_true_r.
Qed.

Lemma free_stage_dir_stays_gone (X : Stage) (st : MantaState) (q : path) :
  BLI_exists q (files st) = false -> BLI_exists q (files (free_stage_dir X st)) = false.
Proof.
  intros Hq. destruct (free_stage_dir_exists X st q) as [E|E]; [exact E|].
  rewrite E. exact Hq.
Qed.

(** The state that [fluid_manta_free_startjob] leaves for the operator
    [MANTA_OT_free_data]. *)
Lemma fluid_manta_free_startjob_data (job : FluidMantaflowJob) (stop do_update : Z)
    (progress : float) (st : MantaState) :
  job_type job = "MANTA_OT_free_data" ->
  let st' := snd (fluid_manta_free_startjob job stop do_update progress st) in
  let cleared :=
    Z.land (cache_flag (data st))
      (Z.lnot (Z.lor (Z.lor (Z.lor (stage_mask DATA) (stage_mask NOISE)) (stage_mask MESH))
                 (stage_mask PARTICLES))) in
  cache_flag (data st') = cleared
  /\ (exists st0,
        cache_directory (data st0) = cache_directory (data st)
        /\ files st0 = files st
        /\ files st' =
             files (free_stage_dir PARTICLES (free_stage_dir MESH (free_stage_dir NOISE
                      (free_stage_dir DATA st0)))))
  /\ pause_get DATA (data st') = 0
  /\ (forall X, X <> DATA -> pause_get X (data st') = pause_get X (data st)).
Proof.
  intros Ht. unfold fluid_manta_free_startjob.
  cbn [job_type set_job_slots set_job_success]. rewrite Ht.
  change (free_stage_of_type "MANTA_OT_free_data") with (Some DATA).
  cbn -[Z.land Z.lor Z.lnot free_stage_dir]. rewrite !free_stage_dir_data.
  cbn -[Z.land Z.lor Z.lnot free_stage_dir]. repeat split.
  - eexists. split; [|split; [|reflexivity]]; reflexivity.
  - intros [] Hne; try reflexivity. contradiction Hne; reflexivity.
Qed.

(** C9.  Freeing DATA clears the BAKING and BAKED bits of DATA, NOISE,
    MESH and PARTICLES and removes their cache directories; the two GUIDING
    bits keep their values, and whatever exists outside the four
    directories, the guiding directory and its content included, is left
    as it was. *)
Theorem free_data_cascades_not_to_guiding (job : FluidMantaflowJob) (stop do_update : Z)
    (progress : float) (st : MantaState) :
  let job := mkJob (job_stop job) (job_do_update job) (job_progress job) "MANTA_OT_free_data"
               (job_name job) (job_success job) (job_pause_frame job) in
  let st' := snd (fluid_manta_free_startjob job stop do_update progress st) in
  let dir X := BLI_path_join (cache_directory (data st)) (FLUID_DOMAIN_DIR X) in
  Forall (fun X =>
      flag_set (cache_flag (data st')) (BAKING X) = false
      /\ flag_set (cache_flag (data st')) (BAKED X) = false
      /\ BLI_exists (dir X) (files st') = false)
    [DATA; NOISE; MESH; PARTICLES]
  /\ flag_set (cache_flag (data st')) (BAKING GUIDING) = flag_set (cache_flag (data st)) (BAKING GUIDING)
  /\ flag_set (cache_flag (data st')) (BAKED GUIDING) = flag_set (cache_flag (data st)) (BAKED GUIDING)
  /\ (forall q, path_under (dir GUIDING) q = true ->
        BLI_exists q (files st') = BLI_exists q (files st)).
Proof.
  intros job0 st' dir.
  destruct (fluid_manta_free_startjob_data job0 stop do_update progress st eq_refl)
    as (Hflag & (st0 & Hdir & Hfiles & Hfs) & _ & _).
  fold st' in Hflag, Hfs. rewrite Hflag, Hfs. clear Hflag Hfs.
  assert (Hd : forall X (w : MantaState),
             cache_directory (data w) = cache_directory (data st) ->
             BLI_exists (dir X) (files (free_stage_dir X w)) = false).
  { intros X w Hw. unfold dir. rewrite <- Hw. apply free_stage_dir_gone. }
  assert (Hflags : forall X (b : bool), X <> GUIDING ->
             flag_set
               (Z.land (cache_flag (data st))
                  (Z.lnot (Z.lor (Z.lor (Z.lor (stage_mask DATA) (stage_mask NOISE))
                                    (stage_mask MESH)) (stage_mask PARTICLES))))
               (if b then BAKING X else BAKED X) = false).
  { intros X b HX. unfold stage_mask. autorewrite with cache_flags.
    destruct X, b; try (contradiction HX; reflexivity);
      repeat case_bool_decide; try congruence; cbn; apply andb_false_r. }
  split; [|split; [|split]].
  - repeat constructor;
      try (apply (Hflags _ true); discriminate); try (apply (Hflags _ false); discriminate).
    + do 3 apply free_stage_dir_stays_gone. apply Hd, Hdir.
    + do 2 apply free_stage_dir_stays_gone. apply Hd.
      rewrite free_stage_dir_data. exact Hdir.
    + apply free_stage_dir_stays_gone. apply Hd.
      rewrite !free_stage_dir_data. exact Hdir.
    + apply Hd. rewrite !free_stage_dir_data. exact Hdir.
  - unfold stage_mask. autorewrite with cache_flags.
    repeat case_bool_decide; try congruence. cbn. apply andb_true_r.
  - unfold stage_mask. autorewrite with cache_flags.
    repeat case_bool_decide; try congruence. cbn. apply andb_true_r.
  - intros q Hq. rewrite <- Hfiles.
    rewrite !free_stage_dir_other; rewrite ?free_stage_dir_data, ?Hdir; try reflexivity;
      apply (path_under_siblings _ _ _ _ Hq); discriminate.
Qed.

(** What freeing DATA does to the flags and the directory of a stage
    other than GUIDING: both flags are clear and the directory is gone. *)
Lemma fluid_manta_free_startjob_data_stage (job : FluidMantaflowJob) (stop do_update : Z)
    (progress : float) (st : MantaState) (X : Stage) :
  job_type job = "MANTA_OT_free_data" ->
  X <> GUIDING ->
  let st' := snd (fluid_manta_free_startjob job stop do_update progress st) in
  flag_set (cache_flag (data st')) (BAKING X) = false
  /\ flag_set (cache_flag (data st')) (BAKED X) = false
  /\ BLI_exists (BLI_path_join (cache_directory (data st)) (FLUID_DOMAIN_DIR X)) (files st')
     = false.
Proof.
  intros Ht HX st'.
  destruct (fluid_manta_free_startjob_data job stop do_update progress st Ht)
    as (Hflag & (st0 & Hdir & Hfiles & Hfs) & _ & _).
  fold st' in Hflag, Hfs. rewrite Hflag, Hfs. clear Hflag Hfs.
  assert (Hd : forall (w : MantaState),
             cache_directory (data w) = cache_directory (data st) ->
             BLI_exists (BLI_path_join (cache_directory (data st)) (FLUID_DOMAIN_DIR X))
               (files (free_stage_dir X w)) = false).
  { intros w Hw. rewrite <- Hw. apply free_stage_dir_gone. }
  split; [|split].
  - unfold stage_mask. autorewrite with cache_flags.
    destruct X; try (contradiction HX; reflexivity);
      repeat case_bool_decide; try congruence; cbn; apply andb_false_r.
  - unfold stage_mask. autorewrite with cache_flags.
    destruct X; try (contradiction HX; reflexivity);
      repeat case_bool_decide; try congruence; cbn; apply andb_false_r.
  - destruct X; try (contradiction HX; reflexivity).
    + do 3 apply free_stage_dir_stays_gone. apply Hd, Hdir.
    + do 2 apply free_stage_dir_stays_gone. apply Hd.
      rewrite free_stage_dir_data. exact Hdir.
    + apply free_stage_dir_stays_gone. apply Hd.
      rewrite !free_stage_dir_data. exact Hdir.
    + apply Hd. rewrite !free_stage_dir_data. exact Hdir.
Qed.

(** C10.  Freeing DATA resets the pause marker of DATA and of no other
    stage: the pause markers of NOISE, MESH and PARTICLES keep their
    values although the same operation clears the BAKING and BAKED bits
    of these stages and removes their cache directories. *)
Theorem free_data_resets_only_data_pause (job : FluidMantaflowJob) (stop do_update : Z)
    (progress : float) (st : MantaState) :
  let job := mkJob (job_stop job) (job_do_update job) (job_progress job) "MANTA_OT_free_data"
               (job_name job) (job_success job) (job_pause_frame job) in
  let st' := snd (fluid_manta_free_startjob job stop do_update progress st) in
  let dir X := BLI_path_join (cache_directory (data st)) (FLUID_DOMAIN_DIR X) in
  pause_get DATA (data st') = 0
  /\ Forall (fun X =>
         pause_get X (data st') = pause_get X (data st)
         /\ flag_set (cache_flag (data st')) (BAKING X) = false
         /\ flag_set (cache_flag (data st')) (BAKED X) = false
         /\ BLI_exists (dir X) (files st') = false)
       [NOISE; MESH; PARTICLES]
  /\ pause_get GUIDING (data st') = pause_get GUIDING (data st).
Proof.
  intros job0 st' dir.
  destruct (fluid_manta_free_startjob_data job0 stop do_update progress st eq_refl)
    as (_ & _ & Hdata & Hother).
  split; [exact Hdata|]. split; [|apply Hother; discriminate].
  repeat constructor; try (apply Hother; discriminate);
    apply (fluid_manta_free_startjob_data_stage job0 stop do_update progress st);
    try reflexivity; discriminate.
Qed.

Lemma fluid_manta_initpaths_jobs (st : MantaState) :
  wm_jobs (snd (fluid_manta_initpaths st)) = wm_jobs st.
Proof.
  unfold fluid_manta_initpaths.
  destruct (cache_directory (data st)); cbn;
    (destruct (BLI_dir_create_recursive _ _) as [[] fs]; cbn; [reflexivity|]);
    destruct (BLI_dir_create_recursive _ _) as [[] fs']; reflexivity.
Qed.

(** The guard of [fluid_manta_free_exec] as it is written: a free is
    refused, with nothing but the report changed, when the BAKING bit of
    DATA, NOISE, MESH or PARTICLES is set. *)
Lemma fluid_manta_free_exec_pending (idname name : string) (C : bContext)
    (sds : SmokeDomainSettings) (X : Stage) :
  data C = Some (mkSMD (Some sds)) ->
  X <> GUIDING ->
  flag_set (cache_flag sds) (BAKING X) = true ->
  fluid_manta_free_exec idname name C =
    (OPERATOR_CANCELLED,
     set_wm_reports
       (BKE_report (wm_reports C) RPT_ERROR "Bake free failed: pending bake jobs found") C).
Proof.
  intros HC HX Hset. unfold fluid_manta_free_exec. rewrite HC. cbn [domain].
  rewrite (mask_test_true (cache_flag sds) _ (BAKING X)); [reflexivity| |exact Hset].
  autorewrite with cache_flags.
  destruct X; try (contradiction HX; reflexivity);
    repeat case_bool_decide; try congruence; reflexivity.
Qed.

(** The guard does not look at [BAKING_GUIDING]: with the four other
    BAKING bits clear the free job is started. *)
Lemma fluid_manta_free_exec_started (idname name : string) (C : bContext)
    (sds : SmokeDomainSettings) :
  data C = Some (mkSMD (Some sds)) ->
  Forall (fun X => flag_set (cache_flag sds) (BAKING X) = false) [DATA; NOISE; MESH; PARTICLES] ->
  exists C',
    fluid_manta_free_exec idname name C = (OPERATOR_FINISHED, C')
    /\ wm_jobs C' = wm_jobs C ++ [mkJob None None None idname name 0 None].
Proof.
  intros HC Hclear. unfold fluid_manta_free_exec. rewrite HC. cbn [domain].
  repeat match goal with H : Forall _ (_ :: _) |- _ => inversion H; subst; clear H end.
  match goal with |- context [Z.land ?x ?m =? 0] =>
    replace (Z.land x m =? 0) with true
  end.
  - cbn [negb]. pose proof (fluid_manta_initpaths_jobs (set_data sds C)) as Hjobs.
    destruct (fluid_manta_initpaths _) as [ok st]. eexists. split; [reflexivity|].
    cbn in *. rewrite Hjobs. reflexivity.
  - symmetry. apply Z.eqb_eq, Z.bits_inj'. intros n Hn.
    rewrite Z.bits_0, Z.land_spec, !Z.lor_spec, !FLUID_DOMAIN_testbit by lia.
    repeat match goal with
           | |- context [n =? ?k] => destruct (Z.eqb_spec n k); subst
           end;
      rewrite <- ?flag_set_testbit; cbn; rewrite ?andb_false_r; auto;
      repeat match goal with H : flag_set _ _ = false |- _ => rewrite H; clear H end;
      reflexivity.
Qed.

End MantaFreeProofs.

(** A domain whose guiding bake is running, under the layout
    [dna_layout]: only [FLUID_DOMAIN_BAKING_GUIDING] is set. *)
Definition guiding_bake_sds : SmokeDomainSettings := mkSDS 256 10 12 0 0 0 0 11 ["cache"] "".

Definition guiding_bake_context : @World scenario_fs (option SmokeModifierData) :=
  @mkWorld scenario_fs _ false true true 11 [["cache"]; ["cache"; "guiding"]] [] []
    (Some (mkSMD (Some guiding_bake_sds))).

(** C8 fails on the code while a guiding bake is pending: the operator
    [MANTA_OT_free_guiding] is not refused; it reports nothing, starts its
    job, and the job clears [BAKING_GUIDING], resets the pause marker and
    removes the directory under the running bake. *)
Theorem free_not_rejected_while_baking_guiding :
  @flag_set dna_layout (cache_flag guiding_bake_sds) (BAKING GUIDING) = true
  /\ exists C' job st',
       @fluid_manta_free_exec scenario_fs dna_layout (MANTA_OT_free GUIDING) "Free Guiding"
         guiding_bake_context = (OPERATOR_FINISHED, C')
       /\ wm_reports C' = []
       /\ wm_jobs C' = [job]
       /\ @run_free_job scenario_fs dna_layout (pausing_host []) job 0 0 F32.zero
            (set_data guiding_bake_sds C') = (set_job_slots (Some 0) (Some 1) (Some F32.zero)
                                               (set_job_success 1 job), st')
       /\ @flag_set dna_layout (cache_flag (data st')) (BAKING GUIDING) = false
       /\ pause_get GUIDING (data st') = 0
       /\ @BLI_exists scenario_fs ["cache"; "guiding"] (files st') = false.
Proof.
  split; [reflexivity|]. eexists _, _, _.
  split; [vm_compute; reflexivity|].
  split; [reflexivity|].
  split; [reflexivity|].
  split; [vm_compute; reflexivity|].
  vm_compute. repeat split.
Qed.

(* ===================================================================== *)
(** * Properties of legacy scene validation                               *)
(* ===================================================================== *)

(** With a domain given by the caller, the loop of [fluid_validate_scene]
    is left at the first mesh object that is a domain and is not the
    caller's. *)
Lemma validate_bases_second_domain (bases : list Object) (idx d k : nat) (newdomain : option nat)
    (c f : Z) (ob : Object) (fss : FluidsimSettings) :
  bases !! k = Some ob -> fluidmd ob = Some fss -> ob_is_mesh ob = true ->
  fss_type fss = OB_FLUIDSIM_DOMAIN -> (idx + k)%nat <> d ->
  validate_bases bases idx (Some d) newdomain c f = None.
Proof.
  revert idx k newdomain c f.
  induction bases as [|o bases IH]; intros idx k newdomain c f Hk Hmd Hmesh Hty Hne; [discriminate|].
  cbn [validate_bases].
  destruct k as [|k]; cbn in Hk.
  - injection Hk as ->. rewrite Hmd, Hmesh, Hty. cbn.
    rewrite bool_decide_eq_true_2 by reflexivity. cbn.
    destruct (Nat.eqb_spec idx d) as [->|]; [|reflexivity]. contradiction Hne. lia.
  - assert (Hrest : forall nd c' f',
              validate_bases bases (S idx) (Some d) nd c' f' = None).
    { intros. apply (IH (S idx) k); auto. lia. }
    destruct (fluidmd o) as [fss'|]; [|apply Hrest].
    destruct (ob_is_mesh o); cbn; [|apply Hrest].
    destruct (bool_decide _ && negb (idx =? d)%nat); [reflexivity|].
    destruct (bool_decide (fss_type fss' = OB_FLUIDSIM_DOMAIN)); cbn; apply Hrest.
Qed.

(** The part of C5 that the code keeps: with a domain given by the
    caller, two mesh objects that are domains make the validation fail
    with the report of the claim. *)
Lemma fluid_validate_scene_two_domains (reports : list Report) (sc : Scene) (d k1 k2 : nat)
    (ob1 ob2 : Object) (fss1 fss2 : FluidsimSettings) :
  k1 <> k2 ->
  scene_base sc !! k1 = Some ob1 -> fluidmd ob1 = Some fss1 -> ob_is_mesh ob1 = true ->
  fss_type fss1 = OB_FLUIDSIM_DOMAIN ->
  scene_base sc !! k2 = Some ob2 -> fluidmd ob2 = Some fss2 -> ob_is_mesh ob2 = true ->
  fss_type fss2 = OB_FLUIDSIM_DOMAIN ->
  fluid_validate_scene reports sc (Some d)
  = (BKE_report reports RPT_ERROR "There should be only one domain object", 0).
Proof.
  intros Hne H1 M1 Me1 T1 H2 M2 Me2 T2. unfold fluid_validate_scene.
  destruct (decide (k1 = d)) as [->|Hk1].
  - rewrite (validate_bases_second_domain _ 0 d k2 None 0 0 ob2 fss2); auto.
  - rewrite (validate_bases_second_domain _ 0 d k1 None 0 0 ob1 fss1); auto.
Qed.


(** The count of the objects that need channels, for a scene made of a
    domain and [n] FLUID objects. *)
Lemma validate_bases_fluids (n idx : nat) (fsDomain newdomain : option nat) (c f : Z) :
  validate_bases (replicate n (example_object "Fluid" OB_FLUIDSIM_FLUID)) idx fsDomain newdomain c f
  = Some (newdomain, c + Z.of_nat n, f + Z.of_nat n).
Proof.
  revert idx c f. induction n as [|n IH]; intros idx c f.
  - cbn. rewrite !Z.add_0_r. reflexivity.
  - cbn [replicate validate_bases]. cbn -[validate_bases replicate Z.of_nat Z.add].
    rewrite IH, Nat2Z.inj_succ.
    f_equal. apply pair_equal_spec. split; [apply pair_equal_spec; split; [reflexivity|]|].
    all: change (is_domain_or_particle OB_FLUIDSIM_FLUID) with false;
      change (is_fluid_or_inflow OB_FLUIDSIM_FLUID) with true; cbn [negb]; lia.
Qed.

(** The threshold of the code: a domain with [n] FLUID objects passes
    validation exactly when [n] is below 255. *)
Lemma fluid_validate_scene_crowded (n : nat) :
  fluid_validate_scene [] (crowded_scene n) (Some 0%nat)
  = if Z.of_nat n >=? 255
    then ([mkReport RPT_ERROR "Cannot bake with more than 256 objects" []], 0)
    else if Z.of_nat n =? 0
         then ([mkReport RPT_ERROR "No fluid input objects in the scene" []], 0)
         else ([], 1).
Proof.
  unfold fluid_validate_scene, crowded_scene. cbn [scene_base example_scene validate_bases].
  cbn -[validate_bases replicate Z.geb]. rewrite validate_bases_fluids.
  cbn -[Z.geb Z.of_nat]. reflexivity.
Qed.

(** C6 fails on the code at the boundary: a scene with one domain and
    exactly 255 FLUID objects is refused, with a report that speaks of more
    than 256 objects; 254 are accepted. *)
Theorem validation_rejects_255_objects :
  fluid_validate_scene [] (crowded_scene 255) (Some 0%nat)
  = ([mkReport RPT_ERROR "Cannot bake with more than 256 objects" []], 0)
  /\ fluid_validate_scene [] (crowded_scene 254) (Some 0%nat) = ([], 1).
Proof. rewrite !fluid_validate_scene_crowded. split; reflexivity. Qed.

(* ===================================================================== *)
(** * Properties of the path resolver                                     *)
(* ===================================================================== *)

Section PathResolver.
Context `{FileSystem}.

(** The settings and reports of [fluid_init_filepaths] once an empty path
    has been replaced by the default. *)
Definition nonempty_path (reports : list Report) (ds : FluidsimSettings)
    : FluidsimSettings * list Report :=
  match surfdataPath ds with
  | [] =>
      let ds := set_surfdataPath (modifier_path_init OB_FLUIDSIM_SURF_DIR_DEFAULT) ds in
      (ds, BKE_reportf reports RPT_WARNING "Fluidsim: empty cache path, reset to default '%s'"
             [path_text (surfdataPath ds)])
  | _ => (ds, reports)
  end.

(** The pair of checks of [fluid_init_filepaths] on the directory [dir]:
    whether the directory exists and whether the probe file can be
    written, and the file system after both. *)
Definition first_check (dir : path) (fs : FS) : bool * bool * FS :=
  let '(dir_exists, fs) := BLI_dir_create_recursive dir fs in
  let '(is_writable, fs) := BLI_file_is_writable (BLI_join_dirfile dir FLUID_SUFFIX_CONFIG_TMP) fs in
  (dir_exists, is_writable, fs).

(** The same checks as the retry makes them, the second only after the
    first has passed. *)
Definition retry_check (dir : path) (fs : FS) : bool :=
  let '(created, fs) := BLI_dir_create_recursive dir fs in
  created && fst (BLI_file_is_writable (BLI_join_dirfile dir FLUID_SUFFIX_CONFIG_TMP) fs).

(** C7, as the code has it.  When the first check of the cache directory
    fails, [fluid_init_filepaths] resets the stored path to the default,
    reports an error, makes the check once more on the default path,
    reports a second error if that fails too, and returns false whether
    the retry failed or passed. *)
Theorem fluid_init_filepaths_first_check_fails (reports : list Report)
    (ds : FluidsimSettings) (fs : FS) :
  let '(ds1, reports1) := nonempty_path reports ds in
  let dir := BLI_path_abs (surfdataPath ds1) modifier_path_relbase in
  let '(dir_exists, is_writable, fs1) := first_check dir fs in
  let dflt := BLI_path_abs (modifier_path_init OB_FLUIDSIM_SURF_DIR_DEFAULT) modifier_path_relbase in
  dir_exists && is_writable = false ->
  let '(ok, fp) := fluid_init_filepaths reports ds fs in
  ok = false
  /\ surfdataPath (fp_settings fp) = modifier_path_init OB_FLUIDSIM_SURF_DIR_DEFAULT
  /\ fp_checks fp = 2%nat
  /\ fp_targetDir fp = dflt
  /\ exists reset,
       rpt_type reset = RPT_ERROR
       /\ rpt_args reset
          = [path_text dir; path_text (modifier_path_init OB_FLUIDSIM_SURF_DIR_DEFAULT)]
       /\ fp_reports fp
          = reports1 ++ reset ::
              (if retry_check dflt fs1 then []
               else [mkReport RPT_ERROR
                       "Fluidsim: could not use default cache directory '%s', please define a valid cache path manually"
                       [path_text dflt]]).
Proof.
  unfold fluid_init_filepaths, nonempty_path, first_check, retry_check.
  destruct (surfdataPath ds) as [|c p] eqn:Hp; cbn [surfdataPath set_surfdataPath fst snd].
  all: destruct (BLI_dir_create_recursive _ fs) as [dir_exists fs1];
    destruct (BLI_file_is_writable _ fs1) as [is_writable fs2];
    intros Hfail;
    assert (Hor : negb dir_exists || negb is_writable = true)
      by (destruct dir_exists, is_writable; cbn in *; congruence);
    rewrite Hor;
    destruct (BLI_dir_create_recursive _ fs2) as [created fs3];
    destruct created; cbn [andb negb orb fst];
    [destruct (BLI_file_is_writable _ fs3) as [writable fs4]; destruct writable|];
    cbn [andb negb orb fst];
    (split; [reflexivity|]); (split; [reflexivity|]); (split; [reflexivity|]);
    (split; [reflexivity|]);
    destruct dir_exists; cbn [negb];
    (eexists; split; [|split]; [| |unfold BKE_reportf; rewrite <- ?app_assoc; reflexivity];
     reflexivity).
Qed.

(** [fluid_manta_initpaths] is built the same way: it returns false as
    soon as the cache directory could not be created, with the stored path
    reset to the default. *)
Lemma fluid_manta_initpaths_first_check_fails (st : MantaState) :
  let st1 :=
    match cache_directory (data st) with
    | [] => set_data (set_cache_directory (modifier_path_init FLUID_DOMAIN_DIR_DEFAULT) (data st)) st
    | _ => st
    end in
  fst (BLI_dir_create_recursive (BLI_path_abs (cache_directory (data st1)) modifier_path_relbase)
         (files st)) = false ->
  fst (fluid_manta_initpaths st) = false
  /\ cache_directory (data (snd (fluid_manta_initpaths st)))
     = modifier_path_init FLUID_DOMAIN_DIR_DEFAULT.
Proof.
  unfold fluid_manta_initpaths.
  destruct (cache_directory (data st)) eqn:Hd; cbn -[BLI_path_abs];
    destruct (BLI_dir_create_recursive _ (files st)) as [ok fs1]; cbn -[BLI_path_abs];
    intros ->; cbn -[BLI_path_abs];
    destruct (BLI_dir_create_recursive _ fs1) as [[] fs2]; split; reflexivity.
Qed.

End PathResolver.

(** A disk on which only the default cache directory can be made. *)
Definition default_only_fs : FileSystem :=
  list_fs (GuardedFS.create [OB_FLUIDSIM_SURF_DIR_DEFAULT])
    (GuardedFS.writable [OB_FLUIDSIM_SURF_DIR_DEFAULT]).

Lemma fluid_init_filepaths_first_check_fails_witness :
  let '(ok, fp) :=
    @fluid_init_filepaths default_only_fs [] (example_fss OB_FLUIDSIM_DOMAIN ["cache"]) [] in
  ok = false
  /\ surfdataPath (fp_settings fp) = ["cache_fluid"]
  /\ fp_checks fp = 2%nat
  /\ fp_targetDir fp = ["cache_fluid"]
  /\ exists reset,
       rpt_type reset = RPT_ERROR
       /\ rpt_args reset = ["cache"; "cache_fluid"]
       /\ fp_reports fp = [] ++ [reset].
Proof.
  apply (@fluid_init_filepaths_first_check_fails default_only_fs []
           (example_fss OB_FLUIDSIM_DOMAIN ["cache"]) []).
  reflexivity.
Defined.

(** C7 as stated fails: on a disk where the user's directory cannot be
    made and the default one can, the retry passes (the default directory
    is there afterwards, and one error only is reported), yet the resolver
    returns false and the bake ends with 0: no domain reaches the solver,
    no job is started and the solver is not run. *)
Lemma bake_aborted_although_retry_passed_counterexample :
  @retry_check default_only_fs ["cache_fluid"] [] = true
  /\ (let '(ok, fp) :=
        @fluid_init_filepaths default_only_fs [] (example_fss OB_FLUIDSIM_DOMAIN ["cache"]) [] in
      ok = false
      /\ @BLI_exists default_only_fs ["cache_fluid"] (fp_files fp) = true
      /\ length (fp_reports fp) = 1%nat)
  /\ exists w',
       @fluidsimBake default_only_fs (static_host []) (Some 0%nat) false
         (bake_world _ _ scenario1_scene) = inr (0, w')
       /\ bw_domains w' = [] /\ bw_jobs w' = [] /\ bw_simulated w' = []
       /\ length (bw_reports w') = 1%nat
       /\ @BLI_exists default_only_fs ["cache_fluid"] (bw_files w') = true.
Proof.
  split; [reflexivity|]. split; [vm_compute; repeat split|].
  eexists. split; [vm_compute; reflexivity|]. vm_compute. repeat split.
Qed.

(* ===================================================================== *)
(** * The channel sampler on the scenarios                                *)
(* ===================================================================== *)

(** The state in which [fluidsimBake] calls [fluid_init_all_channels] on
    scenario 1: the bake range of the domain is set, the heap is empty. *)
Definition scenario1_prepared : LState :=
  mkLState []
    (example_scene 5
       [set_fluidmd (Some (set_bake_range 1 5 (-1) (example_fss OB_FLUIDSIM_DOMAIN ["cache"])))
          (example_object "Domain" OB_FLUIDSIM_DOMAIN);
        example_object "Fluid" OB_FLUIDSIM_FLUID]).

(** C3, as the code has it.  On scenario 1 the channels have length 5 and
    the solver is run with [noOfFrames = 5]; [timeAtFrame] is
    [0, 0, 0.2, 0.4, 0.6, 0.8] when [init_time] returns, and
    [0, 0.2, 0.4, 0.6, 0.8, 1.0] when the channels have been filled. *)
Theorem scenario1_channels_and_solver :
  update_fss 0 (set_bake_range 1 5 (-1)) (mkLState [] scenario1_scene)
  = inr (tt, scenario1_prepared)
  /\ (exists channels st',
        @init_time (static_host []) 0 (example_channels 5) scenario1_prepared
        = inr (channels, st')
        /\ cells_at (timeAtFrame channels) (mem st')
           = inr [F32.zero; F32.zero; F32.tenths 2; F32.tenths 4; F32.tenths 6; F32.tenths 8])
  /\ (exists channels fobjects st',
        @fluid_init_all_channels (static_host []) 0 (example_channels 5) scenario1_prepared
        = inr (channels, fobjects, st')
        /\ chan_length channels = 5
        /\ cells_at (timeAtFrame channels) (mem st')
           = inr [F32.zero; F32.tenths 2; F32.tenths 4; F32.tenths 6; F32.tenths 8; F32.tenths 10]
        /\ buffer_size (DomainTime channels) st' = Some (5 * 2)
        /\ buffer_size (DomainGravity channels) st' = Some (5 * 4)
        /\ buffer_size (DomainViscosity channels) st' = Some (5 * 2)
        /\ Forall (fluid_object_sized 5 st') fobjects)
  /\ (exists w',
        @fluidsimBake scenario_fs (static_host []) (Some 0%nat) false
          (bake_world _ _ scenario1_scene) = inr (1, w')
        /\ elbeem.noOfFrames <$> bw_domains w' = [5]
        /\ elbeem.channelSizeFrameTime <$> bw_domains w' = [5]
        /\ bw_simulated w' = [[5]]).
Proof.
  split; [reflexivity|]. split; [|split].
  - eexists _, _. split; [vm_compute; reflexivity|]. vm_compute. reflexivity.
  - eexists _, _, _. split; [vm_compute; reflexivity|].
    repeat split; try (vm_compute; reflexivity).
    constructor; [|constructor; [|constructor]];
      unfold fluid_object_sized, null_or_size; repeat split;
      first [left; reflexivity | right; vm_compute; reflexivity].
  - eexists. split; [vm_compute; reflexivity|]. vm_compute. repeat split.
Qed.

(** C3 as stated fails: when the channels of scenario 1 have been filled,
    [timeAtFrame[1]] is 0.2 and not 0, and [timeAtFrame[5]] is 1.0 and not
    0.8: each frame of the loop has stored [timeAtFrame[i] + time] into
    [timeAtFrame[i+1]]. *)
Lemma scenario1_timeAtFrame_counterexample :
  exists channels fobjects st',
    @fluid_init_all_channels (static_host []) 0 (example_channels 5) scenario1_prepared
    = inr (channels, fobjects, st')
    /\ peek (timeAtFrame channels) 1 st' = Some (F32.tenths 2)
    /\ SFeqb (F32.tenths 2) F32.zero = false
    /\ peek (timeAtFrame channels) 5 st' = Some (F32.tenths 10)
    /\ SFeqb (F32.tenths 10) (F32.tenths 8) = false.
Proof.
  eexists _, _, _. split; [vm_compute; reflexivity|]. vm_compute. repeat split.
Qed.

(** The state of the sampler with one buffer, the vertex cache of the
    CONTROL object of [control_scene], three frames of one vertex each. *)
Definition cache_state : LState :=
  mkLState [Live (replicate 12 F32.zero)] control_scene.

(** The state in which [fluidsimBake] calls [fluid_init_all_channels] on
    [control_scene]. *)
Definition control_prepared : LState :=
  mkLState []
    (example_scene 3
       [set_fluidmd (Some (set_bake_range 1 3 (-1) (example_fss OB_FLUIDSIM_DOMAIN ["cache"])))
          (example_object "Domain" OB_FLUIDSIM_DOMAIN);
        example_object "Fluid" OB_FLUIDSIM_FLUID;
        example_object "Control" OB_FLUIDSIM_CONTROL]).

(** C4 fails on the code.  When the mesh of the CONTROL object comes with
    two vertices instead of the one recorded, [set_vertex_channel] frees
    the cache, but [fobj->VertexCache] keeps the address: the pointer is
    not NULL and dangles.  The next call for the object is no no-op: it
    frees the block a second time when the count still differs, and writes
    into the freed block when the count is the recorded one again.
    [fluid_init_all_channels] and [fluidsimBake] on three frames, with the
    count changing at frame 2, end in the double free. *)
Theorem vertex_count_change_leaves_dangling_pointer :
  let fobj := cache_only_object 2 (Some 0%nat) in
  (exists st',
     @set_vertex_channel (growing_host 0) (VertexCache fobj) F32.zero fobj 0 cache_state
     = inr (tt, st')
     /\ mem st' = [Freed]
     /\ VertexCache fobj = Some 0%nat
     /\ @set_vertex_channel (growing_host 0) (VertexCache fobj) F32.zero fobj 1 st'
        = inl DoubleFree
     /\ @set_vertex_channel (growing_host 100) (VertexCache fobj) F32.zero fobj 1 st'
        = inl UseAfterFree)
  /\ update_fss 0 (set_bake_range 1 3 (-1)) (mkLState [] control_scene)
     = inr (tt, control_prepared)
  /\ @fluid_init_all_channels (growing_host 2) 0 (example_channels 3) control_prepared
     = inl DoubleFree
  /\ @fluidsimBake scenario_fs (growing_host 2) (Some 0%nat) false
       (bake_world _ _ control_scene) = inl DoubleFree.
Proof.
  split; [|repeat split; vm_compute; reflexivity].
  eexists. split; [vm_compute; reflexivity|]. repeat split; vm_compute; reflexivity.
Qed.

(* ===================================================================== *)
(** * Properties of the channel sampler                                   *)
(* ===================================================================== *)

(** [m] started in [st] returns, without a fault, a value and a state that
    satisfy [Q]. *)
Definition runs {A : Type} (m : M A) (st : LState) (Q : A -> LState -> Prop) : Prop :=
  exists a st', m st = inr (a, st') /\ Q a st'.

Lemma runs_ret {A : Type} (a : A) (st : LState) (Q : A -> LState -> Prop) :
  Q a st -> runs (mret a) st Q.
Proof. intros HQ. exists a, st. split; [reflexivity|exact HQ]. Qed.

Lemma runs_bind {A B : Type} (m : M A) (f : A -> M B) (st : LState)
    (Q : A -> LState -> Prop) (R : B -> LState -> Prop) :
  runs m st Q -> (forall a st', Q a st' -> runs (f a) st' R) -> runs (m ≫= f) st R.
Proof.
  intros (a & st' & E & HQ) Hf. destruct (Hf a st' HQ) as (b & st'' & E' & HR).
  exists b, st''. split; [|exact HR]. unfold mbind, ST_bind. rewrite E. exact E'.
Qed.

Lemma runs_weaken {A : Type} (m : M A) (st : LState) (Q R : A -> LState -> Prop) :
  runs m st Q -> (forall a st', Q a st' -> R a st') -> runs m st R.
Proof. intros (a & st' & E & HQ) HR. exists a, st'. auto. Qed.

(** The rule of the [for] statement: [I k] holds when [k] elements have
    been dealt with. *)
Lemma runs_for_each {A : Type} (l : list A) (body : A -> M unit) (I : nat -> LState -> Prop) :
  forall (k0 : nat) (st : LState),
  I k0 st ->
  (forall k x st', l !! k = Some x -> I (k0 + k)%nat st' ->
     runs (body x) st' (fun _ st'' => I (S (k0 + k)) st'')) ->
  runs (for_each l body) st (fun _ st' => I (k0 + length l)%nat st').
Proof.
  induction l as [|x l IH]; intros k0 st H0 Hbody; cbn [for_each length].
  - apply runs_ret. rewrite Nat.add_0_r. exact H0.
  - eapply runs_bind.
    + apply (Hbody 0%nat x st); [reflexivity|]. rewrite Nat.add_0_r. exact H0.
    + cbn beta. intros _ st' HI. rewrite Nat.add_0_r in HI.
      replace (k0 + S (length l))%nat with (S k0 + length l)%nat by lia.
      apply IH; [exact HI|]. intros k y st'' Hk HIk.
      replace (S k0 + k)%nat with (k0 + S k)%nat in * by lia.
      apply Hbody; assumption.
Qed.

(** ** The heap seen through the sizes of its blocks *)

Definition block_len (b : block) : option nat :=
  match b with
  | Live cells => Some (length cells)
  | Freed => None
  end.

(** The sizes of the blocks of a heap, [None] for a freed one. *)
Definition shapes (h : heap) : list (option nat) := block_len <$> h.

(** The float at index [j] of the block at address [a]. *)
Definition cell (h : heap) (a : nat) (j : Z) : option float :=
  match h !! a with
  | Some (Live cells) => if 0 <=? j then cells !! Z.to_nat j else None
  | _ => None
  end.

(** [st'] differs from [st] in the content of the cells [W] at most. *)
Definition modifies (W : nat -> Z -> Prop) (st st' : LState) : Prop :=
  shapes (mem st') = shapes (mem st)
  /\ scene st' = scene st
  /\ forall a j, ~ W a j -> cell (mem st') a j = cell (mem st) a j.




Lemma shapes_lookup_live (h : heap) (a n : nat) :
  shapes h !! a = Some (Some n) -> exists cells, h !! a = Some (Live cells) /\ length cells = n.
Proof.
  unfold shapes. rewrite list_lookup_fmap.
  destruct (h !! a) as [[cells|]|]; cbn; intros Heq; simplify_eq; eauto.
Qed.

Lemma peek_cell (a : nat) (k : Z) (st : LState) : peek (Some a) k st = cell (mem st) a k.
Proof.
  unfold peek, load, cell, cells_at.
  destruct (mem st !! a) as [[cells|]|]; try reflexivity.
  destruct (Z.leb_spec 0 k); cbn [andb].
  - destruct (Z.ltb_spec k (Z.of_nat (length cells))).
    + destruct (cells !! Z.to_nat k); reflexivity.
    + symmetry. apply lookup_ge_None. lia.
  - reflexivity.
Qed.

Lemma buffer_size_shapes (a n : nat) (st : LState) :
  shapes (mem st) !! a = Some (Some n) -> buffer_size (Some a) st = Some (Z.of_nat n).
Proof.
  intros (cells & E & <-)%shapes_lookup_live. unfold buffer_size, cells_at. rewrite E. reflexivity.
Qed.

(** ** The rules of the memory operations *)


Lemma runs_load (a n : nat) (k : Z) (st : LState) :
  shapes (mem st) !! a = Some (Some n) -> 0 <= k < Z.of_nat n ->
  runs (load (Some a) k) st (fun v st' => st' = st /\ cell (mem st) a k = Some v).
Proof.
  intros (cells & E & <-)%shapes_lookup_live Hk.
  destruct (lookup_lt_is_Some_2 cells (Z.to_nat k)) as [v Hv]; [lia|].
  exists v, st. unfold load, cell, cells_at. rewrite E.
  destruct (Z.leb_spec 0 k); [|lia]. destruct (Z.ltb_spec k (Z.of_nat (length cells))); [|lia].
  cbn. rewrite Hv. auto.
Qed.

Lemma runs_store (a n : nat) (k : Z) (v : float) (st : LState) :
  shapes (mem st) !! a = Some (Some n) -> 0 <= k < Z.of_nat n ->
  runs (store (Some a) k v) st (fun _ st' =>
    modifies (fun a' j => a' = a /\ j = k) st st' /\ cell (mem st') a k = Some v).
Proof.
  intros (cells & E & <-)%shapes_lookup_live Hk.
  eexists tt, _. unfold store, cells_at. rewrite E.
  destruct (Z.leb_spec 0 k); [|lia]. destruct (Z.ltb_spec k (Z.of_nat (length cells))); [|lia].
  cbn [andb]. split; [reflexivity|]. unfold modifies. cbn [mem scene].
  assert (Ha : (a < length (mem st))%nat) by (apply lookup_lt_is_Some; eauto).
  split; [repeat split|].
  - unfold shapes. rewrite list_fmap_insert. cbn. rewrite length_insert.
    apply list_insert_id. rewrite list_lookup_fmap, E. reflexivity.
  - intros a' j Hn. unfold cell.
    destruct (decide (a' = a)) as [->|Hne].
    + rewrite list_lookup_insert_eq, E by exact Ha.
      destruct (Z.leb_spec 0 j); [|reflexivity].
      apply list_lookup_insert_ne. intros Heq. apply Hn. split; [reflexivity|lia].
    + rewrite list_lookup_insert_ne by congruence. reflexivity.
  - unfold cell. rewrite list_lookup_insert_eq by exact Ha.
    destruct (Z.leb_spec 0 k); [|lia]. apply list_lookup_insert_eq. lia.
Qed.




(** ** [set_channel] *)




(** ** The scene *)

Lemma runs_get_scene (st : LState) :
  runs get_scene st (fun sc st' => sc = scene st /\ st' = st).
Proof. eexists _, _. split; [reflexivity|]. auto. Qed.


Lemma runs_deref_object (k : nat) (ob : Object) (st : LState) :
  scene_base (scene st) !! k = Some ob ->
  runs (deref_object k) st (fun o st' => o = ob /\ st' = st).
Proof. intros E. exists ob, st. unfold deref_object. rewrite E. auto. Qed.

Lemma runs_deref_fss (k : nat) (ob : Object) (fss : FluidsimSettings) (st : LState) :
  scene_base (scene st) !! k = Some ob -> fluidmd ob = Some fss ->
  runs (deref_fss k) st (fun f st' => f = fss /\ st' = st).
Proof.
  intros E Hmd. unfold deref_fss. eapply runs_bind; [apply runs_deref_object, E|].
  cbn beta. intros o st' (-> & ->). rewrite Hmd. apply runs_ret. auto.
Qed.

Section SamplerProofs.
Context `{LegacyHost}.




(** ** The buffers of the fluid objects *)





(** The cells at the addresses from [lo] on. *)
Definition from (lo : nat) : nat -> Z -> Prop := fun a _ => (lo <= a)%nat.



Lemma length_flat_verts (vs : list vec3) : length (flat_verts vs) = (3 * length vs)%nat.
Proof.
  unfold flat_verts. induction vs as [|v vs IH]; [reflexivity|].
  cbn [mbind list_bind]. rewrite length_app, IH. cbn. lia.
Qed.




(** ** The loop over the frames *)







(** ** Allocation *)














(** ** The whole of [fluid_init_all_channels] *)





End SamplerProofs.



(* ===================================================================== *)
(** * Further properties of the Mantaflow bake job                        *)
(* ===================================================================== *)

Lemma pause_set_fields (X : Stage) (v : Z) (s : SmokeDomainSettings) :
  cache_flag (pause_set X v s) = cache_flag s
  /\ cache_frame_start (pause_set X v s) = cache_frame_start s
  /\ cache_frame_end (pause_set X v s) = cache_frame_end s
  /\ cache_directory (pause_set X v s) = cache_directory s
  /\ error (pause_set X v s) = error s.
Proof. destruct X; repeat split. Qed.

Lemma last_seqZ (m n : Z) : 0 < n -> last (seqZ m n) = Some (m + n - 1).
Proof.
  intros Hn. rewrite last_lookup, length_seqZ. apply lookup_seqZ. split; lia.
Qed.

Section MantaBakeExtra.
Context `{FileSystem} `{CacheFlagLayout} `{MantaHost}.

(** What the frame loop of a bake of stage [X] leaves as it was. *)
Definition loop_keeps (X : Stage) (job : FluidMantaflowJob) (st : MantaState)
    (job' : FluidMantaflowJob) (st' : MantaState) : Prop :=
  cache_flag (data st') = cache_flag (data st)
  /\ cache_frame_start (data st') = cache_frame_start (data st)
  /\ cache_frame_end (data st') = cache_frame_end (data st)
  /\ cache_directory (data st') = cache_directory (data st)
  /\ (forall Y, Y <> X -> pause_get Y (data st') = pause_get Y (data st))
  /\ files st' = files st
  /\ wm_reports st' = wm_reports st
  /\ wm_jobs st' = wm_jobs st
  /\ G_is_rendering st' = G_is_rendering st
  /\ draw_locks st' = draw_locks st
  /\ job_type job' = job_type job
  /\ job_name job' = job_name job
  /\ job_pause_frame job' = job_pause_frame job.

Lemma loop_keeps_refl (X : Stage) (job : FluidMantaflowJob) (st : MantaState) :
  loop_keeps X job st job st.
Proof. repeat split. Qed.

Lemma loop_keeps_trans (X : Stage) (j1 j2 j3 : FluidMantaflowJob) (s1 s2 s3 : MantaState) :
  loop_keeps X j1 s1 j2 s2 -> loop_keeps X j2 s2 j3 s3 -> loop_keeps X j1 s1 j3 s3.
Proof.
  intros (A1 & A2 & A3 & A4 & A5 & A6 & A7 & A8 & A9 & A10 & A11 & A12 & A13)
         (B1 & B2 & B3 & B4 & B5 & B6 & B7 & B8 & B9 & B10 & B11 & B12 & B13).
  repeat split; try congruence. intros Y HY. rewrite B5, A5; auto.
Qed.

Lemma bake_frames_keeps (X : Stage) (frames : Z) (todo : list Z) :
  forall (job : FluidMantaflowJob) (st : MantaState),
  loop_keeps X job st (bake_frames X frames todo job st).1.1 (bake_frames X frames todo job st).1.2.
Proof.
  induction todo as [|f todo IH]; intros job st; cbn [bake_frames]; [apply loop_keeps_refl|].
  destruct (pause_set_fields X f (data st)) as (F1 & F2 & F3 & F4 & F5).
  assert (Hstep : forall (w : MantaState) (j : FluidMantaflowJob),
             data w = pause_set X f (data st) -> files w = files st ->
             wm_reports w = wm_reports st -> wm_jobs w = wm_jobs st ->
             G_is_rendering w = G_is_rendering st -> draw_locks w = draw_locks st ->
             job_type j = job_type job -> job_name j = job_name job ->
             job_pause_frame j = job_pause_frame job ->
             loop_keeps X job st j w).
  { intros w j Hd. intros. unfold loop_keeps. rewrite Hd.
    repeat split; auto. intros Y HY. apply pause_get_set_ne. congruence. }
  destruct (pause_pressed f); cbn [G_is_break set_G_is_break on_sds set_data].
  - cbn [fst snd]. apply Hstep; reflexivity.
  - destruct (G_is_break st); cbn [fst snd]; [apply Hstep; reflexivity|].
    eapply loop_keeps_trans; [|apply IH].
    unfold loop_keeps. cbn. destruct X; repeat split; intros [] HY; try reflexivity;
      contradiction HY; reflexivity.
Qed.

(** The frame loop over frames at none of which the break flag is seen:
    it falls through, with the pause marker at the last frame. *)
Lemma bake_frames_complete (X : Stage) (frames : Z) (todo : list Z) :
  forall (job : FluidMantaflowJob) (st : MantaState),
  G_is_break st = false ->
  Forall (fun g => pause_pressed g = false) todo ->
  exists job' st',
    bake_frames X frames todo job st = (job', st', false)
    /\ job_success job' = job_success job
    /\ G_is_break st' = false
    /\ pause_get X (data st') = default (pause_get X (data st)) (last todo).
Proof.
  induction todo as [|f todo IH]; intros job st Hbrk Hall; cbn [bake_frames].
  - eexists _, _. split; [reflexivity|]. auto.
  - inversion Hall as [|? ? Hf Hrest]; subst. rewrite Hf.
    cbn [G_is_break on_sds set_data]. rewrite Hbrk.
    edestruct IH as (job' & st' & E & Hs & Hb & Hp); [| exact Hrest |].
    2:{ rewrite E. eexists _, _. split; [reflexivity|]. split; [exact Hs|]. split; [exact Hb|].
        rewrite Hp. cbn [data set_cfra on_sds set_data].
        rewrite last_cons. destruct (last todo); [reflexivity|].
        cbn [default]. destruct X; reflexivity. }
    exact Hbrk.
Qed.

(** The report with which a job-end hook closes a job that left [err] in
    [sds->error]. *)
Definition end_message (job : FluidMantaflowJob) (err : string) : Report :=
  if negb (job_success job =? 0) then
    mkReport RPT_INFO "Fluid Mantaflow: %s complete! (%.2f)" [job_name job]
  else if negb (String.length err =? 0)%nat then
    mkReport RPT_ERROR "Fluid Mantaflow: %s failed: %s" [job_name job; err]
  else mkReport RPT_WARNING "Fluid Mantaflow: %s canceled!" [job_name job].

Lemma fluid_manta_bake_endjob_state (X : Stage) (job : FluidMantaflowJob) (st : MantaState) :
  job_type job = MANTA_OT_bake X ->
  fluid_manta_bake_endjob job st
  = mkWorld (G_is_break st) false false (cfra st) (files st)
      (wm_reports st ++ [end_message job (error (data st))]) (wm_jobs st)
      (set_cache_flag
         (Z.lor (Z.land (cache_flag (data st)) (Z.lnot (FLUID_DOMAIN (BAKING X))))
            (FLUID_DOMAIN (BAKED X))) (data st)).
Proof.
  intros Ht. unfold fluid_manta_bake_endjob, job_end_report, end_message.
  rewrite Ht, bake_stage_of_type_bake.
  destruct (job_success job =? 0); cbn [negb]; [|reflexivity].
  cbn [data on_sds set_data error set_cache_flag BKE_spacedata_draw_locks set_G_is_rendering].
  destruct (String.length (error (data st)) =? 0)%nat; reflexivity.
Qed.

(** The state in which [fluid_manta_bake_startjob] enters the frame loop
    of stage [X]. *)
Definition bake_entry (X : Stage) (st : MantaState) : MantaState :=
  mkWorld false true true (cfra st)
    (BLI_dir_create_recursive (BLI_path_join (cache_directory (data st)) (FLUID_DOMAIN_DIR X))
       (files st)).2
    (wm_reports st) (wm_jobs st)
    (set_cache_flag
       (Z.lor (Z.land (cache_flag (data st)) (Z.lnot (FLUID_DOMAIN (BAKED X))))
          (FLUID_DOMAIN (BAKING X))) (data st)).

Lemma fluid_manta_bake_startjob_entry (X : Stage) (job : FluidMantaflowJob)
    (stop do_update : option Z) (progress : option float) (st : MantaState) :
  job_type job = MANTA_OT_bake X ->
  fluid_manta_bake_startjob job stop do_update progress st
  = match
      fluid_manta_bake_sequence
        (set_job_pause_frame (Some X) (set_job_success 1 (set_job_slots stop do_update progress job)))
        (bake_entry X st)
    with
    | None => None
    | Some (job, st) =>
        let job := set_job_do_update (poke 1 (job_do_update job)) job in
        let job := set_job_stop (poke 0 (job_stop job)) job in
        Some (job, st)
    end.
Proof.
  intros Ht. unfold fluid_manta_bake_startjob.
  cbn [job_type set_job_slots set_job_success]. rewrite Ht, bake_stage_of_type_bake.
  reflexivity.
Qed.

(** [fluid_manta_bake_sequence] returns for a job whose pause pointer is
    set, and keeps what its loop keeps. *)
Lemma fluid_manta_bake_sequence_keeps (X : Stage) (job : FluidMantaflowJob) (st : MantaState) :
  job_pause_frame job = Some X ->
  exists job' st',
    fluid_manta_bake_sequence job st = Some (job', st')
    /\ loop_keeps X job st job' st'.
Proof.
  intros Hpf. unfold fluid_manta_bake_sequence.
  destruct (_ <=? 0).
  - eexists _, _. split; [reflexivity|]. repeat split.
  - cbn [job_pause_frame set_job_do_update]. rewrite Hpf.
    match goal with
    | |- context [bake_frames X ?fr ?todo ?j ?s] =>
        pose proof (bake_frames_keeps X fr todo j s) as Hk;
        destruct (bake_frames X fr todo j s) as [[job' st'] returned]
    end.
    cbn [fst snd] in Hk.
    assert (Hk' : loop_keeps X job st job' st').
    { eapply loop_keeps_trans; [|exact Hk]. repeat split. }
    destruct returned; eexists _, _; (split; [reflexivity|]); [exact Hk'|].
    eapply loop_keeps_trans; [exact Hk'|]. repeat split.
Qed.

Lemma fluid_manta_bake_sequence_complete (X : Stage) (job : FluidMantaflowJob) (st : MantaState) :
  job_pause_frame job = Some X ->
  G_is_break st = false ->
  cache_frame_start (data st) <= cache_frame_end (data st) ->
  (forall g, resume_frame X (data st) <= g <= cache_frame_end (data st) ->
     pause_pressed g = false) ->
  exists job' st',
    fluid_manta_bake_sequence job st = Some (job', st')
    /\ job_success job' = job_success job
    /\ G_is_break st' = false
    /\ pause_get X (data st')
       = (if resume_frame X (data st) <=? cache_frame_end (data st)
          then cache_frame_end (data st) else pause_get X (data st))
    /\ cfra st' = cfra st.
Proof.
  intros Hpf Hbrk Hrange Hfree. unfold fluid_manta_bake_sequence.
  destruct (Z.leb_spec (cache_frame_end (data st) - cache_frame_start (data st) + 1) 0) as [|_];
    [lia|].
  cbn [job_pause_frame set_job_do_update]. rewrite Hpf.
  fold (resume_frame X (data st)). cbn [data set_cfra].
  set (init := resume_frame X (data st)) in *.
  edestruct (bake_frames_complete X
               (cache_frame_end (data st) - cache_frame_start (data st) + 1)
               (seqZ init (cache_frame_end (data st) - init + 1))
               (set_job_do_update (poke 1 (job_do_update job)) job) (set_cfra init st))
    as (job' & st' & E & Hs & Hb & Hp).
  - exact Hbrk.
  - apply Forall_seqZ. intros g Hg. apply Hfree. lia.
  - rewrite E. eexists _, _. split; [reflexivity|].
    split; [exact Hs|]. split; [exact Hb|]. split; [|reflexivity].
    cbn [data set_cfra] in Hp |- *. rewrite Hp.
    destruct (Z.leb_spec init (cache_frame_end (data st))) as [Hres|Hres].
    + rewrite last_seqZ by lia. cbn [default id]. unfold id. lia.
    + rewrite seqZ_nil by lia. reflexivity.
Qed.

Lemma flag_set_bake_cycle (X : Stage) (flags : Z) (c : CacheBit) :
  flag_set
    (Z.lor
       (Z.land (Z.lor (Z.land flags (Z.lnot (FLUID_DOMAIN (BAKED X)))) (FLUID_DOMAIN (BAKING X)))
          (Z.lnot (FLUID_DOMAIN (BAKING X))))
       (FLUID_DOMAIN (BAKED X))) c
  = if bool_decide (c = BAKED X) then true
    else if bool_decide (c = BAKING X) then false
    else flag_set flags c.
Proof.
  autorewrite with cache_flags.
  repeat case_bool_decide; subst; try congruence; cbn;
    rewrite ?andb_true_r, ?andb_false_r, ?orb_true_r, ?orb_false_r; reflexivity.
Qed.

(** A bake job of stage [X], its frame numbers fitting [int], runs to its
    end hook whatever happens in its loop.  Of the bake state, what the
    job itself does changes the two flags and the pause marker of [X] at
    most: the flags and pause markers of the other stages, the cache
    directory and the frame range are as before; no job is started, and
    one report is added.  The evaluation of a frame is the host's and
    counts here for what it leaves in [sds->error] only; what it writes to
    the disk is not part of the statement. *)
Theorem bake_job_touches_only_its_stage (X : Stage) (job : FluidMantaflowJob)
    (stop do_update : option Z) (progress : option float) (st : MantaState) :
  job_type job = MANTA_OT_bake X ->
  bake_frames_fit_int X (data st) ->
  exists job' st',
    run_bake_job job stop do_update progress st = Some (job', st')
    /\ (forall c, c <> BAKING X -> c <> BAKED X ->
          flag_set (cache_flag (data st')) c = flag_set (cache_flag (data st)) c)
    /\ flag_set (cache_flag (data st')) (BAKING X) = false
    /\ flag_set (cache_flag (data st')) (BAKED X) = true
    /\ (forall Y, Y <> X -> pause_get Y (data st') = pause_get Y (data st))
    /\ cache_directory (data st') = cache_directory (data st)
    /\ cache_frame_start (data st') = cache_frame_start (data st)
    /\ cache_frame_end (data st') = cache_frame_end (data st)
    /\ wm_jobs st' = wm_jobs st
    /\ (exists r, wm_reports st' = wm_reports st ++ [r])
    /\ G_is_rendering st' = false
    /\ draw_locks st' = false.
Proof.
  intros Ht _. unfold run_bake_job. rewrite (fluid_manta_bake_startjob_entry X) by exact Ht.
  destruct (fluid_manta_bake_sequence_keeps X
              (set_job_pause_frame (Some X)
                 (set_job_success 1 (set_job_slots stop do_update progress job)))
              (bake_entry X st) eq_refl)
    as (job' & st' & E & K1 & K2 & K3 & K4 & K5 & K6 & K7 & K8 & K9 & K10 & K11 & K12 & K13).
  rewrite E. cbn zeta. eexists _, _. split; [reflexivity|].
  rewrite (fluid_manta_bake_endjob_state X) by (cbn [job_type set_job_stop set_job_do_update];
    rewrite K11; exact Ht).
  cbn [data cache_flag set_cache_flag cache_directory cache_frame_start cache_frame_end files
       wm_jobs wm_reports G_is_rendering draw_locks].
  rewrite K1. cbn [bake_entry data cache_flag set_cache_flag].
  split; [|split; [|split; [|split; [|split; [|split; [|split; [|split; [|split;
    [|split]]]]]]]]].
  - intros c Hc1 Hc2. rewrite flag_set_bake_cycle. repeat case_bool_decide; congruence.
  - rewrite flag_set_bake_cycle. repeat case_bool_decide; congruence.
  - rewrite flag_set_bake_cycle. repeat case_bool_decide; congruence.
  - intros Y HY.
    assert (Hset : forall v s, pause_get Y (set_cache_flag v s) = pause_get Y s)
      by (intros; destruct Y; reflexivity).
    rewrite Hset, (K5 Y HY). cbn [bake_entry data]. apply Hset.
  - rewrite K4. reflexivity.
  - rewrite K2. reflexivity.
  - rewrite K3. reflexivity.
  - rewrite K8. reflexivity.
  - eexists. rewrite K7. reflexivity.
  - reflexivity.
  - reflexivity.
Qed.

(** A bake of stage [X] over a frame range that is not empty, its frame
    numbers fitting [int], during which nobody asks for a pause, visits
    the frames from the resume frame to the end frame and ends
    successful: the scene is back at the frame it was on, the break flag
    is clear and the job is reported as complete.  The pause marker of
    [X] stands at the end frame; only when it stood beyond the end frame
    already is no frame visited and the marker left where it was. *)
Theorem bake_uninterrupted_completes (X : Stage) (job : FluidMantaflowJob)
    (stop do_update : option Z) (progress : option float) (st : MantaState) :
  job_type job = MANTA_OT_bake X ->
  bake_frames_fit_int X (data st) ->
  cache_frame_start (data st) <= cache_frame_end (data st) ->
  (forall g, resume_frame X (data st) <= g <= cache_frame_end (data st) ->
     pause_pressed g = false) ->
  exists job' st',
    run_bake_job job stop do_update progress st = Some (job', st')
    /\ job_success job' = 1
    /\ pause_get X (data st')
       = (if resume_frame X (data st) <=? cache_frame_end (data st)
          then cache_frame_end (data st) else pause_get X (data st))
    /\ cfra st' = cfra st
    /\ G_is_break st' = false
    /\ wm_reports st'
       = wm_reports st
         ++ [mkReport RPT_INFO "Fluid Mantaflow: %s complete! (%.2f)" [job_name job]].
Proof.
  intros Ht _ Hrange Hfree.
  unfold run_bake_job. rewrite (fluid_manta_bake_startjob_entry X) by exact Ht.
  set (job1 := set_job_pause_frame (Some X)
                 (set_job_success 1 (set_job_slots stop do_update progress job))).
  assert (Hr : resume_frame X (data (bake_entry X st)) = resume_frame X (data st))
    by (destruct X; reflexivity).
  assert (Hpg : pause_get X (data (bake_entry X st)) = pause_get X (data st))
    by (destruct X; reflexivity).
  destruct (fluid_manta_bake_sequence_keeps X job1 (bake_entry X st) eq_refl)
    as (job' & st' & E & K1 & K2 & K3 & K4 & K5 & K6 & K7 & K8 & K9 & K10 & K11 & K12 & K13).
  destruct (fluid_manta_bake_sequence_complete X job1 (bake_entry X st))
    as (job'' & st'' & E' & Hs & Hb & Hp & Hc);
    [reflexivity|reflexivity|exact Hrange|intros g; rewrite Hr; apply Hfree|].
  rewrite E in E'. injection E' as <- <-.
  rewrite E. cbn zeta. eexists _, _. split; [reflexivity|].
  rewrite (fluid_manta_bake_endjob_state X) by (cbn [job_type set_job_stop set_job_do_update];
    rewrite K11; exact Ht).
  cbn [data cache_flag set_cache_flag cfra G_is_break wm_reports job_success set_job_stop
       set_job_do_update].
  split; [rewrite Hs; reflexivity|]. split.
  { change (cache_frame_end (data (bake_entry X st))) with (cache_frame_end (data st)) in Hp.
    rewrite Hr, Hpg in Hp. rewrite <- Hp. destruct X; reflexivity. }
  split; [rewrite Hc; reflexivity|]. split; [exact Hb|].
  rewrite K7. unfold end_message.
  cbn [job_success job_name set_job_stop set_job_do_update]. rewrite Hs, K12. reflexivity.
Qed.


End MantaBakeExtra.

(* ===================================================================== *)
(** * Further properties of the Mantaflow free job and operators          *)
(* ===================================================================== *)

Section MantaFreeExtra.
Context `{FileSystem} `{CacheFlagLayout} `{MantaHost}.

(** The state that [fluid_manta_free_startjob] leaves for the free
    operator of a stage other than DATA. *)
Lemma fluid_manta_free_startjob_stage (X : Stage) (job : FluidMantaflowJob) (stop do_update : Z)
    (progress : float) (st : MantaState) :
  job_type job = MANTA_OT_free X -> X <> DATA ->
  let st' := (fluid_manta_free_startjob job stop do_update progress st).2 in
  cache_flag (data st') = Z.land (cache_flag (data st)) (Z.lnot (stage_mask X))
  /\ (exists st0,
        cache_directory (data st0) = cache_directory (data st)
        /\ files st0 = files st
        /\ files st' = files (free_stage_dir X st0))
  /\ (forall Y, pause_get Y (data st') = if bool_decide (Y = X) then 0 else pause_get Y (data st))
  /\ cache_frame_start (data st') = cache_frame_start (data st)
  /\ cache_directory (data st') = cache_directory (data st)
  /\ cfra st' = cache_frame_start (data st)
  /\ wm_reports st' = wm_reports st
  /\ wm_jobs st' = wm_jobs st.
Proof.
  intros Ht HX. unfold fluid_manta_free_startjob.
  cbn [job_type set_job_slots set_job_success]. rewrite Ht, free_stage_of_type_free.
  destruct X; try (contradiction HX; reflexivity);
    cbn -[Z.land Z.lor Z.lnot free_stage_dir]; rewrite !free_stage_dir_data;
    cbn -[Z.land Z.lor Z.lnot free_stage_dir];
    (split; [reflexivity|]);
    (split; [eexists; split; [|split; [|reflexivity]]; reflexivity|]);
    (split; [intros []; reflexivity|]);
    unfold free_stage_dir; cbn -[Z.land Z.lor Z.lnot];
    destruct (BLI_exists _ _); repeat split.
Qed.

(** Freeing a stage [X] other than DATA clears the two flags of [X],
    removes the cache directory of [X] and resets the pause marker of [X],
    so that the next bake of [X] starts at the start frame; the flags and
    pause markers of the other stages and everything on disk outside the
    directory of [X] are as before. *)
Theorem free_stage_touches_only_its_stage (X : Stage) (job : FluidMantaflowJob)
    (stop do_update : Z) (progress : float) (st : MantaState) :
  job_type job = MANTA_OT_free X -> X <> DATA ->
  let st' := (fluid_manta_free_startjob job stop do_update progress st).2 in
  let dir := BLI_path_join (cache_directory (data st)) (FLUID_DOMAIN_DIR X) in
  flag_set (cache_flag (data st')) (BAKING X) = false
  /\ flag_set (cache_flag (data st')) (BAKED X) = false
  /\ (forall c, c <> BAKING X -> c <> BAKED X ->
        flag_set (cache_flag (data st')) c = flag_set (cache_flag (data st)) c)
  /\ pause_get X (data st') = 0
  /\ resume_frame X (data st') = cache_frame_start (data st)
  /\ (forall Y, Y <> X -> pause_get Y (data st') = pause_get Y (data st))
  /\ BLI_exists dir (files st') = false
  /\ (forall q, path_under dir q = false -> BLI_exists q (files st') = BLI_exists q (files st)).
Proof.
  intros Ht HX st' dir.
  destruct (fluid_manta_free_startjob_stage X job stop do_update progress st Ht HX)
    as (Hflag & (st0 & Hdir & Hfiles & Hfs) & Hpause & Hstart & _).
  fold st' in Hflag, Hfs, Hpause, Hstart. rewrite Hflag, Hfs.
  assert (Hp : pause_get X (data st') = 0)
    by (rewrite Hpause, bool_decide_eq_true_2; reflexivity).
  unfold stage_mask. autorewrite with cache_flags.
  repeat split.
  - rewrite !bool_decide_eq_true_2 by reflexivity. cbn. apply andb_false_r.
  - rewrite (bool_decide_eq_true_2 (BAKED X = BAKED X)) by reflexivity.
    rewrite orb_true_r. apply andb_false_r.
  - intros c Hc1 Hc2. autorewrite with cache_flags.
    rewrite !bool_decide_eq_false_2 by congruence. cbn. apply andb_true_r.
  - exact Hp.
  - unfold resume_frame. rewrite Hp, Hstart. reflexivity.
  - intros Y HY. rewrite Hpause, bool_decide_eq_false_2 by exact HY. reflexivity.
  - unfold dir. rewrite <- Hdir. apply free_stage_dir_gone.
  - intros q Hq. rewrite <- Hfiles. apply free_stage_dir_other. rewrite Hdir. exact Hq.
Qed.

(** The stages whose caches the free operator of [X] removes, and the
    mask of the flags it clears. *)
Definition freed_stages (X : Stage) : list Stage :=
  match X with
  | DATA => [DATA; NOISE; MESH; PARTICLES]
  | _ => [X]
  end.

Definition free_mask (X : Stage) : Z :=
  match X with
  | DATA =>
      Z.lor (Z.lor (Z.lor (stage_mask DATA) (stage_mask NOISE)) (stage_mask MESH))
        (stage_mask PARTICLES)
  | _ => stage_mask X
  end.

Definition free_dirs (l : list Stage) (st : MantaState) : MantaState :=
  foldl (fun w Y => free_stage_dir Y w) st l.

Lemma free_dirs_data (l : list Stage) (st : MantaState) : data (free_dirs l st) = data st.
Proof.
  revert st. induction l as [|Y l IH]; intros st; [reflexivity|].
  cbn [free_dirs foldl]. fold (free_dirs l (free_stage_dir Y st)).
  rewrite IH. apply free_stage_dir_data.
Qed.

Lemma free_stage_dir_absent (Y : Stage) (st : MantaState) :
  BLI_exists (BLI_path_join (cache_directory (data st)) (FLUID_DOMAIN_DIR Y)) (files st) = false ->
  free_stage_dir Y st = st.
Proof. intros E. unfold free_stage_dir. rewrite E. reflexivity. Qed.

Lemma free_dirs_absent (l : list Stage) (st : MantaState) :
  Forall (fun Y =>
      BLI_exists (BLI_path_join (cache_directory (data st)) (FLUID_DOMAIN_DIR Y)) (files st) = false) l ->
  free_dirs l st = st.
Proof.
  induction l as [|Y l IH]; intros Hall; [reflexivity|].
  inversion Hall as [|? ? HY Hl]; subst.
  cbn [free_dirs foldl]. rewrite (free_stage_dir_absent Y st HY). apply IH, Hl.
Qed.

Lemma free_dirs_stays_gone (l : list Stage) (st : MantaState) (q : path) :
  BLI_exists q (files st) = false -> BLI_exists q (files (free_dirs l st)) = false.
Proof.
  revert st. induction l as [|Y l IH]; intros st Hq; [exact Hq|].
  cbn [free_dirs foldl]. apply IH, free_stage_dir_stays_gone, Hq.
Qed.

(** After [free_dirs l] the directories of the stages of [l] are gone. *)
Lemma free_dirs_gone (l : list Stage) (st : MantaState) :
  Forall (fun Y =>
      BLI_exists (BLI_path_join (cache_directory (data st)) (FLUID_DOMAIN_DIR Y))
        (files (free_dirs l st)) = false) l.
Proof.
  revert st. induction l as [|Y l IH]; intros st; constructor.
  - cbn [free_dirs foldl]. apply free_dirs_stays_gone.
    apply free_stage_dir_gone.
  - cbn [free_dirs foldl].
    rewrite <- (free_stage_dir_data Y st). apply IH.
Qed.

(** The state that [fluid_manta_free_startjob] leaves for the free
    operator of any stage. *)
Lemma fluid_manta_free_startjob_general (X : Stage) (job : FluidMantaflowJob)
    (stop do_update : Z) (progress : float) (st : MantaState) :
  job_type job = MANTA_OT_free X ->
  let st' := (fluid_manta_free_startjob job stop do_update progress st).2 in
  cache_flag (data st') = Z.land (cache_flag (data st)) (Z.lnot (free_mask X))
  /\ (exists st0,
        cache_directory (data st0) = cache_directory (data st)
        /\ files st0 = files st
        /\ files st' = files (free_dirs (freed_stages X) st0))
  /\ (forall Y, pause_get Y (data st') = if bool_decide (Y = X) then 0 else pause_get Y (data st))
  /\ cache_directory (data st') = cache_directory (data st).
Proof.
  intros Ht. unfold fluid_manta_free_startjob.
  cbn [job_type set_job_slots set_job_success]. rewrite Ht, free_stage_of_type_free.
  destruct X;
    cbn -[Z.land Z.lor Z.lnot free_stage_dir]; rewrite !free_stage_dir_data;
    cbn -[Z.land Z.lor Z.lnot free_stage_dir];
    (split; [reflexivity|]);
    (split; [eexists; split; [|split; [|reflexivity]]; reflexivity|]);
    (split; [intros []; reflexivity|]); reflexivity.
Qed.

(** Freeing is idempotent on the bake state: a second free of the same
    stage finds the flags clear, the pause marker reset and the
    directories gone, and changes none of them. *)
Theorem free_twice_is_free_once (X : Stage) (job1 job2 : FluidMantaflowJob)
    (stop1 do_update1 stop2 do_update2 : Z) (progress1 progress2 : float) (st : MantaState) :
  job_type job1 = MANTA_OT_free X -> job_type job2 = MANTA_OT_free X ->
  let st1 := (fluid_manta_free_startjob job1 stop1 do_update1 progress1 st).2 in
  let st2 := (fluid_manta_free_startjob job2 stop2 do_update2 progress2 st1).2 in
  cache_flag (data st2) = cache_flag (data st1)
  /\ files st2 = files st1
  /\ (forall Y, pause_get Y (data st2) = pause_get Y (data st1))
  /\ cache_directory (data st2) = cache_directory (data st1).
Proof.
  intros Ht1 Ht2 st1 st2.
  destruct (fluid_manta_free_startjob_general X job1 stop1 do_update1 progress1 st Ht1)
    as (Hflag1 & (st0 & Hdir0 & Hfiles0 & Hfs1) & Hpause1 & Hdir1).
  destruct (fluid_manta_free_startjob_general X job2 stop2 do_update2 progress2 st1 Ht2)
    as (Hflag2 & (st0' & Hdir0' & Hfiles0' & Hfs2) & Hpause2 & Hdir2).
  fold st1 in Hflag1, Hfs1, Hpause1, Hdir1, Hflag2, Hfs2, Hpause2, Hdir2.
  fold st2 in Hflag2, Hfs2, Hpause2, Hdir2.
  split; [|split; [|split]].
  - rewrite Hflag2, Hflag1, <- Z.land_assoc, Z.land_diag. reflexivity.
  - rewrite Hfs2, free_dirs_absent; [exact Hfiles0'|].
    rewrite Hdir0', Hdir1, <- Hdir0, Hfiles0', Hfs1. apply free_dirs_gone.
  - intros Y. rewrite Hpause2. case_bool_decide as HY; [|reflexivity].
    subst Y. rewrite Hpause1, bool_decide_eq_true_2; reflexivity.
  - exact Hdir2.
Qed.

(** The guard of [fluid_manta_free_exec], as far as it goes: while the
    bake of DATA, NOISE, MESH or PARTICLES is marked as running, every
    free operator is refused with an error report, and nothing else
    changes: the domain, the disk and the jobs are as before. *)
Theorem free_refused_while_bake_pending (idname name : string) (C : bContext)
    (sds : SmokeDomainSettings) (X : Stage) :
  data C = Some (mkSMD (Some sds)) ->
  X <> GUIDING ->
  flag_set (cache_flag sds) (BAKING X) = true ->
  exists C',
    fluid_manta_free_exec idname name C = (OPERATOR_CANCELLED, C')
    /\ data C' = data C
    /\ files C' = files C
    /\ wm_jobs C' = wm_jobs C
    /\ wm_reports C'
       = wm_reports C ++ [mkReport RPT_ERROR "Bake free failed: pending bake jobs found" []].
Proof.
  intros HC HX Hset. rewrite (fluid_manta_free_exec_pending idname name C sds X HC HX Hset).
  eexists. split; [reflexivity|]. repeat split.
Qed.

(** The outcomes of [fluid_manta_free_exec]: it never goes modal; when it
    cancels it has started no job and changed nothing but the reports, to
    which it has added one error; when it finishes it has started the free
    job of the operator. *)
Theorem free_exec_outcomes (idname name : string) (C : bContext) :
  let '(result, C') := fluid_manta_free_exec idname name C in
  match result with
  | OPERATOR_CANCELLED =>
      data C' = data C /\ files C' = files C /\ wm_jobs C' = wm_jobs C
      /\ exists msg, wm_reports C' = wm_reports C ++ [mkReport RPT_ERROR msg []]
  | OPERATOR_FINISHED => wm_jobs C' = wm_jobs C ++ [mkJob None None None idname name 0 None]
  | OPERATOR_RUNNING_MODAL => False
  end.
Proof.
  unfold fluid_manta_free_exec.
  destruct (data C) as [[[sds|]]|] eqn:HC; cbn [domain];
    try (cbv beta iota; cbn [data files wm_jobs wm_reports set_wm_reports]; rewrite ?HC;
         repeat split; eexists; reflexivity).
  match goal with |- context [negb ?b] => destruct (negb b) end;
    [cbv beta iota; cbn [data files wm_jobs wm_reports set_wm_reports]; rewrite ?HC;
     repeat split; eexists; reflexivity|].
  pose proof (fluid_manta_initpaths_jobs (set_data sds C)) as Hjobs.
  destruct (fluid_manta_initpaths _) as [ok st]. cbn in *. rewrite Hjobs. reflexivity.
Qed.

End MantaFreeExtra.

Lemma error_count_app (l k : list Report) : error_count (l ++ k) = (error_count l + error_count k)%nat.
Proof. unfold error_count. rewrite filter_app, length_app. reflexivity. Qed.

Lemma error_count_warning (fmt : string) (args : list string) :
  error_count [mkReport RPT_WARNING fmt args] = 0%nat.
Proof. reflexivity. Qed.

Lemma error_count_error (fmt : string) (args : list string) :
  error_count [mkReport RPT_ERROR fmt args] = 1%nat.
Proof. reflexivity. Qed.

Section MantaOperatorProofs.
Context `{FileSystem} `{CacheFlagLayout} `{MantaHost}.

(** What [fluid_manta_pause_exec] achieves.  On a domain it raises the
    break flag and reports nothing.  A frame loop that is running then
    stops at the next frame it comes to: it records that frame as pause
    frame and marks the job as unsuccessful without evaluating the frame.
    A bake job that has yet to start does not see the request: its start
    hook clears the flag, and the job runs as if nobody had asked. *)
Theorem pause_request_stops_running_loop_only (X : Stage) (frames f : Z) (todo : list Z)
    (job : FluidMantaflowJob) (C : bContext) (sds : SmokeDomainSettings) :
  data C = Some (mkSMD (Some sds)) ->
  exists C',
    fluid_manta_pause_exec C = (OPERATOR_FINISHED, C')
    /\ G_is_break C' = true
    /\ wm_reports C' = wm_reports C
    /\ (forall s : SmokeDomainSettings,
          bake_frames X frames (f :: todo) job (set_data s C')
          = (set_job_success 0 job, set_data (pause_set X f s) C', true))
    /\ (forall (s : SmokeDomainSettings) stop do_update progress,
          run_bake_job job stop do_update progress (set_data s C')
          = run_bake_job job stop do_update progress (set_data s C)).
Proof.
  intros HC. unfold fluid_manta_pause_exec. rewrite HC. cbn [domain].
  eexists. split; [reflexivity|]. split; [reflexivity|]. split; [reflexivity|]. split.
  - intros s. cbn [bake_frames]. destruct (pause_pressed f); reflexivity.
  - intros s stop do_update progress. reflexivity.
Qed.

Lemma fluid_manta_initpaths_keeps (st : MantaState) :
  cache_flag (data (fluid_manta_initpaths st).2) = cache_flag (data st)
  /\ forall Y, pause_get Y (data (fluid_manta_initpaths st).2) = pause_get Y (data st).
Proof.
  unfold fluid_manta_initpaths.
  destruct (cache_directory (data st)) as [|c p]; cbn -[BLI_path_abs];
    (destruct (BLI_dir_create_recursive _ (files st)) as [[] fs1]; cbn -[BLI_path_abs];
     [|destruct (BLI_dir_create_recursive _ fs1) as [[] fs2]; cbn -[BLI_path_abs]]);
    (split; [reflexivity|intros []; reflexivity]).
Qed.

(** [fluid_manta_initpaths] returns true exactly when it has reported no
    error.  The stored cache directory is then the absolute form of the
    directory given, or of the default when none was given; else it is the
    default.  The bake flags, the pause markers and the jobs are never
    touched. *)
Theorem fluid_manta_initpaths_outcome (st : MantaState) :
  let '(ok, st') := fluid_manta_initpaths st in
  let given :=
    match cache_directory (data st) with
    | [] => modifier_path_init FLUID_DOMAIN_DIR_DEFAULT
    | _ => cache_directory (data st)
    end in
  cache_directory (data st')
  = (if ok then BLI_path_abs given modifier_path_relbase
     else modifier_path_init FLUID_DOMAIN_DIR_DEFAULT)
  /\ (ok = true <-> error_count (wm_reports st') = error_count (wm_reports st))
  /\ cache_flag (data st') = cache_flag (data st)
  /\ (forall Y, pause_get Y (data st') = pause_get Y (data st))
  /\ wm_jobs st' = wm_jobs st.
Proof.
  unfold fluid_manta_initpaths.
  destruct (cache_directory (data st)) as [|c p] eqn:Hd; cbn -[BLI_path_abs error_count];
    rewrite ?Hd;
    (destruct (BLI_dir_create_recursive _ (files st)) as [[] fs1]; cbn -[BLI_path_abs error_count];
     [|destruct (BLI_dir_create_recursive _ fs1) as [[] fs2]; cbn -[BLI_path_abs error_count]]);
    unfold BKE_reportf; rewrite ?error_count_app, ?error_count_warning, ?error_count_error;
    (split; [reflexivity|]);
    (split; [split; intros Hok; try reflexivity; try lia; try discriminate|]);
    (split; [reflexivity|]); (split; [intros []; reflexivity|reflexivity]).
Qed.

(** The outcomes of [fluid_manta_bake_invoke]: it never returns FINISHED.
    It cancels exactly when the active object has no fluid modifier or the
    modifier has no domain, with one error report and nothing else
    changed.  Else it goes modal with its job handed to the job system,
    and the bake flags and pause markers as they were: a stage is marked
    as baking by the start hook of the job only. *)
Theorem bake_invoke_outcomes (idname name : string) (C : bContext) :
  let '(result, C') := fluid_manta_bake_invoke idname name C in
  match result with
  | OPERATOR_CANCELLED =>
      (data C = None \/ data C = Some (mkSMD None))
      /\ data C' = data C /\ files C' = files C /\ wm_jobs C' = wm_jobs C
      /\ exists msg, wm_reports C' = wm_reports C ++ [mkReport RPT_ERROR msg []]
  | OPERATOR_RUNNING_MODAL =>
      wm_jobs C' = wm_jobs C ++ [mkJob None None None idname name 0 None]
      /\ exists sds sds',
           data C = Some (mkSMD (Some sds)) /\ data C' = Some (mkSMD (Some sds'))
           /\ cache_flag sds' = cache_flag sds
           /\ forall Y, pause_get Y sds' = pause_get Y sds
  | OPERATOR_FINISHED => False
  end.
Proof.
  unfold fluid_manta_bake_invoke, fluid_manta_initjob.
  destruct (data C) as [[[sds|]]|] eqn:HC; cbn [domain];
    try (cbv beta iota; cbn [negb String.eqb Ascii.eqb Bool.eqb data files wm_jobs wm_reports set_wm_reports];
         rewrite ?HC; split; [auto|]; repeat split; eexists; reflexivity).
  pose proof (fluid_manta_initpaths_jobs (set_data sds C)) as Hjobs.
  pose proof (fluid_manta_initpaths_keeps (set_data sds C)) as (Hflag & Hpause).
  destruct (fluid_manta_initpaths _) as [ok st].
  cbn in *. rewrite Hjobs. split; [reflexivity|]. eauto 10.
Qed.

End MantaOperatorProofs.

(** The examples: the domain of scenario 2 (frames 10..12, cache
    directory [cache], nothing baked) on a disk on which every directory
    can be made. *)
Definition bake_job (X : Stage) (name : string) : FluidMantaflowJob :=
  mkJob None None None (MANTA_OT_bake X) name 0 None.

Definition free_job (X : Stage) (name : string) : FluidMantaflowJob :=
  mkJob None None None (MANTA_OT_free X) name 0 None.

Definition scenario_context : @World scenario_fs (option SmokeModifierData) :=
  @mkWorld scenario_fs _ false false false 1 [] [] [] (Some (mkSMD (Some scenario_sds))).

Lemma bake_job_touches_only_its_stage_witness :
  exists job' st',
    @run_bake_job scenario_fs dna_layout (pausing_host [11]) (bake_job NOISE "Bake Noise")
      None None None scenario_state = Some (job', st')
    /\ (forall c, c <> BAKING NOISE -> c <> BAKED NOISE ->
          @flag_set dna_layout (cache_flag (data st')) c
          = @flag_set dna_layout (cache_flag (data scenario_state)) c)
    /\ @flag_set dna_layout (cache_flag (data st')) (BAKING NOISE) = false
    /\ @flag_set dna_layout (cache_flag (data st')) (BAKED NOISE) = true
    /\ (forall Y, Y <> NOISE -> pause_get Y (data st') = pause_get Y (data scenario_state))
    /\ cache_directory (data st') = ["cache"]
    /\ cache_frame_start (data st') = 10
    /\ cache_frame_end (data st') = 12
    /\ wm_jobs st' = []
    /\ (exists r, wm_reports st' = [] ++ [r])
    /\ G_is_rendering st' = false
    /\ draw_locks st' = false.
Proof.
  apply (@bake_job_touches_only_its_stage scenario_fs dna_layout (pausing_host [11]) NOISE
           (bake_job NOISE "Bake Noise") None None None scenario_state).
  - reflexivity.
  - unfold bake_frames_fit_int, is_int, INT_MIN, INT_MAX. cbn. lia.
Defined.

Lemma bake_uninterrupted_completes_witness :
  exists job' st',
    @run_bake_job scenario_fs dna_layout (pausing_host []) (bake_job DATA "Bake Data")
      None None None scenario_state = Some (job', st')
    /\ job_success job' = 1
    /\ pause_get DATA (data st') = 12
    /\ cfra st' = 1
    /\ G_is_break st' = false
    /\ wm_reports st'
       = [] ++ [mkReport RPT_INFO "Fluid Mantaflow: %s complete! (%.2f)" ["Bake Data"]].
Proof.
  apply (@bake_uninterrupted_completes scenario_fs dna_layout (pausing_host []) DATA
           (bake_job DATA "Bake Data") None None None scenario_state).
  - reflexivity.
  - unfold bake_frames_fit_int, is_int, INT_MIN, INT_MAX. cbn. lia.
  - change (10 <= 12). lia.
  - intros g _. reflexivity.
Defined.



(** A domain with everything baked and the five cache directories on
    disk, paused nowhere but in the mesh bake, at frame 11. *)
Definition baked_state : @World scenario_fs SmokeDomainSettings :=
  @mkWorld scenario_fs _ false false false 1
    [["cache"]; ["cache"; "data"]; ["cache"; "noise"]; ["cache"; "mesh"];
     ["cache"; "particles"]; ["cache"; "guiding"]] [] []
    (mkSDS 682 10 12 12 12 11 12 12 ["cache"] "").

Lemma free_stage_touches_only_its_stage_witness :
  let st' :=
    (@fluid_manta_free_startjob scenario_fs dna_layout (pausing_host [])
       (free_job MESH "Free Mesh") 0 0 F32.zero baked_state).2 in
  let dir := BLI_path_join (cache_directory (data baked_state)) (FLUID_DOMAIN_DIR MESH) in
  @flag_set dna_layout (cache_flag (data st')) (BAKING MESH) = false
  /\ @flag_set dna_layout (cache_flag (data st')) (BAKED MESH) = false
  /\ (forall c, c <> BAKING MESH -> c <> BAKED MESH ->
        @flag_set dna_layout (cache_flag (data st')) c
        = @flag_set dna_layout (cache_flag (data baked_state)) c)
  /\ pause_get MESH (data st') = 0
  /\ resume_frame MESH (data st') = cache_frame_start (data baked_state)
  /\ (forall Y, Y <> MESH -> pause_get Y (data st') = pause_get Y (data baked_state))
  /\ @BLI_exists scenario_fs dir (files st') = false
  /\ (forall q, path_under dir q = false ->
        @BLI_exists scenario_fs q (files st') = @BLI_exists scenario_fs q (files baked_state)).
Proof.
  apply (@free_stage_touches_only_its_stage scenario_fs dna_layout (pausing_host []) MESH
           (free_job MESH "Free Mesh") 0 0 F32.zero baked_state).
  - reflexivity.
  - discriminate.
Defined.

Lemma free_twice_is_free_once_witness :
  let st1 :=
    (@fluid_manta_free_startjob scenario_fs dna_layout (pausing_host [])
       (free_job DATA "Free Data") 0 0 F32.zero baked_state).2 in
  let st2 :=
    (@fluid_manta_free_startjob scenario_fs dna_layout (pausing_host [])
       (free_job DATA "Free Data") 0 0 F32.zero st1).2 in
  cache_flag (data st2) = cache_flag (data st1)
  /\ files st2 = files st1
  /\ (forall Y, pause_get Y (data st2) = pause_get Y (data st1))
  /\ cache_directory (data st2) = cache_directory (data st1).
Proof.
  apply (@free_twice_is_free_once scenario_fs dna_layout (pausing_host []) DATA
           (free_job DATA "Free Data") (free_job DATA "Free Data") 0 0 0 0 F32.zero F32.zero
           baked_state); reflexivity.
Defined.

(** The context of an operator while the noise bake of the domain of
    scenario 2 is running. *)
Definition noise_bake_context : @World scenario_fs (option SmokeModifierData) :=
  @mkWorld scenario_fs _ false true true 11 [["cache"]; ["cache"; "noise"]] [] []
    (Some (mkSMD (Some (mkSDS 4 10 12 0 11 0 0 0 ["cache"] "")))).

Lemma free_refused_while_bake_pending_witness :
  exists C',
    @fluid_manta_free_exec scenario_fs dna_layout (MANTA_OT_free GUIDING) "Free Guiding"
      noise_bake_context = (OPERATOR_CANCELLED, C')
    /\ data C' = data noise_bake_context
    /\ files C' = files noise_bake_context
    /\ wm_jobs C' = wm_jobs noise_bake_context
    /\ wm_reports C'
       = wm_reports noise_bake_context
         ++ [mkReport RPT_ERROR "Bake free failed: pending bake jobs found" []].
Proof.
  apply (@free_refused_while_bake_pending scenario_fs dna_layout (MANTA_OT_free GUIDING)
           "Free Guiding" noise_bake_context (mkSDS 4 10 12 0 11 0 0 0 ["cache"] "") NOISE).
  - reflexivity.
  - discriminate.
  - reflexivity.
Defined.

Lemma pause_request_stops_running_loop_only_witness :
  exists C',
    @fluid_manta_pause_exec scenario_fs scenario_context = (OPERATOR_FINISHED, C')
    /\ G_is_break C' = true
    /\ wm_reports C' = wm_reports scenario_context
    /\ (forall s : SmokeDomainSettings,
          @bake_frames scenario_fs (pausing_host []) DATA 3 [11; 12] (bake_job DATA "Bake Data")
            (set_data s C')
          = (set_job_success 0 (bake_job DATA "Bake Data"), set_data (pause_set DATA 11 s) C', true))
    /\ (forall (s : SmokeDomainSettings) stop do_update progress,
          @run_bake_job scenario_fs dna_layout (pausing_host []) (bake_job DATA "Bake Data")
            stop do_update progress (set_data s C')
          = @run_bake_job scenario_fs dna_layout (pausing_host []) (bake_job DATA "Bake Data")
              stop do_update progress (set_data s scenario_context)).
Proof.
  apply (@pause_request_stops_running_loop_only scenario_fs dna_layout (pausing_host []) DATA 3 11
           [12] (bake_job DATA "Bake Data") scenario_context scenario_sds).
  reflexivity.
Defined.

(* ===================================================================== *)
(** * Further properties of legacy scene validation                       *)
(* ===================================================================== *)

(** The kind of fluid object that [fluid_validate_scene] takes [ob] for:
    none when [ob] has no fluid modifier or is no mesh. *)
Definition fluid_kind (ob : Object) : option FluidsimType :=
  match fluidmd ob with
  | Some fss => if ob_is_mesh ob then Some (fss_type fss) else None
  | None => None
  end.

(** The objects that need animation channels, and the fluid inputs. *)
Definition needs_channels (ob : Object) : bool :=
  match fluid_kind ob with
  | Some t => negb (is_domain_or_particle t)
  | None => false
  end.

Definition is_fluid_input (ob : Object) : bool :=
  match fluid_kind ob with
  | Some t => is_fluid_or_inflow t
  | None => false
  end.

Definition count (p : Object -> bool) (bases : list Object) : Z :=
  Z.of_nat (length (List.filter p bases)).

Lemma count_cons (p : Object -> bool) (ob : Object) (bases : list Object) :
  count p (ob :: bases) = (if p ob then 1 else 0) + count p bases.
Proof. unfold count. cbn [List.filter]. destruct (p ob); cbn [length]; lia. Qed.

Ltac solve_counts :=
  cbv beta iota; apply (f_equal Some); apply pair_equal_spec; split;
  [apply pair_equal_spec; split; [reflexivity|]|]; lia.

(** With a domain [d] given by the caller and no other domain among the
    objects, the loop of [fluid_validate_scene] adopts nothing and counts
    the objects. *)
Lemma validate_bases_counts (d : nat) (bases : list Object) :
  forall (idx : nat) (newdomain : option nat) (c f : Z),
  (forall k ob, bases !! k = Some ob -> fluid_kind ob = Some OB_FLUIDSIM_DOMAIN ->
     (idx + k)%nat = d) ->
  validate_bases bases idx (Some d) newdomain c f
  = Some (newdomain, c + count needs_channels bases, f + count is_fluid_input bases).
Proof.
  induction bases as [|ob bases IH]; intros idx newdomain c f Hdom; cbn [validate_bases].
  - unfold count. cbn. rewrite !Z.add_0_r. reflexivity.
  - assert (Hrest : forall k o, bases !! k = Some o -> fluid_kind o = Some OB_FLUIDSIM_DOMAIN ->
                      (S idx + k)%nat = d).
    { intros k o Hk Ho. rewrite <- (Hdom (S k) o Hk Ho). lia. }
    specialize (Hdom 0%nat ob eq_refl). rewrite Nat.add_0_r in Hdom.
    rewrite !count_cons. unfold needs_channels, is_fluid_input, fluid_kind in *.
    destruct (fluidmd ob) as [fss|]; [|rewrite IH by exact Hrest; solve_counts].
    destruct (ob_is_mesh ob); cbn [negb]; [|rewrite IH by exact Hrest; solve_counts].
    case_bool_decide as Hty; cbn [andb].
    + rewrite Hty in Hdom. specialize (Hdom eq_refl). subst d. rewrite Nat.eqb_refl. cbn [negb].
      rewrite IH by exact Hrest. rewrite Hty.
      change (is_domain_or_particle OB_FLUIDSIM_DOMAIN) with true.
      change (is_fluid_or_inflow OB_FLUIDSIM_DOMAIN) with false. cbn [negb]. solve_counts.
    + rewrite IH by exact Hrest.
      destruct (is_domain_or_particle (fss_type fss)), (is_fluid_or_inflow (fss_type fss));
        cbn [negb]; solve_counts.
Qed.

(** The loop is left early only for a domain that is not the caller's. *)
Lemma validate_bases_some_domains (d : nat) (bases : list Object) (idx : nat)
    (newdomain : option nat) (c f : Z) (r : option nat * Z * Z) :
  validate_bases bases idx (Some d) newdomain c f = Some r ->
  forall k ob, bases !! k = Some ob -> fluid_kind ob = Some OB_FLUIDSIM_DOMAIN ->
    (idx + k)%nat = d.
Proof.
  intros Hv k ob Hk Hkind. destruct (decide ((idx + k)%nat = d)) as [|Hne]; [assumption|].
  unfold fluid_kind in Hkind.
  destruct (fluidmd ob) as [fss|] eqn:Hmd; [|discriminate].
  destruct (ob_is_mesh ob) eqn:Hmesh; [|discriminate].
  injection Hkind as Hty.
  rewrite (validate_bases_second_domain bases idx d k newdomain c f ob fss Hk Hmd Hmesh Hty Hne)
    in Hv.
  discriminate.
Qed.

(** With the domain given by the caller, [fluid_validate_scene] accepts a
    scene exactly when no other mesh object with a fluid modifier is a
    domain, fewer than 255 objects need animation channels, and there is
    a fluid input (a FLUID or INFLOW object). *)
Theorem fluid_validate_scene_accepts_iff (reports : list Report) (sc : Scene) (d : nat) :
  (fluid_validate_scene reports sc (Some d)).2 = 1
  <-> (forall k ob, scene_base sc !! k = Some ob -> fluid_kind ob = Some OB_FLUIDSIM_DOMAIN ->
         k = d)
      /\ count needs_channels (scene_base sc) < 255
      /\ 0 < count is_fluid_input (scene_base sc).
Proof.
  unfold fluid_validate_scene. split.
  - destruct (validate_bases (scene_base sc) 0 (Some d) None 0 0) as [[[nd c] f]|] eqn:Hv;
      [|cbn; discriminate].
    pose proof (validate_bases_some_domains d _ 0 None 0 0 _ Hv) as Hdom.
    rewrite (validate_bases_counts d) in Hv by exact Hdom. injection Hv as <- <- <-.
    cbn [fst snd]. rewrite !Z.add_0_l.
    destruct (Z.geb_spec (count needs_channels (scene_base sc)) 255); [cbn; discriminate|].
    destruct (Z.eqb_spec (count is_fluid_input (scene_base sc)) 0); [cbn; discriminate|].
    intros _. split; [exact Hdom|]. split; [lia|]. unfold count in *. lia.
  - intros (Hdom & Hc & Hf). rewrite (validate_bases_counts d) by exact Hdom.
    rewrite !Z.add_0_l.
    destruct (Z.geb_spec (count needs_channels (scene_base sc)) 255); [lia|].
    destruct (Z.eqb_spec (count is_fluid_input (scene_base sc)) 0); [lia|]. reflexivity.
Qed.

(** Without a domain given by the caller, the loop never leaves early:
    it adopts a domain when there is one among the objects, and counts. *)
Lemma validate_bases_adopts (bases : list Object) :
  forall (idx : nat) (newdomain : option nat) (c f : Z),
  exists newdomain',
    validate_bases bases idx None newdomain c f
    = Some (newdomain', c + count needs_channels bases, f + count is_fluid_input bases)
    /\ (is_Some newdomain'
        <-> is_Some newdomain
            \/ exists k ob, bases !! k = Some ob /\ fluid_kind ob = Some OB_FLUIDSIM_DOMAIN).
Proof.
  induction bases as [|ob bases IH]; intros idx newdomain c f; cbn [validate_bases].
  - exists newdomain. split.
    + unfold count. cbn. rewrite !Z.add_0_r. reflexivity.
    + split; [auto|]. intros [Hs|(k & ob & Hk & _)]; [exact Hs|discriminate].
  - rewrite !count_cons.
    assert (Hskip : fluid_kind ob <> Some OB_FLUIDSIM_DOMAIN ->
              forall nd' : option nat,
              (is_Some nd'
               <-> is_Some newdomain
                   \/ exists k o, bases !! k = Some o /\ fluid_kind o = Some OB_FLUIDSIM_DOMAIN) ->
              (is_Some nd'
               <-> is_Some newdomain
                   \/ exists k o, (ob :: bases) !! k = Some o
                                  /\ fluid_kind o = Some OB_FLUIDSIM_DOMAIN)).
    { intros Hno nd' Hiff. rewrite Hiff. split; intros [Hs|(k & o & Hk & Ho)]; auto.
      - right. exists (S k), o. auto.
      - destruct k as [|k]; [injection Hk as ->; contradiction|]. right. eauto. }
    unfold needs_channels, is_fluid_input, fluid_kind in *.
    destruct (fluidmd ob) as [fss|] eqn:Hmd.
    2:{ destruct (IH (S idx) newdomain c f) as (nd' & E & Hiff). exists nd'.
        split; [rewrite E; solve_counts|]. apply Hskip; [discriminate|exact Hiff]. }
    destruct (ob_is_mesh ob) eqn:Hmesh; cbn [negb].
    2:{ destruct (IH (S idx) newdomain c f) as (nd' & E & Hiff). exists nd'.
        split; [rewrite E; solve_counts|]. apply Hskip; [discriminate|exact Hiff]. }
    rewrite andb_false_r. case_bool_decide as Hty; cbn [andb].
    + rewrite Hty. change (is_domain_or_particle OB_FLUIDSIM_DOMAIN) with true.
      change (is_fluid_or_inflow OB_FLUIDSIM_DOMAIN) with false. cbn [negb].
      destruct (IH (S idx) (Some idx) c f) as (nd' & E & Hiff). exists nd'.
      split; [rewrite E; solve_counts|].
      split; [intros _; right; exists 0%nat, ob; split; [reflexivity|]|].
      * rewrite Hmd, Hmesh, Hty. reflexivity.
      * intros _. apply Hiff. left. eauto.
    + match goal with
      | |- context [validate_bases bases (S idx) None newdomain ?c' ?f'] =>
          destruct (IH (S idx) newdomain c' f') as (nd' & E & Hiff)
      end.
      exists nd'. split.
      * rewrite E.
        destruct (is_domain_or_particle (fss_type fss)), (is_fluid_or_inflow (fss_type fss));
          cbn [negb]; solve_counts.
      * apply Hskip; [congruence|exact Hiff].
Qed.

(** When the caller gives no domain, [fluid_validate_scene] never
    reports that there should be only one domain object: it reports
    nothing, or one of its three other errors.  It accepts a scene exactly
    when at least one mesh object with a fluid modifier is a domain, fewer
    than 255 objects need animation channels, and there is a fluid input:
    the number of domains is not limited. *)
Theorem fluid_validate_scene_without_caller_domain (reports : list Report) (sc : Scene) :
  ((fluid_validate_scene reports sc None).2 = 1
   <-> (exists k ob, scene_base sc !! k = Some ob /\ fluid_kind ob = Some OB_FLUIDSIM_DOMAIN)
       /\ count needs_channels (scene_base sc) < 255
       /\ 0 < count is_fluid_input (scene_base sc))
  /\ ((fluid_validate_scene reports sc None).1 = reports
      \/ exists msg,
           (fluid_validate_scene reports sc None).1 = reports ++ [mkReport RPT_ERROR msg []]
           /\ msg ∈ ["No domain object found"; "Cannot bake with more than 256 objects";
                     "No fluid input objects in the scene"]).
Proof.
  unfold fluid_validate_scene.
  destruct (validate_bases_adopts (scene_base sc) 0 None 0 0) as (nd & -> & Hiff).
  rewrite !Z.add_0_l. split; [split|].
  - destruct nd as [d|]; [|cbn; discriminate].
    destruct (Z.geb_spec (count needs_channels (scene_base sc)) 255); [cbn; discriminate|].
    destruct (Z.eqb_spec (count is_fluid_input (scene_base sc)) 0); [cbn; discriminate|].
    intros _. split; [|split; [lia|unfold count in *; lia]].
    destruct (proj1 Hiff) as [[? Hn]|Hex]; [eauto|discriminate|exact Hex].
  - intros (Hex & Hc & Hf).
    destruct (proj2 Hiff (or_intror Hex)) as [d ->].
    destruct (Z.geb_spec (count needs_channels (scene_base sc)) 255); [lia|].
    destruct (Z.eqb_spec (count is_fluid_input (scene_base sc)) 0); [lia|]. reflexivity.
  - unfold BKE_report.
    destruct nd as [d|];
      [destruct (count needs_channels (scene_base sc) >=? 255);
       [|destruct (count is_fluid_input (scene_base sc) =? 0)]|];
      cbn [fst]; try (left; reflexivity);
      right; eexists; (split; [reflexivity|]); repeat constructor.
Qed.

Lemma fluid_validate_scene_cases (reports : list Report) (sc : Scene) (fsDomain : option nat) :
  fluid_validate_scene reports sc fsDomain = (reports, 1)
  \/ exists msg,
       fluid_validate_scene reports sc fsDomain = (reports ++ [mkReport RPT_ERROR msg []], 0).
Proof.
  unfold fluid_validate_scene, BKE_report.
  destruct (validate_bases _ _ _ _ _ _) as [[[nd c] f]|]; [|right; eauto].
  destruct nd, fsDomain; try (right; eauto; fail);
    destruct (c >=? 255); try (right; eauto; fail);
    destruct (f =? 0); try (right; eauto; fail); left; reflexivity.
Qed.

(** [fluid_validate_scene] returns 1 and reports nothing, or returns 0
    and adds exactly one report, an error with one of its four messages;
    it drops no report and returns nothing else. *)
Theorem fluid_validate_scene_reports_each_failure (reports : list Report) (sc : Scene)
    (fsDomain : option nat) :
  let '(reports', valid) := fluid_validate_scene reports sc fsDomain in
  (valid = 1 /\ reports' = reports)
  \/ (valid = 0
      /\ exists msg,
           reports' = reports ++ [mkReport RPT_ERROR msg []]
           /\ msg ∈ ["There should be only one domain object"; "No domain object found";
                     "Cannot bake with more than 256 objects";
                     "No fluid input objects in the scene"]).
Proof.
  unfold fluid_validate_scene, BKE_report.
  destruct (validate_bases _ _ _ _ _ _) as [[[nd c] f]|].
  2:{ right. split; [reflexivity|]. eexists. split; [reflexivity|]. repeat constructor. }
  assert (Hrest : forall d : nat,
            let '(reports', valid) :=
              if c >=? 255
              then (reports ++ [mkReport RPT_ERROR "Cannot bake with more than 256 objects" []], 0)
              else if f =? 0
                   then (reports ++ [mkReport RPT_ERROR "No fluid input objects in the scene" []], 0)
                   else (reports, 1) in
            (valid = 1 /\ reports' = reports)
            \/ (valid = 0
                /\ exists msg,
                     reports' = reports ++ [mkReport RPT_ERROR msg []]
                     /\ msg ∈ ["There should be only one domain object"; "No domain object found";
                               "Cannot bake with more than 256 objects";
                               "No fluid input objects in the scene"])).
  { intros _. destruct (c >=? 255); [|destruct (f =? 0)]; [right|right|left; auto];
      (split; [reflexivity|]); eexists; (split; [reflexivity|]); repeat constructor. }
  destruct nd as [d|], fsDomain as [d'|]; try (apply (Hrest 0%nat)).
  right. split; [reflexivity|]. eexists. split; [reflexivity|]. repeat constructor.
Qed.

(* ===================================================================== *)
(** * Further properties of the legacy path resolver                      *)
(* ===================================================================== *)

Section PathResolverExtra.
Context `{FileSystem}.

(** [fluid_init_filepaths] only adds reports, and returns true exactly
    when it has added no error.  The directory it leaves in [targetDir]
    is the absolute form of the stored path, which is the path given (the
    default for an empty one) when it returns true and the default when
    it returns false; [targetFile] is the probe file [fluidsim.cfg.tmp]
    in that directory.  No other setting of the domain is changed. *)
Theorem fluid_init_filepaths_outcome (reports : list Report) (ds : FluidsimSettings) (fs : FS) :
  let '(ok, fp) := fluid_init_filepaths reports ds fs in
  let given :=
    match surfdataPath ds with
    | [] => modifier_path_init OB_FLUIDSIM_SURF_DIR_DEFAULT
    | _ => surfdataPath ds
    end in
  (exists added, fp_reports fp = reports ++ added)
  /\ (ok = true <-> error_count (fp_reports fp) = error_count reports)
  /\ surfdataPath (fp_settings fp)
     = (if ok then given else modifier_path_init OB_FLUIDSIM_SURF_DIR_DEFAULT)
  /\ fp_targetDir fp = BLI_path_abs (surfdataPath (fp_settings fp)) modifier_path_relbase
  /\ fp_targetFile fp = BLI_join_dirfile (fp_targetDir fp) "fluidsim.cfg.tmp"
  /\ fp_settings fp = set_surfdataPath (surfdataPath (fp_settings fp)) ds.
Proof.
  unfold fluid_init_filepaths.
  destruct ds as [t act nov rate st en bs be vv ve g iv a1 a2 a3 a4 res prev mr lg p].
  cbn [surfdataPath set_surfdataPath].
  destruct p as [|c p];
    cbn [surfdataPath set_surfdataPath];
    destruct (BLI_dir_create_recursive _ fs) as [dir_exists fs1];
    destruct (BLI_file_is_writable _ fs1) as [is_writable fs2];
    destruct dir_exists, is_writable; cbn [negb orb];
    try (destruct (BLI_dir_create_recursive _ fs2) as [[] fs3];
         [destruct (BLI_file_is_writable _ fs3) as [[] fs4]|]; cbn [negb orb]);
    cbn [fp_reports fp_settings fp_targetDir fp_targetFile surfdataPath set_surfdataPath];
    unfold BKE_reportf; rewrite <- ?app_assoc;
    rewrite ?error_count_app, ?error_count_warning, ?error_count_error;
    (split; [eexists; try reflexivity; symmetry; apply app_nil_r|]);
    (split; [split; intros Hok; try reflexivity; try discriminate; try lia|]);
    repeat split.
Qed.

End PathResolverExtra.

(* ===================================================================== *)
(** * Further properties of the channel sampler                           *)
(* ===================================================================== *)

Lemma buffer_size_inv (a : nat) (n : Z) (st : LState) :
  buffer_size (Some a) st = Some n ->
  shapes (mem st) !! a = Some (Some (Z.to_nat n)) /\ 0 <= n.
Proof.
  unfold buffer_size, cells_at, shapes. rewrite list_lookup_fmap.
  destruct (mem st !! a) as [[cells|]|]; cbn; intros Heq; simplify_eq.
  rewrite Nat2Z.id. split; [reflexivity|lia].
Qed.

Lemma buffer_size_same_shapes (q : ptr) (st st' : LState) :
  shapes (mem st') = shapes (mem st) -> buffer_size q st' = buffer_size q st.
Proof.
  intros E. destruct q as [a|]; [|reflexivity].
  assert (Ha : shapes (mem st') !! a = shapes (mem st) !! a) by (rewrite E; reflexivity).
  unfold buffer_size, cells_at, shapes in *. rewrite !list_lookup_fmap in Ha.
  destruct (mem st' !! a) as [[c'|]|], (mem st !! a) as [[c|]|]; cbn in Ha; simplify_eq;
    try reflexivity.
  congruence.
Qed.

Lemma peek_null (k : Z) (st : LState) : peek None k st = None.
Proof. reflexivity. Qed.

(** [p[k] = v] changes the cell it names and no other. *)
Lemma runs_store_spec (a n : nat) (k : Z) (v : float) (st : LState) :
  shapes (mem st) !! a = Some (Some n) -> 0 <= k < Z.of_nat n ->
  runs (store (Some a) k v) st (fun _ st' =>
    shapes (mem st') = shapes (mem st)
    /\ scene st' = scene st
    /\ forall a' j,
         cell (mem st') a' j
         = if bool_decide (a' = a /\ j = k) then Some v else cell (mem st) a' j).
Proof.
  intros Hs Hk. eapply runs_weaken; [apply (runs_store a n); assumption|].
  cbn beta. intros _ st' ((Hsh & Hsc & Hfr) & Hc). split; [exact Hsh|]. split; [exact Hsc|].
  intros a' j. case_bool_decide as Hd.
  - destruct Hd as [-> ->]. exact Hc.
  - apply Hfr. exact Hd.
Qed.

Lemma bool_decide_and_eq {A : Type} (a : A) (P : Prop) `{Decision P} `{EqDecision A} :
  bool_decide (a = a /\ P) = bool_decide P.
Proof. apply bool_decide_ext. tauto. Qed.

Lemma bool_decide_and_ne {A : Type} (a' a : A) (P : Prop) `{Decision P} `{EqDecision A} :
  a' <> a -> bool_decide (a' = a /\ P) = false.
Proof. intros Hne. apply bool_decide_eq_false. tauto. Qed.

(** Splits a statement about the cell at [a'] into the cases [a' = a]
    and [a' <> a]; the latter is closed. *)
Ltac split_address a' a :=
  let Hne := fresh "Hne" in
  destruct (decide (a' = a)) as [->|Hne];
  [rewrite ?bool_decide_and_eq
  |rewrite ?bool_decide_and_ne by exact Hne; reflexivity].

(** The cells of the buffers as the operations of the sampler see them. *)
Lemma peek_same_cells (st st' : LState) (q : ptr) (k : Z) :
  (forall a, q = Some a -> cell (mem st') a k = cell (mem st) a k) ->
  peek q k st' = peek q k st.
Proof.
  intros Hc. destruct q as [a|]; [|reflexivity]. rewrite !peek_cell. apply Hc. reflexivity.
Qed.

(** [set_channel] on sample [i] of a buffer that has room for it: the
    sample holds the [size] floats of the value followed by the time;
    no other cell of this or of any other buffer is changed, no buffer
    changes its size, and the scene is not touched. *)
Theorem set_channel_writes_one_sample (a : nat) (n : Z) (time : float) (value : list float)
    (i size : Z) (st : LState) :
  buffer_size (Some a) st = Some n ->
  size = CHANNEL_FLOAT \/ size = CHANNEL_VEC ->
  Z.of_nat (length value) = size ->
  0 <= i ->
  (i + 1) * (size + 1) <= n ->
  exists st',
    set_channel (Some a) time value i size st = inr (tt, st')
    /\ (forall j, 0 <= j < size ->
          peek (Some a) (i * (size + 1) + j) st' = value !! Z.to_nat j)
    /\ peek (Some a) (i * (size + 1) + size) st' = Some time
    /\ (forall q k, q <> Some a \/ k < i * (size + 1) \/ (i + 1) * (size + 1) <= k ->
          peek q k st' = peek q k st)
    /\ (forall q, buffer_size q st' = buffer_size q st)
    /\ scene st' = scene st.
Proof.
  intros (Hs & Hn)%buffer_size_inv Hsize Hlen Hi Hroom.
  assert (runs (set_channel (Some a) time value i size) st (fun _ st' =>
            shapes (mem st') = shapes (mem st)
            /\ scene st' = scene st
            /\ forall a' j,
                 cell (mem st') a' j
                 = if bool_decide (a' = a /\ i * (size + 1) <= j < i * (size + 1) + size)
                   then value !! Z.to_nat (j - i * (size + 1))
                   else if bool_decide (a' = a /\ j = i * (size + 1) + size) then Some time
                   else cell (mem st) a' j)) as Hrun.
  { unfold set_channel. unfold CHANNEL_FLOAT, CHANNEL_VEC in *.
    destruct Hsize as [-> | ->]; cbn [Z.eqb Pos.eqb].
    - destruct value as [|x [|? ?]]; cbn in Hlen; try lia.
      cbn [index lookup list_lookup]. change (mret x ≫= ?f) with (f x). cbn beta.
      eapply runs_bind; [apply (runs_store_spec a _ _ _ _ Hs); lia|].
      cbn beta. intros _ st1 (S1 & C1 & F1).
      eapply runs_weaken; [apply (runs_store_spec a (Z.to_nat n)); [rewrite S1; exact Hs|lia]|].
      cbn beta. intros _ st2 (S2 & C2 & F2).
      split; [congruence|]. split; [congruence|]. intros a' j. rewrite F2, F1.
      split_address a' a; repeat case_bool_decide; try reflexivity; try (exfalso; lia).
      subst. replace (i * 2 + 0 - i * (1 + 1)) with 0 by lia. reflexivity.
    - destruct value as [|x [|y [|z [|? ?]]]]; cbn in Hlen; try lia.
      cbn [index lookup list_lookup].
      change (mret x ≫= ?f) with (f x). cbn beta.
      eapply runs_bind; [apply (runs_store_spec a _ _ _ _ Hs); lia|].
      cbn beta. intros _ st1 (S1 & C1 & F1).
      change (mret y ≫= ?f) with (f y). cbn beta.
      eapply runs_bind; [apply (runs_store_spec a (Z.to_nat n)); [rewrite S1; exact Hs|lia]|].
      cbn beta. intros _ st2 (S2 & C2 & F2).
      change (mret z ≫= ?f) with (f z). cbn beta.
      eapply runs_bind;
        [apply (runs_store_spec a (Z.to_nat n)); [rewrite S2, S1; exact Hs|lia]|].
      cbn beta. intros _ st3 (S3 & C3 & F3).
      eapply runs_weaken;
        [apply (runs_store_spec a (Z.to_nat n)); [rewrite S3, S2, S1; exact Hs|lia]|].
      cbn beta. intros _ st4 (S4 & C4 & F4).
      split; [congruence|]. split; [congruence|]. intros a' j. rewrite F4, F3, F2, F1.
      split_address a' a; repeat case_bool_decide; try reflexivity; try (exfalso; lia); subst.
      + replace (i * 4 + 2 - i * (3 + 1)) with 2 by lia. reflexivity.
      + replace (i * 4 + 1 - i * (3 + 1)) with 1 by lia. reflexivity.
      + replace (i * 4 + 0 - i * (3 + 1)) with 0 by lia. reflexivity. }
  destruct Hrun as ([] & st' & E & Hsh & Hsc & Hcells).
  exists st'. split; [exact E|]. repeat split.
  - intros j Hj. rewrite peek_cell, Hcells, bool_decide_eq_true_2 by (split; [reflexivity|lia]).
    f_equal. lia.
  - rewrite peek_cell, Hcells, bool_decide_eq_false_2 by lia.
    rewrite bool_decide_eq_true_2 by (split; [reflexivity|lia]). reflexivity.
  - intros q k Hout. apply peek_same_cells. intros a' ->. rewrite Hcells.
    rewrite !bool_decide_eq_false_2; [reflexivity| |]; intros [-> Hk]; destruct Hout as [Hq|Hk'];
      try (apply Hq; reflexivity); lia.
  - intros q. apply buffer_size_same_shapes, Hsh.
  - exact Hsc.
Qed.

(** [MEM_callocN] hands out a block of zeros at the first free address
    and leaves the other blocks alone. *)
Lemma runs_MEM_callocN_spec (n : Z) (st : LState) :
  runs (MEM_callocN n) st (fun p st' =>
    p = Some (length (mem st))
    /\ shapes (mem st') = shapes (mem st) ++ [Some (Z.to_nat n)]
    /\ scene st' = scene st
    /\ forall a' j,
         cell (mem st') a' j
         = if bool_decide (a' = length (mem st))
           then (if bool_decide (0 <= j < n) then Some F32.zero else None)
           else cell (mem st) a' j).
Proof.
  eexists _, _. split; [reflexivity|]. cbn [mem scene]. split; [reflexivity|].
  split; [unfold shapes; rewrite fmap_app; cbn; rewrite length_replicate; reflexivity|].
  split; [reflexivity|]. intros a' j. unfold cell. case_bool_decide as Ha.
  - subst a'. rewrite list_lookup_middle by reflexivity.
    destruct (Z.leb_spec 0 j) as [Hj|Hj].
    + case_bool_decide as Hr.
      * apply lookup_replicate_2. lia.
      * apply lookup_ge_None. rewrite length_replicate. lia.
    + rewrite bool_decide_eq_false_2 by lia. reflexivity.
  - destruct (decide (a' < length (mem st))%nat).
    + rewrite lookup_app_l by assumption. reflexivity.
    + rewrite !(proj2 (lookup_ge_None _ _)); [reflexivity|lia|].
      rewrite length_app. cbn. lia.
Qed.

Section SamplerExtra.
Context `{LegacyHost}.

(** [init_time] allocates [timeAtFrame] with [length + 1] entries at the
    first free address and fills it: entries 0 and 1 hold [animStart], and
    every entry from 2 on is its predecessor plus [(float)aniFrameTime].
    The other fields of the channels, the other buffers and the scene are
    left as they were. *)
Theorem init_time_fills_timeAtFrame (domain : nat) (channels : FluidAnimChannels) (ob : Object)
    (fss : FluidsimSettings) (st : LState) :
  scene_base (scene st) !! domain = Some ob ->
  fluidmd ob = Some fss ->
  1 <= chan_length channels ->
  exists st',
    let taf := Some (length (mem st)) in
    init_time domain channels st
    = inr (mkChannels (chan_length channels) (aniFrameTime channels) taf (DomainTime channels)
             (DomainGravity channels) (DomainViscosity channels), st')
    /\ buffer_size taf st' = Some (chan_length channels + 1)
    /\ peek taf 0 st' = Some (animStart fss)
    /\ peek taf 1 st' = Some (animStart fss)
    /\ (forall i, 2 <= i <= chan_length channels ->
          exists prev,
            peek taf (i - 1) st' = Some prev
            /\ peek taf i st' = Some (F32.add prev (F32.of_double (aniFrameTime channels))))
    /\ (forall q k, q <> taf -> peek q k st' = peek q k st)
    /\ scene st' = scene st.
Proof.
  intros Hob Hmd Hlen. set (len := chan_length channels) in *.
  set (b := length (mem st)).
  set (x := F32.of_double (aniFrameTime channels)).
  assert (runs (init_time domain channels) st (fun ch st' =>
            ch = mkChannels len (aniFrameTime channels) (Some b) (DomainTime channels)
                   (DomainGravity channels) (DomainViscosity channels)
            /\ shapes (mem st') = shapes (mem st) ++ [Some (Z.to_nat (len + 1))]
            /\ scene st' = scene st
            /\ (forall a' j, a' <> b -> cell (mem st') a' j = cell (mem st) a' j)
            /\ cell (mem st') b 0 = Some (animStart fss)
            /\ cell (mem st') b 1 = Some (animStart fss)
            /\ forall i, 2 <= i < 2 + (len - 1) ->
                 exists prev,
                   cell (mem st') b (i - 1) = Some prev
                   /\ cell (mem st') b i = Some (F32.add prev x))) as Hrun.
  { unfold init_time. fold len.
    eapply runs_bind; [apply runs_MEM_callocN_spec|].
    cbn beta. intros taf st1 (-> & E1 & Hsc1 & F1). fold b in F1 |- *.
    assert (Hb : shapes (mem st1) !! b = Some (Some (Z.to_nat (len + 1)))).
    { rewrite E1. apply list_lookup_middle. unfold shapes, b. symmetry. apply length_fmap. }
    eapply runs_bind; [apply (runs_deref_fss _ ob fss); [rewrite Hsc1|]; assumption|].
    cbn beta. intros ds st2 (-> & ->).
    eapply runs_bind; [apply (runs_store_spec b _ _ _ _ Hb); lia|].
    cbn beta. intros _ st2 (S2 & C2 & F2).
    eapply runs_bind; [apply (runs_store_spec b (Z.to_nat (len + 1))); [rewrite S2; exact Hb|lia]|].
    cbn beta. intros _ st3 (S3 & C3 & F3).
    cbn [chan_length aniFrameTime]. fold len x.
    eapply runs_bind.
    - apply (runs_for_each _ _ (fun k st' =>
               shapes (mem st') = shapes (mem st1)
               /\ scene st' = scene st
               /\ (forall a' j, a' <> b -> cell (mem st') a' j = cell (mem st) a' j)
               /\ cell (mem st') b 0 = Some (animStart fss)
               /\ cell (mem st') b 1 = Some (animStart fss)
               /\ forall i, 2 <= i < 2 + Z.of_nat k ->
                    exists prev,
                      cell (mem st') b (i - 1) = Some prev
                      /\ cell (mem st') b i = Some (F32.add prev x)) 0%nat).
      + split; [congruence|]. split; [congruence|]. split; [|split; [|split]].
        * intros a' j Ha. rewrite F3, F2, F1, !bool_decide_and_ne by exact Ha.
          rewrite bool_decide_eq_false_2 by exact Ha. reflexivity.
        * rewrite F3, bool_decide_eq_true_2 by auto. reflexivity.
        * rewrite F3, F2, bool_decide_eq_false_2 by lia.
          rewrite bool_decide_eq_true_2 by auto. reflexivity.
        * intros i Hi. lia.
      + intros k i st' Hi%lookup_seqZ (S' & C' & F' & H0 & H1 & Hrec). destruct Hi as [-> Hk].
        cbn beta. cbn [Nat.add] in *.
        assert (Hb' : shapes (mem st') !! b = Some (Some (Z.to_nat (len + 1))))
          by (rewrite S'; exact Hb).
        eapply runs_bind; [apply (runs_load b _ _ _ Hb'); lia|].
        cbn beta. intros prev st4 (-> & Hprev).
        eapply runs_weaken; [apply (runs_store_spec b _ _ _ _ Hb'); lia|].
        cbn beta. intros _ st4 (S4 & C4 & F4).
        split; [congruence|]. split; [congruence|]. split; [|split; [|split]].
        * intros a' j Ha. rewrite F4, bool_decide_and_ne by exact Ha. apply F', Ha.
        * rewrite F4, bool_decide_eq_false_2 by lia. exact H0.
        * rewrite F4, bool_decide_eq_false_2 by lia. exact H1.
        * intros i Hi. rewrite !F4. rewrite (bool_decide_eq_false_2 (b = b /\ i - 1 = _)) by lia.
          destruct (decide (i = 2 + Z.of_nat k)) as [->|Hne].
          -- rewrite bool_decide_eq_true_2 by auto. exists prev. split; [|reflexivity].
             rewrite <- Hprev; f_equal; lia.
          -- rewrite bool_decide_eq_false_2 by lia. apply Hrec. lia.
    - cbn beta. intros _ st4 (S4 & C4 & F4 & H0 & H1 & Hrec). apply runs_ret.
      rewrite length_seqZ in Hrec. cbn [Nat.add] in Hrec.
      split; [reflexivity|]. split; [congruence|]. split; [exact C4|]. split; [exact F4|].
      split; [exact H0|]. split; [exact H1|].
      intros i Hi. apply Hrec. lia. }
  destruct Hrun as (ch & st' & E & -> & Hsh & Hsc & Hfr & H0 & H1 & Hrec).
  exists st'. cbn zeta. fold b len. split; [exact E|].
  assert (Hbs : shapes (mem st') !! b = Some (Some (Z.to_nat (len + 1)))).
  { rewrite Hsh. apply list_lookup_middle. unfold shapes, b. symmetry. apply length_fmap. }
  split; [rewrite (buffer_size_shapes _ _ _ Hbs), Z2Nat.id by lia; reflexivity|].
  rewrite !peek_cell. split; [exact H0|]. split; [exact H1|]. split.
  - intros i Hi. rewrite !peek_cell. apply Hrec. lia.
  - split; [|exact Hsc]. intros q k Hq. apply peek_same_cells. intros a' ->.
    apply Hfr. congruence.
Qed.

Lemma flat_verts_lookup (vs : list vec3) (j : nat) (v : vec3) :
  vs !! j = Some v ->
  flat_verts vs !! (3 * j)%nat = Some (vx v)
  /\ flat_verts vs !! (3 * j + 1)%nat = Some (vy v)
  /\ flat_verts vs !! (3 * j + 2)%nat = Some (vz v).
Proof.
  revert j. induction vs as [|w vs IH]; intros j Hj; [discriminate|].
  destruct j as [|j]; cbn in Hj.
  - injection Hj as ->. repeat split.
  - destruct (IH j Hj) as (Hx & Hy & Hz).
    replace (3 * S j)%nat with (S (S (S (3 * j)))) by lia.
    repeat split; assumption.
Qed.

(** [set_vertex_channel] at frame [i], when the mesh comes with the number
    of vertices recorded in [fobj] and the cache has room for the frame:
    the frame holds the three coordinates of every vertex in order,
    followed by the time; no other cell of this or of any other buffer is
    changed, nothing is freed, and the scene is not touched. *)
Theorem set_vertex_channel_fills_frame (a : nat) (n : Z) (time : float) (fobj : FluidObject)
    (i : Z) (ob : Object) (st : LState) :
  scene_base (scene st) !! object fobj = Some ob ->
  buffer_size (Some a) st = Some n ->
  Z.of_nat (length (mesh_verts (initElbeemMesh (scene st) ob true))) = numVerts fobj ->
  0 <= i ->
  (i + 1) * (3 * numVerts fobj + 1) <= n ->
  exists st',
    let framesize := 3 * numVerts fobj + 1 in
    set_vertex_channel (Some a) time fobj i st = inr (tt, st')
    /\ (forall j v, mesh_verts (initElbeemMesh (scene st) ob true) !! j = Some v ->
          peek (Some a) (i * framesize + 3 * Z.of_nat j) st' = Some (vx v)
          /\ peek (Some a) (i * framesize + 3 * Z.of_nat j + 1) st' = Some (vy v)
          /\ peek (Some a) (i * framesize + 3 * Z.of_nat j + 2) st' = Some (vz v))
    /\ peek (Some a) (i * framesize + framesize - 1) st' = Some time
    /\ (forall q k, q <> Some a \/ k < i * framesize \/ (i + 1) * framesize <= k ->
          peek q k st' = peek q k st)
    /\ (forall q, buffer_size q st' = buffer_size q st)
    /\ scene st' = scene st.
Proof.
  intros Hob (Hs & Hn)%buffer_size_inv Hnv Hi Hroom.
  set (verts := mesh_verts (initElbeemMesh (scene st) ob true)) in *.
  set (nv := length verts) in *.
  set (fs := 3 * numVerts fobj + 1) in *.
  assert (runs (set_vertex_channel (Some a) time fobj i) st (fun _ st' =>
            shapes (mem st') = shapes (mem st)
            /\ scene st' = scene st
            /\ forall a' j,
                 cell (mem st') a' j
                 = if bool_decide (a' = a /\ i * fs <= j < i * fs + 3 * Z.of_nat nv)
                   then flat_verts verts !! Z.to_nat (j - i * fs)
                   else if bool_decide (a' = a /\ j = i * fs + fs - 1) then Some time
                   else cell (mem st) a' j)) as Hrun.
  { unfold set_vertex_channel.
    eapply runs_bind; [apply (runs_deref_object _ ob); exact Hob|].
    cbn beta. intros o st1 (-> & ->).
    eapply runs_bind; [apply runs_get_scene|].
    cbn beta. intros sc st1 (-> & ->). fold verts nv fs. rewrite Hnv, Z.eqb_refl. cbn [negb].
    eapply runs_bind.
    - apply (runs_for_each _ _ (fun k st' =>
               shapes (mem st') = shapes (mem st)
               /\ scene st' = scene st
               /\ forall a' j,
                    cell (mem st') a' j
                    = if bool_decide (a' = a /\ i * fs <= j < i * fs + Z.of_nat k)
                      then flat_verts verts !! Z.to_nat (j - i * fs)
                      else cell (mem st) a' j) 0%nat).
      + split; [reflexivity|]. split; [reflexivity|]. intros a' j.
        rewrite bool_decide_eq_false_2 by lia. reflexivity.
      + intros k j st' Hj%lookup_seqZ (S' & C' & F'). destruct Hj as [-> Hk]. cbn beta.
        cbn [Nat.add].
        destruct (lookup_lt_is_Some_2 (flat_verts verts) (Z.to_nat (0 + Z.of_nat k))) as [v Hv].
        { rewrite length_flat_verts. fold nv. lia. }
        unfold index. rewrite Hv. change (mret v ≫= ?f) with (f v). cbn beta.
        eapply runs_weaken;
          [apply (runs_store_spec a (Z.to_nat n)); [rewrite S'; exact Hs|nia]|].
        cbn beta. intros _ st'' (S'' & C'' & F'').
        split; [congruence|]. split; [congruence|]. intros a' j. rewrite F'', F'.
        split_address a' a; repeat case_bool_decide; try reflexivity; try (exfalso; lia).
        subst j. rewrite <- Hv. f_equal. lia.
    - cbn beta. intros _ st' (S' & C' & F'). rewrite length_seqZ in F'. cbn [Nat.add] in F'.
      eapply runs_weaken;
        [apply (runs_store_spec a (Z.to_nat n)); [rewrite S'; exact Hs|nia]|].
      cbn beta. intros _ st'' (S'' & C'' & F'').
      split; [congruence|]. split; [congruence|]. intros a' j. rewrite F'', F'.
      split_address a' a; repeat case_bool_decide; try reflexivity; try (exfalso; lia). }
  destruct Hrun as ([] & st' & E & Hsh & Hsc & Hcells).
  exists st'. cbn zeta. split; [exact E|]. split; [|repeat split].
  - intros j v Hj. rewrite !peek_cell, !Hcells.
    pose proof (lookup_lt_Some _ _ _ Hj) as Hlt. fold nv in Hlt.
    rewrite !bool_decide_eq_true_2 by (split; [reflexivity|lia]).
    destruct (flat_verts_lookup _ _ _ Hj) as (Hx & Hy & Hz).
    rewrite <- Hx, <- Hy, <- Hz. repeat split; f_equal; lia.
  - rewrite peek_cell, Hcells, bool_decide_eq_false_2 by lia.
    rewrite bool_decide_eq_true_2 by (split; [reflexivity|lia]). reflexivity.
  - intros q k Hout. apply peek_same_cells. intros a' ->. rewrite Hcells.
    rewrite !bool_decide_eq_false_2; [reflexivity| |]; intros [-> Hk]; destruct Hout as [Hq|Hk'];
      try (apply Hq; reflexivity); lia.
  - intros q. apply buffer_size_same_shapes, Hsh.
  - exact Hsc.
Qed.

(** ** Allocation and release of the channel buffers *)


(** The sizes of the blocks of a heap that had the blocks [old], then got
    blocks of the sizes [news], the first [k] of which have been freed. *)
Definition half_freed (old : list (option nat)) (news : list nat) (k : nat)
    : list (option nat) :=
  old ++ replicate k None ++ (Some <$> drop k news).


Lemma half_freed_none (old : list (option nat)) (news : list nat) :
  half_freed old news 0 = old ++ (Some <$> news).
Proof. reflexivity. Qed.














End SamplerExtra.

(* ===================================================================== *)
(** * Properties of the mesh export                                       *)
(* ===================================================================== *)

Section ExportProofs.
Context `{FileSystem} `{LegacyHost}.

(** The mesh descriptor that [export_fluid_objects] hands to the solver
    for one fluid object, none for a domain or a particle object. *)
Definition exported_mesh (sc : Scene) (len : Z) (fobj : FluidObject) : option elbeem.elbeemMesh :=
  ob ← scene_base sc !! object fobj;
  fss ← fluidmd ob;
  if is_domain_or_particle (fss_type fss) then None
  else
    let deform := fluid_is_animated_mesh fss in
    let mesh := initElbeemMesh sc ob false in
    let control := bool_decide (fss_type fss = OB_FLUIDSIM_CONTROL) in
    Some (elbeem.mkMesh (fss_type fss) (ob_name ob)
            (Z.of_nat (length (mesh_verts mesh))) (Z.of_nat (length (mesh_tris mesh)))
            len len len len len
            (if deform then None else Translation fobj)
            (if deform then None else Rotation fobj)
            (if deform then None else Scale fobj)
            (Active fobj)
            (if is_fluid_or_inflow (fss_type fss) then InitialVelocity fobj else None)
            (if control then len else 0)
            (if control then AttractforceStrength fobj else None)
            (if control then AttractforceRadius fobj else None)
            (if control then VelocityforceStrength fobj else None)
            (if control then VelocityforceRadius fobj else None)
            (if deform then len else 0)
            (if deform then VertexCache fobj else None)).

(** The fluid object belongs to an object of the scene that has a fluid
    modifier. *)
Definition fobj_bound (sc : Scene) (fobj : FluidObject) : Prop :=
  exists ob fss, scene_base sc !! object fobj = Some ob /\ fluidmd ob = Some fss.

Lemma export_fluid_objects_meshes (fobjects : list FluidObject) (len : Z) :
  forall (st : LState) (fs : FS) (reports : list Report)
         (domains : list elbeem.elbeemSimulationSettings) (meshes : list elbeem.elbeemMesh)
         (jobs : list elbeem.elbeemSimulationSettings) (simulated : list (list Z)),
  Forall (fobj_bound (scene st)) fobjects ->
  export_fluid_objects fobjects len (mkBW st fs reports domains meshes jobs simulated)
  = inr (tt, mkBW st fs reports domains
               (meshes ++ omap (exported_mesh (scene st) len) fobjects) jobs simulated).
Proof.
  unfold export_fluid_objects.
  induction fobjects as [|fobj fobjects IH]; intros st fs reports domains meshes jobs simulated Hall.
  - cbn. rewrite app_nil_r. reflexivity.
  - inversion Hall as [|? ? (ob & fss & Hob & Hmd) Hrest]; subst.
    cbn [omap list_omap]. unfold exported_mesh at 1. rewrite Hob. cbn [mbind option_bind].
    rewrite Hmd. cbn [mbind option_bind].
    unfold mbind at 1, ST_bind at 1, lift at 1, deref_object at 1. cbn [bw_state scene].
    rewrite Hob. cbn [bw_files bw_reports bw_domains bw_meshes bw_jobs bw_simulated].
    unfold mbind at 1, ST_bind at 1, lift at 1, deref_fss at 1.
    unfold mbind at 1, ST_bind at 1, deref_object at 1. cbn [bw_state scene].
    rewrite Hob, Hmd. cbn [mret ST_ret bw_files bw_reports bw_domains bw_meshes bw_jobs bw_simulated].
    unfold mbind at 1, ST_bind at 1, lift at 1, get_scene at 1.
    cbn [bw_state scene bw_files bw_reports bw_domains bw_meshes bw_jobs bw_simulated].
    unfold mbind at 1, ST_bind at 1.
    destruct (is_domain_or_particle (fss_type fss)).
    + cbn [mret ST_ret]. apply IH. exact Hrest.
    + unfold elbeemAddMesh at 1.
      cbn [bw_state scene bw_files bw_reports bw_domains bw_meshes bw_jobs bw_simulated].
      rewrite IH by exact Hrest. rewrite <- app_assoc. reflexivity.
Qed.

(** The name under which a fluid object is exported, none for a domain
    or a particle object. *)
Definition exported_name (sc : Scene) (fobj : FluidObject) : option string :=
  ob ← scene_base sc !! object fobj;
  fss ← fluidmd ob;
  if is_domain_or_particle (fss_type fss) then None else Some (ob_name ob).

Lemma exported_mesh_name (sc : Scene) (len : Z) (fobj : FluidObject) :
  elbeem.name <$> exported_mesh sc len fobj = exported_name sc fobj.
Proof.
  unfold exported_mesh, exported_name.
  destruct (scene_base sc !! object fobj) as [ob|]; [|reflexivity]. cbn.
  destruct (fluidmd ob) as [fss|]; [|reflexivity]. cbn.
  destruct (is_domain_or_particle (fss_type fss)); reflexivity.
Qed.

(** [export_fluid_objects] hands one mesh descriptor to the solver for
    every fluid object that is neither a domain nor a particle object, in
    the order of the list and under the name of its object, and none for
    the others.  It changes nothing else: the heap, the scene, the disk,
    the reports, the domains and the jobs are as before. *)
Theorem export_registers_channel_objects_in_order (fobjects : list FluidObject) (len : Z)
    (w : BakeWorld) :
  Forall (fobj_bound (scene (bw_state w))) fobjects ->
  exists w' added,
    export_fluid_objects fobjects len w = inr (tt, w')
    /\ bw_meshes w' = bw_meshes w ++ added
    /\ elbeem.name <$> added = omap (exported_name (scene (bw_state w))) fobjects
    /\ bw_state w' = bw_state w
    /\ bw_files w' = bw_files w
    /\ bw_reports w' = bw_reports w
    /\ bw_domains w' = bw_domains w
    /\ bw_jobs w' = bw_jobs w
    /\ bw_simulated w' = bw_simulated w.
Proof.
  destruct w as [st fs reports domains meshes jobs simulated]. cbn [bw_state].
  intros Hall. rewrite (export_fluid_objects_meshes fobjects len) by exact Hall.
  eexists _, _. split; [reflexivity|]. cbn. split; [reflexivity|]. split; [|repeat split].
  clear Hall. induction fobjects as [|fobj fobjects IH]; [reflexivity|].
  cbn [omap list_omap]. rewrite <- (exported_mesh_name (scene st) len).
  destruct (exported_mesh (scene st) len fobj); cbn; [f_equal|]; exact IH.
Qed.

(** What a mesh descriptor may carry, for channels of [len] samples. *)
Definition channel_policy (len : Z) (m : elbeem.elbeemMesh) : Prop :=
  is_domain_or_particle (elbeem.type m) = false
  /\ elbeem.channelSizeTranslation m = len
  /\ elbeem.channelSizeRotation m = len
  /\ elbeem.channelSizeScale m = len
  /\ elbeem.channelSizeInitialVel m = len
  /\ elbeem.channelSizeActive m = len
  /\ (elbeem.channelSizeVertices m = len
      /\ elbeem.channelTranslation m = None
      /\ elbeem.channelRotation m = None
      /\ elbeem.channelScale m = None
      \/ elbeem.channelSizeVertices m = 0 /\ elbeem.channelVertices m = None)
  /\ (is_fluid_or_inflow (elbeem.type m) = false -> elbeem.channelInitialVel m = None)
  /\ (elbeem.type m <> OB_FLUIDSIM_CONTROL ->
      elbeem.channelSizeAttractforceStrength m = 0
      /\ elbeem.channelAttractforceStrength m = None
      /\ elbeem.channelAttractforceRadius m = None
      /\ elbeem.channelVelocityforceStrength m = None
      /\ elbeem.channelVelocityforceRadius m = None).

Lemma exported_mesh_policy (sc : Scene) (len : Z) (fobj : FluidObject) (m : elbeem.elbeemMesh) :
  exported_mesh sc len fobj = Some m -> channel_policy len m.
Proof.
  unfold exported_mesh.
  destruct (scene_base sc !! object fobj) as [ob|]; [|discriminate]. cbn.
  destruct (fluidmd ob) as [fss|]; [|discriminate]. cbn.
  destruct (is_domain_or_particle (fss_type fss)) eqn:Hdp; [discriminate|].
  intros Hm. injection Hm as <-. unfold channel_policy.
  cbn [elbeem.type elbeem.channelSizeTranslation elbeem.channelSizeRotation
       elbeem.channelSizeScale elbeem.channelSizeInitialVel elbeem.channelSizeActive
       elbeem.channelSizeVertices elbeem.channelTranslation elbeem.channelRotation
       elbeem.channelScale elbeem.channelVertices elbeem.channelInitialVel
       elbeem.channelSizeAttractforceStrength elbeem.channelAttractforceStrength
       elbeem.channelAttractforceRadius elbeem.channelVelocityforceStrength
       elbeem.channelVelocityforceRadius].
  split; [exact Hdp|]. do 5 (split; [reflexivity|]). split; [|split].
  - destruct (fluid_is_animated_mesh fss); [left|right]; repeat split.
  - intros ->. reflexivity.
  - intros Hc. rewrite bool_decide_eq_false_2 by exact Hc. repeat split.
Qed.

(** Every mesh descriptor that [export_fluid_objects] adds keeps to the
    channel policy: it is no domain and no particle object; its transform,
    velocity and activity channels have [len] samples; it carries either a
    vertex channel of [len] samples and no translation, rotation or scale
    channel (animated mesh), or no vertex channel; an initial velocity
    channel only if it is a FLUID or INFLOW object; force channels only if
    it is a CONTROL object. *)
Theorem export_keeps_channel_policy (fobjects : list FluidObject) (len : Z) (w : BakeWorld) :
  Forall (fobj_bound (scene (bw_state w))) fobjects ->
  exists w' added,
    export_fluid_objects fobjects len w = inr (tt, w')
    /\ bw_meshes w' = bw_meshes w ++ added
    /\ Forall (channel_policy len) added.
Proof.
  destruct w as [st fs reports domains meshes jobs simulated]. cbn [bw_state].
  intros Hall. rewrite (export_fluid_objects_meshes fobjects len) by exact Hall.
  eexists _, _. split; [reflexivity|]. cbn. split; [reflexivity|].
  apply Forall_forall. intros m (fobj & _ & Hm)%list_elem_of_omap.
  eapply exported_mesh_policy. exact Hm.
Qed.

End ExportProofs.

(* ===================================================================== *)
(** * Properties of the legacy bake                                       *)
(* ===================================================================== *)

Section BakeProofs.
Context `{FileSystem} `{LegacyHost}.



(** A step of the sampler inside the bake: it has returned, and the rest
    of the bake runs on the world with the new state. *)
Lemma lift_bind_inv {A B : Type} (m : M A) (f : A -> ST BakeWorld B) (w w' : BakeWorld) (r : B) :
  (lift m ≫= f) w = inr (r, w') ->
  exists a st,
    m (bw_state w) = inr (a, st)
    /\ f a (mkBW st (bw_files w) (bw_reports w) (bw_domains w) (bw_meshes w) (bw_jobs w)
              (bw_simulated w)) = inr (r, w').
Proof.
  unfold mbind, ST_bind, lift. destruct (m (bw_state w)) as [e|[a st]]; [discriminate|].
  intros Hrun. exists a, st. split; [reflexivity|exact Hrun].
Qed.

Lemma lift_ret_inv {A B : Type} (m : M A) (b : B) (w w' : BakeWorld) (r : B) :
  (lift m ≫= fun _ => mret b) w = inr (r, w') ->
  r = b
  /\ bw_files w' = bw_files w /\ bw_reports w' = bw_reports w /\ bw_domains w' = bw_domains w
  /\ bw_meshes w' = bw_meshes w /\ bw_jobs w' = bw_jobs w /\ bw_simulated w' = bw_simulated w.
Proof.
  intros (a & st & _ & Hret)%lift_bind_inv. injection Hret as <- <-. repeat split.
Qed.

(** Whenever [export_fluid_objects] returns, it has only added meshes. *)
Lemma export_fluid_objects_keeps (fobjects : list FluidObject) (len : Z) :
  forall (w w' : BakeWorld) (u : unit),
  export_fluid_objects fobjects len w = inr (u, w') ->
  bw_state w' = bw_state w /\ bw_files w' = bw_files w /\ bw_reports w' = bw_reports w
  /\ bw_domains w' = bw_domains w /\ bw_jobs w' = bw_jobs w
  /\ bw_simulated w' = bw_simulated w.
Proof.
  unfold export_fluid_objects.
  induction fobjects as [|fobj fobjects IH]; intros w w' u Hrun.
  - injection Hrun as _ <-. repeat split.
  - cbn beta iota delta [list_rect] in Hrun.
    apply lift_bind_inv in Hrun as (ob & st1 & Hob & Hrun).
    unfold deref_object in Hob.
    destruct (scene_base (scene (bw_state w)) !! object fobj) as [ob0|] eqn:Hlook;
      [|discriminate].
    injection Hob as _ <-.
    apply lift_bind_inv in Hrun as (fss & st2 & Hfss & Hrun). cbn [bw_state] in Hfss.
    assert (st2 = bw_state w) as ->.
    { unfold deref_fss, mbind, ST_bind, deref_object in Hfss. rewrite Hlook in Hfss.
      destruct (fluidmd ob0); [|discriminate]. injection Hfss as _ <-. reflexivity. }
    cbn [bw_files bw_reports bw_domains bw_meshes bw_jobs bw_simulated] in Hrun.
    apply lift_bind_inv in Hrun as (sc & st3 & Hsc & Hrun).
    injection Hsc as _ <-.
    cbn [bw_state bw_files bw_reports bw_domains bw_meshes bw_jobs bw_simulated] in Hrun.
    unfold mbind at 1, ST_bind at 1 in Hrun.
    destruct (is_domain_or_particle (fss_type fss)).
    + cbn [mret ST_ret] in Hrun. apply IH in Hrun. exact Hrun.
    + unfold elbeemAddMesh at 1 in Hrun.
      cbn [bw_state bw_files bw_reports bw_domains bw_meshes bw_jobs bw_simulated] in Hrun.
      apply IH in Hrun. exact Hrun.
Qed.

(** The errors that [fluid_init_filepaths] reports go with its result. *)
Lemma fluid_init_filepaths_errors (reports : list Report) (ds : FluidsimSettings) (fs : FS) :
  (exists added, fp_reports (fluid_init_filepaths reports ds fs).2 = reports ++ added)
  /\ if (fluid_init_filepaths reports ds fs).1
     then error_count (fp_reports (fluid_init_filepaths reports ds fs).2) = error_count reports
     else (error_count reports
           < error_count (fp_reports (fluid_init_filepaths reports ds fs).2))%nat.
Proof.
  unfold fluid_init_filepaths.
  destruct ds as [t act nov rate st en bs be vv ve g iv a1 a2 a3 a4 res prev mr lg p].
  cbn [surfdataPath set_surfdataPath].
  destruct p as [|c p];
    cbn [surfdataPath set_surfdataPath];
    destruct (BLI_dir_create_recursive _ fs) as [dir_exists fs1];
    destruct (BLI_file_is_writable _ fs1) as [is_writable fs2];
    destruct dir_exists, is_writable; cbn [negb orb];
    try (destruct (BLI_dir_create_recursive _ fs2) as [[] fs3];
         [destruct (BLI_file_is_writable _ fs3) as [[] fs4]|]; cbn [negb orb]);
    cbn [fst snd fp_reports];
    unfold BKE_reportf; rewrite <- ?app_assoc;
    rewrite ?error_count_app, ?error_count_warning, ?error_count_error;
    (split; [eexists; try reflexivity; symmetry; apply app_nil_r|]); lia.
Qed.

(** The result of [fluidsimBake] accounts for what it has done.  It
    returns 0 or 1 and never drops a report.  When it returns 0 it has
    reported at least one error, and the solver and the job system are as
    before.  When it returns 1 it has reported no error and has set up
    the solver with one domain of [r.efra] frames; with [do_job] it has
    queued one job for that domain and has not run the solver, without it
    it has run the solver once and has queued no job. *)
Lemma fluidsimBake_accounts (fsDomain : option nat) (do_job : bool)
    (w w' : BakeWorld) (r : Z) :
  fluidsimBake fsDomain do_job w = inr (r, w') ->
  (exists added, bw_reports w' = bw_reports w ++ added)
  /\ (r = 0
      /\ (error_count (bw_reports w) < error_count (bw_reports w'))%nat
      /\ bw_domains w' = bw_domains w /\ bw_meshes w' = bw_meshes w
      /\ bw_jobs w' = bw_jobs w /\ bw_simulated w' = bw_simulated w
      \/ r = 1
      /\ error_count (bw_reports w') = error_count (bw_reports w)
      /\ exists fsset,
           bw_domains w' = [fsset]
           /\ elbeem.noOfFrames fsset = r_efra (scene (bw_state w))
           /\ if do_job
              then bw_jobs w' = bw_jobs w ++ [fsset] /\ bw_simulated w' = bw_simulated w
              else bw_jobs w' = bw_jobs w
                   /\ bw_simulated w' = bw_simulated w ++ [[r_efra (scene (bw_state w))]]).
Proof.
  destruct w as [[h sc] fs reports domains meshes jobs simulated].
  cbn [bw_state bw_reports bw_domains bw_meshes bw_jobs bw_simulated scene].
  unfold fluidsimBake.
  unfold mbind at 1, ST_bind at 1, get_world at 1. cbn [bw_state bw_reports scene].
  rewrite Z.sub_0_r.
  destruct (Z.leb_spec (r_efra sc) 0) as [Hno|Hfr].
  { (* no frames *)
    unfold mbind at 1, ST_bind at 1, report at 1.
    cbn [bw_state bw_files bw_reports bw_domains bw_meshes bw_jobs bw_simulated].
    intros (-> & _ & -> & -> & -> & -> & ->)%lift_ret_inv.
    cbn [bw_reports bw_domains bw_meshes bw_jobs bw_simulated]. unfold BKE_report.
    split; [eexists; reflexivity|]. left.
    rewrite error_count_app, error_count_error. repeat split; lia. }
  destruct (fluid_validate_scene_cases reports sc fsDomain) as [E|(msg & E)]; rewrite E.
  2:{ (* the scene is not valid *)
    unfold mbind at 1, ST_bind at 1, put_reports at 1.
    cbn [bw_state bw_files bw_reports bw_domains bw_meshes bw_jobs bw_simulated Z.eqb].
    intros (-> & _ & -> & -> & -> & -> & ->)%lift_ret_inv.
    cbn [bw_reports bw_domains bw_meshes bw_jobs bw_simulated].
    split; [eexists; reflexivity|]. left.
    rewrite error_count_app, error_count_error. repeat split; lia. }
  unfold mbind at 1, ST_bind at 1, put_reports at 1.
  cbn [bw_state bw_files bw_reports bw_domains bw_meshes bw_jobs bw_simulated Z.eqb Pos.eqb].
  destruct fsDomain as [domain|]; [|discriminate].
  intros Hrun.
  apply lift_bind_inv in Hrun as (u1 & st1 & _ & Hrun).
  cbn [bw_state bw_files bw_reports bw_domains bw_meshes bw_jobs bw_simulated] in Hrun.
  apply lift_bind_inv in Hrun as (u2 & st2 & _ & Hrun).
  cbn [bw_state bw_files bw_reports bw_domains bw_meshes bw_jobs bw_simulated] in Hrun.
  apply lift_bind_inv in Hrun as (ds & st3 & _ & Hrun).
  cbn [bw_state bw_files bw_reports bw_domains bw_meshes bw_jobs bw_simulated] in Hrun.
  unfold mbind at 1, ST_bind at 1, get_world at 1 in Hrun.
  cbn [bw_state bw_files bw_reports bw_domains bw_meshes bw_jobs bw_simulated] in Hrun.
  pose proof (fluid_init_filepaths_errors reports ds fs) as ((added & Hadded) & Herr).
  destruct (fluid_init_filepaths reports ds fs) as [ok fp]. cbn [fst snd] in Hadded, Herr.
  unfold mbind at 1, ST_bind at 1, put_reports at 1 in Hrun.
  cbn [bw_state bw_files bw_reports bw_domains bw_meshes bw_jobs bw_simulated] in Hrun.
  unfold mbind at 1, ST_bind at 1, put_files at 1 in Hrun.
  cbn [bw_state bw_files bw_reports bw_domains bw_meshes bw_jobs bw_simulated] in Hrun.
  apply lift_bind_inv in Hrun as (u4 & st4 & _ & Hrun).
  cbn [bw_state bw_files bw_reports bw_domains bw_meshes bw_jobs bw_simulated] in Hrun.
  destruct ok; cbn [negb] in Hrun.
  2:{ (* the cache directory cannot be used *)
    apply lift_ret_inv in Hrun as (-> & _ & -> & -> & -> & -> & ->).
    cbn [bw_reports bw_domains bw_meshes bw_jobs bw_simulated].
    split; [exists added; exact Hadded|]. left. repeat split. exact Herr. }
  apply lift_bind_inv in Hrun as (ds' & st5 & _ & Hrun).
  cbn [bw_state bw_files bw_reports bw_domains bw_meshes bw_jobs bw_simulated] in Hrun.
  apply lift_bind_inv in Hrun as ([channels fobjects] & st6 & _ & Hrun).
  cbn [bw_state bw_files bw_reports bw_domains bw_meshes bw_jobs bw_simulated] in Hrun.
  apply lift_bind_inv in Hrun as (sc7 & st7 & _ & Hrun).
  cbn [bw_state bw_files bw_reports bw_domains bw_meshes bw_jobs bw_simulated] in Hrun.
  apply lift_bind_inv in Hrun as (u8 & st8 & _ & Hrun).
  cbn [bw_state bw_files bw_reports bw_domains bw_meshes bw_jobs bw_simulated] in Hrun.
  apply lift_bind_inv in Hrun as (fsDomainOb & st9 & _ & Hrun).
  cbn [bw_state bw_files bw_reports bw_domains bw_meshes bw_jobs bw_simulated] in Hrun.
  destruct (invert_m4_m4 (obmat fsDomainOb)) as [invDomMat|].
  2:{ (* the matrix of the domain cannot be inverted *)
    unfold mbind at 1, ST_bind at 1, report at 1 in Hrun.
    cbn [bw_state bw_files bw_reports bw_domains bw_meshes bw_jobs bw_simulated] in Hrun.
    apply lift_ret_inv in Hrun as (-> & _ & -> & -> & -> & -> & ->).
    cbn [bw_reports bw_domains bw_meshes bw_jobs bw_simulated]. unfold BKE_report.
    rewrite Hadded, <- app_assoc.
    split; [eexists; reflexivity|]. left.
    rewrite !error_count_app, error_count_error. rewrite Hadded, error_count_app in Herr.
    repeat split; lia. }
  apply lift_bind_inv in Hrun as (ds10 & st10 & _ & Hrun).
  cbn [bw_state bw_files bw_reports bw_domains bw_meshes bw_jobs bw_simulated] in Hrun.
  apply lift_bind_inv in Hrun as (sc11 & st11 & _ & Hrun).
  cbn [bw_state bw_files bw_reports bw_domains bw_meshes bw_jobs bw_simulated] in Hrun.
  unfold mbind at 1, ST_bind at 1, elbeemInit at 1 in Hrun.
  cbn [bw_state bw_files bw_reports bw_domains bw_meshes bw_jobs bw_simulated] in Hrun.
  unfold mbind at 1, ST_bind at 1, elbeemAddDomain at 1 in Hrun.
  cbn [bw_state bw_files bw_reports bw_domains bw_meshes bw_jobs bw_simulated app] in Hrun.
  unfold mbind at 1, ST_bind at 1 in Hrun.
  match type of Hrun with
  | context [export_fluid_objects ?fo ?len ?w0] =>
      pose proof (export_fluid_objects_keeps fo len w0) as Hexp;
      destruct (export_fluid_objects fo len w0) as [e|[u12 w12]]; [discriminate|]
  end.
  specialize (Hexp w12 u12 eq_refl) as (_ & _ & Hrep & Hdom & Hjobs & Hsim).
  cbn [bw_state bw_files bw_reports bw_domains bw_meshes bw_jobs bw_simulated] in Hrep, Hdom, Hjobs, Hsim.
  unfold mbind at 1, ST_bind at 1 in Hrun.
  destruct do_job.
  - unfold WM_jobs_start_fluid at 1 in Hrun.
    apply lift_ret_inv in Hrun as (-> & _ & -> & -> & _ & -> & ->).
    cbn [bw_reports bw_domains bw_meshes bw_jobs bw_simulated].
    rewrite Hrep, Hdom, Hjobs, Hsim.
    split; [exists added; exact Hadded|]. right.
    split; [reflexivity|]. split; [exact Herr|].
    eexists. split; [reflexivity|]. split; [reflexivity|]. split; reflexivity.
  - unfold elbeemSimulate at 1 in Hrun.
    apply lift_ret_inv in Hrun as (-> & _ & -> & -> & _ & -> & ->).
    cbn [bw_reports bw_domains bw_meshes bw_jobs bw_simulated].
    rewrite Hrep, Hdom, Hjobs, Hsim.
    split; [exists added; exact Hadded|]. right.
    split; [reflexivity|]. split; [exact Herr|].
    eexists. split; [reflexivity|]. split; [reflexivity|]. split; reflexivity.
Qed.


(** Only one bake job at a time.  While the job system holds a fluid bake
    job, [fluid_bake_invoke] returns [OPERATOR_CANCELLED] and changes
    nothing: it does not even report why.  Otherwise, whenever it
    returns, it has returned [OPERATOR_CANCELLED] with an error reported
    and no job queued, or [OPERATOR_FINISHED] with no error reported and
    exactly one job queued, and it has not run the solver in the caller. *)
Theorem fluid_bake_invoke_one_job_at_a_time (ob : option nat) (w : BakeWorld) :
  match bw_jobs w with
  | _ :: _ => fluid_bake_invoke ob w = inr (OPERATOR_CANCELLED, w)
  | [] =>
      forall (res : OperatorResult) (w' : BakeWorld),
      fluid_bake_invoke ob w = inr (res, w') ->
      bw_simulated w' = bw_simulated w
      /\ (res = OPERATOR_CANCELLED
          /\ bw_jobs w' = []
          /\ (error_count (bw_reports w) < error_count (bw_reports w'))%nat
          \/ res = OPERATOR_FINISHED
          /\ (exists fsset, bw_jobs w' = [fsset])
          /\ error_count (bw_reports w') = error_count (bw_reports w))
  end.
Proof.
  destruct (bw_jobs w) as [|job jobs] eqn:Hpending.
  2:{ unfold fluid_bake_invoke, mbind, ST_bind, get_world, WM_jobs_test.
      rewrite Hpending. reflexivity. }
  intros res w'. unfold fluid_bake_invoke, mbind, ST_bind, get_world, WM_jobs_test.
  rewrite Hpending.
  destruct (fluidsimBake ob true w) as [e|[r w1]] eqn:Hrun; [discriminate|].
  apply fluidsimBake_accounts in Hrun
    as (Hadd & [(-> & Herr & Hdom & Hmesh & Hjobs & Hsim)
               |(-> & Herr & fsset & Hdom & Hframes & Hjobs & Hsim)]);
    cbn [Z.eqb Pos.eqb mret ST_ret]; intros Hret; injection Hret as <- <-.
  - split; [exact Hsim|]. left. rewrite Hjobs, Hpending. repeat split. exact Herr.
  - split; [exact Hsim|]. right. split; [reflexivity|]. split; [|exact Herr].
    exists fsset. rewrite Hjobs, Hpending. reflexivity.
Qed.

End BakeProofs.

(* ===================================================================== *)
(** * The output files of an earlier bake                                 *)
(* ===================================================================== *)

Section DeleteProofs.
Context `{FrameFiles}.

(** Deleting a file removes that file and no other entry. *)
Definition deletes_one_file : Prop :=
  forall (p q : path) (fs : FS),
    BLI_exists q (BLI_delete_file p fs) = BLI_exists q fs && negb (bool_decide (q = p)).

Lemma delete_frames_spec (targetDir targetDirVel previewDir : path) (n : Z) :
  deletes_one_file ->
  forall (fuel : nat) (c : Z) (fs : FS),
  1 <= c <= n ->
  (Z.to_nat (n - c) < fuel)%nat ->
  (forall j k, c <= j < k /\ k <= n ->
     BLI_path_frame targetDir k
     ∉ [BLI_path_frame targetDir j; BLI_path_frame targetDirVel j;
        BLI_path_frame previewDir j]) ->
  (forall k, c <= k < n -> BLI_exists (BLI_path_frame targetDir k) fs = true) ->
  BLI_exists (BLI_path_frame targetDir n) fs = false ->
  exists fs',
    delete_frames fuel targetDir targetDirVel previewDir c fs = Some fs'
    /\ forall q,
         BLI_exists q fs' = true
         <-> BLI_exists q fs = true
             /\ forall k, c <= k < n ->
                  q ∉ [BLI_path_frame targetDir k; BLI_path_frame targetDirVel k;
                       BLI_path_frame previewDir k].
Proof.
  intros Hdel fuel.
  induction fuel as [|fuel IH]; intros c fs Hc Hfuel Hdistinct Hexist Hgap; [lia|].
  cbn [delete_frames]. cbv zeta.
  destruct (Z.eq_dec c n) as [->|Hne].
  - rewrite Hgap. exists fs. split; [reflexivity|].
    intros q. split; [intros Hq; split; [exact Hq|intros k Hk; lia]|intros [Hq _]; exact Hq].
  - rewrite (Hexist c) by lia.
    set (fs1 := BLI_delete_file (BLI_path_frame previewDir c)
                  (BLI_delete_file (BLI_path_frame targetDirVel c)
                     (BLI_delete_file (BLI_path_frame targetDir c) fs))).
    assert (Hfs1 : forall q,
              BLI_exists q fs1 = true
              <-> BLI_exists q fs = true
                  /\ q ∉ [BLI_path_frame targetDir c; BLI_path_frame targetDirVel c;
                          BLI_path_frame previewDir c]).
    { intros q. unfold fs1. rewrite !Hdel, !andb_true_iff, !negb_true_iff.
      rewrite !bool_decide_eq_false, !not_elem_of_cons. pose proof (not_elem_of_nil q). tauto. }
    destruct (IH (c + 1) fs1) as (fs' & Hrun & Hchar).
    + lia.
    + lia.
    + intros j k Hjk. apply Hdistinct. lia.
    + intros k Hk. apply Hfs1. split; [apply Hexist; lia|apply Hdistinct; lia].
    + destruct (BLI_exists (BLI_path_frame targetDir n) fs1) eqn:Hn; [|reflexivity].
      apply Hfs1 in Hn as [Hn _]. congruence.
    + exists fs'. split; [exact Hrun|]. intros q. rewrite Hchar, Hfs1. split.
      * intros [[Hq Hc0] Hlater]. split; [exact Hq|]. intros k Hk.
        destruct (Z.eq_dec k c) as [->|Hkc]; [exact Hc0|apply Hlater; lia].
      * intros [Hq Hall]. split; [split; [exact Hq|apply Hall; lia]|].
        intros k Hk. apply Hall. lia.
Qed.

(** [fluidsim_delete_until_lastframe] stops at the first gap.  When the
    surface files of the frames 1 to [n - 1] exist and that of frame [n]
    does not, the loop ends after [n] rounds, and the files left are those
    that were there, less the three output files of each frame from 1 to
    [n - 1]: the output files of the frames after the gap, and every other
    file, are still there. *)
Theorem delete_stops_at_first_missing_frame (fss : FluidsimSettings) (relbase : path) (fs : FS)
    (n : Z) (fuel : nat) :
  deletes_one_file ->
  (forall j k, 1 <= j < k /\ k <= n -> surface_file fss relbase k ∉ frame_files fss relbase j) ->
  1 <= n < 2147483647 ->
  (forall k, 1 <= k < n -> BLI_exists (surface_file fss relbase k) fs = true) ->
  BLI_exists (surface_file fss relbase n) fs = false ->
  (Z.to_nat n <= fuel)%nat ->
  exists fs',
    fluidsim_delete_until_lastframe fuel fss relbase fs = Some fs'
    /\ forall q,
         BLI_exists q fs' = true
         <-> BLI_exists q fs = true /\ forall k, 1 <= k < n -> q ∉ frame_files fss relbase k.
Proof.
  intros Hdel Hdistinct Hn Hexist Hgap Hfuel.
  unfold fluidsim_delete_until_lastframe. cbv zeta.
  apply delete_frames_spec with (n := n); try assumption; lia.
Qed.

End DeleteProofs.

(* ===================================================================== *)
(** * The properties on examples                                          *)
(* ===================================================================== *)

(** A heap with one buffer of two vector samples. *)
Definition two_sample_state : LState := mkLState [Live (replicate 8 F32.zero)] scenario1_scene.

Lemma set_channel_writes_one_sample_witness :
  exists st',
    set_channel (Some 0%nat) (F32.of_Z 7) [F32.of_Z 1; F32.of_Z 2; F32.of_Z 3] 1 3
      two_sample_state = inr (tt, st')
    /\ (forall j, 0 <= j < 3 ->
          peek (Some 0%nat) (1 * (3 + 1) + j) st'
          = [F32.of_Z 1; F32.of_Z 2; F32.of_Z 3] !! Z.to_nat j)
    /\ peek (Some 0%nat) (1 * (3 + 1) + 3) st' = Some (F32.of_Z 7)
    /\ (forall q k, q <> Some 0%nat \/ k < 1 * (3 + 1) \/ (1 + 1) * (3 + 1) <= k ->
          peek q k st' = peek q k two_sample_state)
    /\ (forall q, buffer_size q st' = buffer_size q two_sample_state)
    /\ scene st' = scene two_sample_state.
Proof.
  apply (set_channel_writes_one_sample 0 8 (F32.of_Z 7) [F32.of_Z 1; F32.of_Z 2; F32.of_Z 3]
           1 3 two_sample_state).
  - reflexivity.
  - right. reflexivity.
  - reflexivity.
  - lia.
  - lia.
Defined.

Lemma init_time_fills_timeAtFrame_witness :
  exists st',
    let taf := Some (length (mem scenario1_prepared)) in
    @init_time (static_host []) 0 (example_channels 5) scenario1_prepared
    = inr (mkChannels 5 (aniFrameTime (example_channels 5)) taf None None None, st')
    /\ buffer_size taf st' = Some (5 + 1)
    /\ peek taf 0 st' = Some F32.zero
    /\ peek taf 1 st' = Some F32.zero
    /\ (forall i, 2 <= i <= 5 ->
          exists prev,
            peek taf (i - 1) st' = Some prev
            /\ peek taf i st'
               = Some (F32.add prev (F32.of_double (aniFrameTime (example_channels 5)))))
    /\ (forall q k, q <> taf -> peek q k st' = peek q k scenario1_prepared)
    /\ scene st' = scene scenario1_prepared.
Proof.
  apply (@init_time_fills_timeAtFrame (static_host []) 0 (example_channels 5)
           (set_fluidmd (Some (set_bake_range 1 5 (-1) (example_fss OB_FLUIDSIM_DOMAIN ["cache"])))
              (example_object "Domain" OB_FLUIDSIM_DOMAIN))
           (set_bake_range 1 5 (-1) (example_fss OB_FLUIDSIM_DOMAIN ["cache"]))
           scenario1_prepared).
  - reflexivity.
  - reflexivity.
  - change (1 <= 5). lia.
Defined.

(** The state of the sampler on [control_scene] with the vertex cache of
    the CONTROL object, three frames of one vertex each, as only buffer. *)
Lemma set_vertex_channel_fills_frame_witness :
  exists st',
    let framesize := 3 * 1 + 1 in
    @set_vertex_channel (static_host [zero3]) (Some 0%nat) (F32.of_Z 7)
      (cache_only_object 2 (Some 0%nat)) 1 cache_state = inr (tt, st')
    /\ (forall j v,
          mesh_verts (@initElbeemMesh (static_host [zero3]) (scene cache_state)
                        (example_object "Control" OB_FLUIDSIM_CONTROL) true) !! j = Some v ->
          peek (Some 0%nat) (1 * framesize + 3 * Z.of_nat j) st' = Some (vx v)
          /\ peek (Some 0%nat) (1 * framesize + 3 * Z.of_nat j + 1) st' = Some (vy v)
          /\ peek (Some 0%nat) (1 * framesize + 3 * Z.of_nat j + 2) st' = Some (vz v))
    /\ peek (Some 0%nat) (1 * framesize + framesize - 1) st' = Some (F32.of_Z 7)
    /\ (forall q k, q <> Some 0%nat \/ k < 1 * framesize \/ (1 + 1) * framesize <= k ->
          peek q k st' = peek q k cache_state)
    /\ (forall q, buffer_size q st' = buffer_size q cache_state)
    /\ scene st' = scene cache_state.
Proof.
  apply (@set_vertex_channel_fills_frame (static_host [zero3]) 0 12 (F32.of_Z 7)
           (cache_only_object 2 (Some 0%nat)) 1
           (example_object "Control" OB_FLUIDSIM_CONTROL) cache_state).
  - reflexivity.
  - reflexivity.
  - reflexivity.
  - lia.
  - change ((1 + 1) * (3 * 1 + 1) <= 12). lia.
Defined.


(** The fluid objects of [control_scene], without buffers, and the world
    of a bake of that scene on an empty heap and an empty disk. *)
Definition control_fobjects : list FluidObject :=
  (fun k => mkFluidObject k None None None None None None None None None None 0 0) <$> [0; 1; 2]%nat.

Definition control_world : @BakeWorld scenario_fs :=
  bake_world ListFS.create ListFS.writable control_scene.

Lemma export_registers_channel_objects_in_order_witness :
  exists w' added,
    @export_fluid_objects scenario_fs (static_host []) control_fobjects 3 control_world
    = inr (tt, w')
    /\ bw_meshes w' = bw_meshes control_world ++ added
    /\ elbeem.name <$> added = ["Fluid"; "Control"]
    /\ bw_state w' = bw_state control_world
    /\ bw_files w' = bw_files control_world
    /\ bw_reports w' = bw_reports control_world
    /\ bw_domains w' = bw_domains control_world
    /\ bw_jobs w' = bw_jobs control_world
    /\ bw_simulated w' = bw_simulated control_world.
Proof.
  apply (@export_registers_channel_objects_in_order scenario_fs (static_host [])
           control_fobjects 3 control_world).
  repeat constructor; eexists _, _; split; reflexivity.
Defined.

Lemma export_keeps_channel_policy_witness :
  exists w' added,
    @export_fluid_objects scenario_fs (static_host []) control_fobjects 3 control_world
    = inr (tt, w')
    /\ bw_meshes w' = bw_meshes control_world ++ added
    /\ Forall (channel_policy 3) added.
Proof.
  apply (@export_keeps_channel_policy scenario_fs (static_host []) control_fobjects 3
           control_world).
  repeat constructor; eexists _, _; split; reflexivity.
Defined.




(** The world of scenario 1 while the job system holds a bake job. *)
Definition busy_world : @BakeWorld scenario_fs :=
  @mkBW scenario_fs (mkLState [] scenario1_scene) [] [] [] []
    [elbeem.mkSettings 1 50 25 F32.zero zero3 F32.zero (S754_zero false) 5 (-1) [] 5 5 5
       None None None []]
    [].

Lemma fluid_bake_invoke_one_job_at_a_time_witness :
  @fluid_bake_invoke scenario_fs (static_host []) (Some 0%nat) busy_world
  = inr (OPERATOR_CANCELLED, busy_world)
  /\ exists w',
       let w := bake_world ListFS.create ListFS.writable scenario1_scene in
       @fluid_bake_invoke scenario_fs (static_host []) (Some 0%nat) w
       = inr (OPERATOR_FINISHED, w')
       /\ bw_simulated w' = bw_simulated w
       /\ (OPERATOR_FINISHED = OPERATOR_CANCELLED
           /\ bw_jobs w' = []
           /\ (error_count (bw_reports w) < error_count (bw_reports w'))%nat
           \/ OPERATOR_FINISHED = OPERATOR_FINISHED
           /\ (exists fsset, bw_jobs w' = [fsset])
           /\ error_count (bw_reports w') = error_count (bw_reports w)).
Proof.
  split.
  - exact (@fluid_bake_invoke_one_job_at_a_time scenario_fs (static_host []) (Some 0%nat)
             busy_world).
  - eexists. cbv zeta. split; [vm_compute; reflexivity|].
    apply (@fluid_bake_invoke_one_job_at_a_time scenario_fs (static_host []) (Some 0%nat)
             (bake_world ListFS.create ListFS.writable scenario1_scene)).
    vm_compute. reflexivity.
Defined.

From Stdlib Require DecimalString.

(** Output files named after their kind and their frame, on a file system
    kept as the list of its entries. *)
Definition list_frame_files : @FrameFiles scenario_fs :=
  {| OB_FLUIDSIM_SURF_FINAL_OBJ_FNAME := "fluidsurface_final_####.bobj.gz";
     OB_FLUIDSIM_SURF_FINAL_VEL_FNAME := "fluidsurface_final_####.bvel.gz";
     OB_FLUIDSIM_SURF_PREVIEW_OBJ_FNAME := "fluidsurface_preview_####.bobj.gz";
     BLI_path_frame := fun p k => p ++ [DecimalString.NilZero.string_of_int (Z.to_int k)];
     BLI_delete_file := fun p fs => filter (fun q => q <> p) fs |}.

Lemma list_frame_files_deletes_one_file : @deletes_one_file scenario_fs list_frame_files.
Proof.
  intros p q fs. cbn. unfold ListFS.exists_.
  destruct (decide (q = p)) as [->|Hne].
  - rewrite (bool_decide_eq_true_2 (p = p)) by reflexivity. rewrite andb_false_r.
    apply bool_decide_eq_false. rewrite list_elem_of_filter. tauto.
  - rewrite (bool_decide_eq_false_2 (q = p)) by exact Hne. rewrite andb_true_r.
    apply bool_decide_ext. rewrite list_elem_of_filter. tauto.
Qed.

(** A cache with the output of the frames 1 and 2, no surface of frame 3,
    a surface of frame 4 and a file of another kind. *)
Definition old_bake_files : list path :=
  [ ["cache"; "fluidsurface_final_####.bobj.gz"; "1"];
    ["cache"; "fluidsurface_final_####.bvel.gz"; "1"];
    ["cache"; "fluidsurface_preview_####.bobj.gz"; "1"];
    ["cache"; "fluidsurface_final_####.bobj.gz"; "2"];
    ["cache"; "fluidsurface_final_####.bobj.gz"; "4"];
    ["cache"; "fluidsim.cfg"] ].

Lemma delete_stops_at_first_missing_frame_witness :
  exists fs',
    @fluidsim_delete_until_lastframe scenario_fs list_frame_files 3
      (example_fss OB_FLUIDSIM_DOMAIN ["cache"]) [] old_bake_files = Some fs'
    /\ forall q,
         @BLI_exists scenario_fs q fs' = true
         <-> @BLI_exists scenario_fs q old_bake_files = true
             /\ forall k, 1 <= k < 3 ->
                  q ∉ @frame_files scenario_fs list_frame_files
                        (example_fss OB_FLUIDSIM_DOMAIN ["cache"]) [] k.
Proof.
  apply (@delete_stops_at_first_missing_frame scenario_fs list_frame_files
           (example_fss OB_FLUIDSIM_DOMAIN ["cache"]) [] old_bake_files 3 3).
  - exact list_frame_files_deletes_one_file.
  - intros j k Hjk.
    assert (Hcases : j = 1 /\ k = 2 \/ j = 1 /\ k = 3 \/ j = 2 /\ k = 3) by lia.
    destruct Hcases as [[-> ->]|[[-> ->]|[-> ->]]]; vm_compute;
      intros Hin; repeat (apply elem_of_cons in Hin as [Hin|Hin]; [discriminate Hin|]);
      apply elem_of_nil in Hin; exact Hin.
  - lia.
  - intros k Hk. assert (Hcases : k = 1 \/ k = 2) by lia.
    destruct Hcases as [->| ->]; reflexivity.
  - reflexivity.
  - lia.
Defined.
